(** * Smart Laundry POS, AI agent: intent classification, store resolution,
      entity extraction and revenue comparison

    A shallow embedding of the decision logic of
      - [src/agents/analytics_agent_v2.py]        (class [AnalyticsAgent]),
      - [src/agents/customer_service_agent_v2.py] (class [CustomerServiceAgent]),
      - [src/tools/analytics_tools.py]            (class [AnalyticsTools]),
    followed by the properties of that logic.

    Conventions.
      - A Python [str] is a [string]; one [ascii] stands for one character, so
        the texts covered are those whose code points are below 256.  String
        literals of the source that only serve as output text are kept as
        they are written in the source file.
      - A Python [int] is a [Z]; a [float] is a [float] of [PrimFloat], the
        IEEE 754 binary64 numbers with the rounding of every operation, and a
        decimal literal stands for the nearest of them, as it does in Python.
      - A dynamically typed Python object is a [value].
      - A call that may raise returns a [res]: [Ret v] or [Raise e], where [e]
        stands for an instance of [Exception].
      - Methods that talk to the tool server or mutate the agent run in the
        monad [M]: agent state in, result, new agent state and the events of
        the call out. *)

From Stdlib Require Import String Ascii List ZArith NArith Bool Lia.
From Stdlib Require Import Strings.Byte DecimalString Floats.
Import ListNotations.

Set Warnings "-register-all,-inexact-float".

Local Open Scope list_scope.
Local Open Scope string_scope.

(* ================================================================== *)
(** ** Python strings *)
(* ================================================================== *)

Module PyStr.

(** [sub in s] for two [str]. *)
Fixpoint py_in (sub s : string) : bool :=
  if String.prefix sub s then true
  else match s with
       | EmptyString => false
       | String _ s' => py_in sub s'
       end.

(** [any(kw in query for kw in keywords)]. *)
Definition any_in (keywords : list string) (query : string) : bool :=
  existsb (fun kw => py_in kw query) keywords.

(** [w in words] for a list (or set) of [str]. *)
Definition str_mem (w : string) (words : list string) : bool :=
  existsb (String.eqb w) words.

(** [str.isspace] on one character (code points below 256). *)
Definition isspace (c : ascii) : bool :=
  let n := N_of_ascii c in
  ((9 <=? n) && (n <=? 13) || (28 <=? n) && (n <=? 32)
   || (n =? 133) || (n =? 160))%N.

(** [str.split()] without argument: the maximal runs of non-space
    characters, in order.  [cur] is the run being read, reversed. *)
Fixpoint split_aux (s : string) (cur : list ascii) : list string :=
  let flush := match cur with
               | [] => []
               | _ => [string_of_list_ascii (rev cur)]
               end in
  match s with
  | EmptyString => flush
  | String c s' =>
      if isspace c then (flush ++ split_aux s' [])%list
      else split_aux s' (c :: cur)
  end.

Definition split (s : string) : list string := split_aux s [].

(** [str.lower] on one character and on a string. *)
Definition lower_char (c : ascii) : ascii :=
  let n := N_of_ascii c in
  if ((65 <=? n) && (n <=? 90)
      || (192 <=? n) && (n <=? 222) && negb (n =? 215))%N
  then ascii_of_N (n + 32) else c.

Fixpoint lower (s : string) : string :=
  match s with
  | EmptyString => EmptyString
  | String c s' => String (lower_char c) (lower s')
  end.

(** [str.strip()]: leading and trailing white space removed. *)
Fixpoint lstrip (s : string) : string :=
  match s with
  | String c s' => if isspace c then lstrip s' else s
  | EmptyString => EmptyString
  end.

Definition rev_string (s : string) : string :=
  string_of_list_ascii (rev (list_ascii_of_string s)).

Definition strip (s : string) : string :=
  rev_string (lstrip (rev_string (lstrip s))).

(** [s[:n]] and [s[n:]] for [0 <= n]. *)
Definition take (n : nat) (s : string) : string := String.substring 0 n s.

Fixpoint drop (n : nat) (s : string) : string :=
  match n, s with
  | O, _ => s
  | S n', String _ s' => drop n' s'
  | S _, EmptyString => EmptyString
  end.

(** [s[a:b]] for [0 <= a <= b]. *)
Definition slice (a b : nat) (s : string) : string := take (b - a) (drop a s).

(** [s.count(c)] for a one-character [c]. *)
Fixpoint count_char (c : ascii) (s : string) : nat :=
  match s with
  | EmptyString => O
  | String d s' => (if Ascii.eqb c d then 1 else 0) + count_char c s'
  end.

(** [sep.join(parts)]. *)
Definition join (sep : string) (parts : list string) : string :=
  String.concat sep parts.

(** [all(f(c) for c in s)]. *)
Fixpoint all_chars (f : ascii -> bool) (s : string) : bool :=
  match s with
  | EmptyString => true
  | String c s' => f c && all_chars f s'
  end.

End PyStr.

(* ================================================================== *)
(** ** Python objects, results of calls *)
(* ================================================================== *)

(** An instance of [Exception]; [exn_text] is [str(e)]. *)
Record exn : Type := Exn { exn_class : string; exn_text : string }.

Inductive res (A : Type) : Type :=
| Ret (a : A)
| Raise (e : exn).
Arguments Ret {A} a.
Arguments Raise {A} e.

(** The objects the agent handles: what the JSON decoder produces, the byte
    containers [_format_uuid] knows, and [VObject] for an object of any
    other class, given by the name of the class and the truth value of the
    object; such a class has none of the methods and protocols used here
    ([get], [lower], [group], iteration, indexing, ordering, a format of
    its own). *)
Inductive value : Type :=
| VNone
| VBool (b : bool)
| VInt (n : Z)
| VFloat (x : float)
| VStr (s : string)
| VBytes (bs : list byte)
| VByteArray (bs : list byte)
| VMemoryView (bs : list byte)
| VList (items : list value)
| VTuple (items : list value)
| VDict (entries : list (string * value))
| VObject (class_name : string) (truth : bool).

(** [bool(v)]. *)
Definition truthy (v : value) : bool :=
  match v with
  | VNone => false
  | VBool b => b
  | VInt n => negb (n =? 0)%Z
  | VFloat x => negb (x =? 0)%float
  | VStr s => negb (String.eqb s "")
  | VBytes bs | VByteArray bs | VMemoryView bs =>
      match bs with [] => false | _ => true end
  | VList l | VTuple l => match l with [] => false | _ => true end
  | VDict d => match d with [] => false | _ => true end
  | VObject _ t => t
  end.

(** [type(v).__name__]. *)
Definition type_name (v : value) : string :=
  match v with
  | VNone => "NoneType"
  | VBool _ => "bool"
  | VInt _ => "int"
  | VFloat _ => "float"
  | VStr _ => "str"
  | VBytes _ => "bytes"
  | VByteArray _ => "bytearray"
  | VMemoryView _ => "memoryview"
  | VList _ => "list"
  | VTuple _ => "tuple"
  | VDict _ => "dict"
  | VObject c _ => c
  end.

(** [v == s] and [v != s] for a [str] [s]. *)
Definition eq_str (v : value) (s : string) : bool :=
  match v with
  | VStr s' => String.eqb s' s
  | _ => false
  end.

(** Dictionaries keep insertion order; a key occurs once. *)
Definition dict := list (string * value).

Fixpoint dict_get (d : dict) (k : string) : option value :=
  match d with
  | [] => None
  | (k', v) :: d' => if String.eqb k' k then Some v else dict_get d' k
  end.

(** [d[k] = v]: replaces in place, or appends a new key. *)
Fixpoint dict_set (d : dict) (k : string) (v : value) : dict :=
  match d with
  | [] => [(k, v)]
  | (k', v') :: d' =>
      if String.eqb k' k then (k', v) :: d' else (k', v') :: dict_set d' k v
  end.

Definition dict_keys (d : dict) : list string := map fst d.

(** The exception of [obj.attr] for an object without that attribute. *)
Definition attribute_error (obj : value) (attr : string) : exn :=
  Exn "AttributeError"
      ("'" ++ type_name obj ++ "' object has no attribute '" ++ attr ++ "'").

(** [obj.get(k, default)]: works on a [dict], raises on the other objects
    of [value]. *)
Definition py_get (obj : value) (k : string) (default : value) : res value :=
  match obj with
  | VDict d => Ret (match dict_get d k with Some v => v | None => default end)
  | _ => Raise (attribute_error obj "get")
  end.

(* ================================================================== *)
(** ** Regular expressions, as [re.search] runs them *)
(* ================================================================== *)

Module Regex.

(** The constructs used by the patterns of the two agents. *)
Inductive regex : Type :=
| Eps
| Lit (c : ascii)
| Range (lo hi : ascii)          (* [lo-hi] *)
| Digit                          (* \d *)
| WordB                          (* \b *)
| Seq (r1 r2 : regex)
| Alt (r1 r2 : regex)            (* r1|r2, r1 tried first *)
| Rep (r : regex) (lo hi : nat). (* r{lo,hi}, greedy *)

Definition in_range (lo hi c : ascii) : bool :=
  ((N_of_ascii lo <=? N_of_ascii c) && (N_of_ascii c <=? N_of_ascii hi))%N.

(** [\d] on a [str] pattern: the decimal digits; below 256 these are 0-9. *)
Definition is_digit (c : ascii) : bool := in_range "0" "9" c.

(** [\w] on a [str] pattern: alphanumeric or underscore (code points below
    256). *)
Definition is_word (c : ascii) : bool :=
  let n := N_of_ascii c in
  (in_range "0" "9" c || in_range "a" "z" c || in_range "A" "Z" c
   || (n =? 95) || (n =? 170) || (n =? 178) || (n =? 179) || (n =? 181)
   || (n =? 185) || (n =? 186) || (188 <=? n) && (n <=? 190)
   || (192 <=? n) && (n <=? 214) || (216 <=? n) && (n <=? 246)
   || (248 <=? n))%N.

(** [\b] between the character before the position and the one after. *)
Definition boundary (prev : option ascii) (s : string) : bool :=
  let before := match prev with Some c => is_word c | None => false end in
  let after := match s with String c _ => is_word c | EmptyString => false end in
  xorb before after.

(** Backtracking matcher.  [prev] is the character before the position, [s]
    the text from the position on, [k] what remains to be matched; the result
    is the text left after the whole match. *)
Fixpoint bt (r : regex) (prev : option ascii) (s : string)
  (k : option ascii -> string -> option string) : option string :=
  match r with
  | Eps => k prev s
  | Lit c =>
      match s with
      | String d s' => if Ascii.eqb c d then k (Some d) s' else None
      | EmptyString => None
      end
  | Range lo hi =>
      match s with
      | String d s' => if in_range lo hi d then k (Some d) s' else None
      | EmptyString => None
      end
  | Digit =>
      match s with
      | String d s' => if is_digit d then k (Some d) s' else None
      | EmptyString => None
      end
  | WordB => if boundary prev s then k prev s else None
  | Seq r1 r2 => bt r1 prev s (fun p t => bt r2 p t k)
  | Alt r1 r2 =>
      match bt r1 prev s k with
      | Some rest => Some rest
      | None => bt r2 prev s k
      end
  | Rep r' lo hi =>
      (fix rep (hi lo : nat) (prev : option ascii) (s : string)
         : option string :=
         match hi with
         | O => match lo with O => k prev s | S _ => None end
         | S hi' =>
             match bt r' prev s (fun p t => rep hi' (Nat.pred lo) p t) with
             | Some rest => Some rest
             | None => match lo with O => k prev s | S _ => None end
             end
         end) hi lo prev s
  end.

(** [re.search(r, s)]: the match at the leftmost position that has one;
    the result is [match.group()]. *)
Fixpoint search_from (r : regex) (prev : option ascii) (s : string)
  : option string :=
  match bt r prev s (fun _ rest => Some rest) with
  | Some rest => Some (PyStr.take (String.length s - String.length rest) s)
  | None =>
      match s with
      | EmptyString => None
      | String c s' => search_from r (Some c) s'
      end
  end.

Definition search (r : regex) (s : string) : option string :=
  search_from r None s.

(** A literal string as a pattern. *)
Fixpoint Str (s : string) : regex :=
  match s with
  | EmptyString => Eps
  | String c s' => Seq (Lit c) (Str s')
  end.

(** What a match is.  [derives r prev s prev' s']: at a position with the
    character [prev] before it and the text [s] after it, [r] matches up to
    the position with [prev'] before it and [s'] after it. *)
Inductive derives
  : regex -> option ascii -> string -> option ascii -> string -> Prop :=
| D_eps p s : derives Eps p s p s
| D_lit c p s : derives (Lit c) p (String c s) (Some c) s
| D_range lo hi d p s :
    in_range lo hi d = true ->
    derives (Range lo hi) p (String d s) (Some d) s
| D_digit d p s :
    is_digit d = true -> derives Digit p (String d s) (Some d) s
| D_wordb p s : boundary p s = true -> derives WordB p s p s
| D_seq r1 r2 p s p1 s1 p2 s2 :
    derives r1 p s p1 s1 -> derives r2 p1 s1 p2 s2 ->
    derives (Seq r1 r2) p s p2 s2
| D_alt_l r1 r2 p s p' s' :
    derives r1 p s p' s' -> derives (Alt r1 r2) p s p' s'
| D_alt_r r1 r2 p s p' s' :
    derives r2 p s p' s' -> derives (Alt r1 r2) p s p' s'
| D_rep_stop r hi p s : derives (Rep r 0 hi) p s p s
| D_rep_more r lo hi p s p1 s1 p2 s2 :
    derives r p s p1 s1 ->
    derives (Rep r (Nat.pred lo) hi) p1 s1 p2 s2 ->
    derives (Rep r lo (S hi)) p s p2 s2.

(** The character before the position that follows [pre]. *)
Fixpoint last_char (prev : option ascii) (pre : string) : option ascii :=
  match pre with
  | EmptyString => prev
  | String c pre' => last_char (Some c) pre'
  end.

(** [r] has the match [m] somewhere in the text [t]. *)
Definition matches_in (r : regex) (t m : string) : Prop :=
  exists pre post p',
    t = pre ++ m ++ post
    /\ derives r (last_char None pre) (m ++ post) p' post.

(** [m] is a match of [r] in [t] at the leftmost position where [r] has
    a match. *)
Definition leftmost_match (r : regex) (t m : string) : Prop :=
  exists pre post p',
    t = pre ++ m ++ post
    /\ derives r (last_char None pre) (m ++ post) p' post
    /\ forall pre1 rest1,
         t = pre1 ++ rest1 ->
         (String.length pre1 < String.length pre)%nat ->
         forall p1 s1, ~ derives r (last_char None pre1) rest1 p1 s1.

End Regex.

(* ================================================================== *)
(** ** AnalyticsAgent: keyword stage of the intent classifier *)
(* ================================================================== *)

Module Keywords.
Import PyStr.

Definition _is_daily_revenue_query (query : string) : bool :=
  any_in ["hari ini"; "harian"; "today"; "daily"; "kemarin"; "kemaren";
          "yesterday"] query.

Definition _is_weekly_query (query : string) : bool :=
  any_in ["minggu"; "mingguan"; "weekly"; "week"; "seminggu"] query.

Definition _is_monthly_query (query : string) : bool :=
  any_in ["bulan"; "bulanan"; "monthly"; "month"] query.

Definition _is_comparison_query (query : string) : bool :=
  any_in ["banding"; "compare"; "vs"; "dibanding"; "perbandingan"] query.

Definition _is_popular_services_query (query : string) : bool :=
  any_in ["populer"; "terlaris"; "top"; "favorit"; "popular"; "best"] query.

Definition _is_peak_hours_query (query : string) : bool :=
  any_in ["jam sibuk"; "peak"; "tersibuk"; "ramai"; "busy"] query.

Definition _is_churned_customers_query (query : string) : bool :=
  any_in ["churn"; "hilang"; "sekali order"; "tidak kembali"] query.

Definition _is_inactive_customers_query (query : string) : bool :=
  any_in ["tidak aktif"; "inactive"; "lama tidak"; "dormant"] query.

Definition _is_store_list_query (query : string) : bool :=
  any_in ["daftar toko"; "list store"; "toko apa"; "store apa"; "cabang";
          "semua toko"; "all stores"; "toko tersedia"; "available stores";
          "lihat toko"; "tampilkan toko"; "show stores"; "toko mana";
          "outlet"; "lokasi toko"; "store locations"] query.

Definition _is_store_detail_query (query : string) : bool :=
  any_in ["info toko"; "detail toko"; "store info"; "tentang toko";
          "alamat toko"] query.

Definition _is_points_query (query : string) : bool :=
  any_in ["poin"; "loyalti"; "loyalty"; "reward"; "point"; "points";
          "hadiah"; "bonus"] query.

Definition _is_points_info_query (query : string) : bool :=
  any_in ["informasi poin"; "info poin"; "tentang poin"; "apa itu poin";
          "penjelasan poin"; "sistem poin"; "points info"; "about points"]
         query.

Definition _is_points_redeem_query (query : string) : bool :=
  any_in ["tukar poin"; "tuker poin"; "redeem"; "pakai poin"; "gunakan poin";
          "cara tukar"; "cara pakai poin"; "cara gunakan poin";
          "menukar poin"; "gimana tukar"; "gimana cara tukar";
          "bagaimana tukar"] query.

Definition _is_points_earn_query (query : string) : bool :=
  any_in ["cara dapat poin"; "cara mendapat poin"; "cara kumpul poin";
          "gimana dapat poin"; "bagaimana dapat poin"; "earn points";
          "dapet poin"; "dapat poin"; "kumpulkan poin"] query.

Definition _is_points_summary_query (query : string) : bool :=
  any_in ["ringkasan poin"; "total poin"; "statistik poin"; "points summary";
          "semua poin"] query.

Definition _extract_period (query : string) : string :=
  if py_in "bulan" query || py_in "month" query then "month" else "week".

(** The dictionary with the keys intent, store_name, phone_number, period. *)
Record classification : Type := Classification {
  intent : value;
  store_name : value;
  phone_number : value;
  period : value
}.

Definition with_intent (c : classification) (i : string) : classification :=
  Classification (VStr i) (store_name c) (phone_number c) (period c).

Definition with_period (c : classification) (p : string) : classification :=
  Classification (intent c) (store_name c) (phone_number c) (VStr p).

(** The pattern [(08\d{8,12})]. *)
Definition phone_pattern : Regex.regex :=
  Regex.Seq (Regex.Str "08") (Regex.Rep Regex.Digit 8 12).

Definition _classify_intent_with_keywords (query_lower : string)
  : classification :=
  let result := Classification (VStr "general") VNone VNone VNone in
  let result :=
    match Regex.search phone_pattern query_lower with
    | Some m => Classification (intent result) (store_name result) (VStr m)
                               (period result)
    | None => result
    end in
  if _is_comparison_query query_lower then
    with_period (with_intent result "compare_periods")
                (_extract_period query_lower)
  else if _is_store_list_query query_lower then with_intent result "store_list"
  else if _is_store_detail_query query_lower then
    with_intent result "store_detail"
  else if _is_daily_revenue_query query_lower then
    with_intent result "daily_revenue"
  else if _is_weekly_query query_lower then with_intent result "weekly_revenue"
  else if _is_monthly_query query_lower then
    with_intent result "monthly_revenue"
  else if _is_popular_services_query query_lower then
    with_intent result "popular_services"
  else if _is_peak_hours_query query_lower then with_intent result "peak_hours"
  else if _is_churned_customers_query query_lower then
    with_intent result "churned_customers"
  else if _is_inactive_customers_query query_lower then
    with_intent result "inactive_customers"
  else if _is_points_summary_query query_lower then
    with_intent result "points_summary"
  else if _is_points_redeem_query query_lower then
    with_intent result "points_redeem"
  else if _is_points_earn_query query_lower then
    with_intent result "points_earn"
  else if _is_points_info_query query_lower then
    with_intent result "points_info"
  else if _is_points_query query_lower then with_intent result "points_check"
  else result.

(** The priority order as the specification lists it: each category with
    the intent it stands for. *)
Definition priority_order : list ((string -> bool) * string) :=
  [ (_is_comparison_query, "compare_periods");
    (_is_store_list_query, "store_list");
    (_is_store_detail_query, "store_detail");
    (_is_daily_revenue_query, "daily_revenue");
    (_is_weekly_query, "weekly_revenue");
    (_is_monthly_query, "monthly_revenue");
    (_is_popular_services_query, "popular_services");
    (_is_peak_hours_query, "peak_hours");
    (_is_churned_customers_query, "churned_customers");
    (_is_inactive_customers_query, "inactive_customers");
    (_is_points_summary_query, "points_summary");
    (_is_points_redeem_query, "points_redeem");
    (_is_points_earn_query, "points_earn");
    (_is_points_info_query, "points_info");
    (_is_points_query, "points_check") ].

(** First true predicate of a priority list decides; none gives general. *)
Definition first_true (order : list ((string -> bool) * string))
  (query : string) : string :=
  match find (fun entry => fst entry query) order with
  | Some entry => snd entry
  | None => "general"
  end.

End Keywords.

(* ================================================================== *)
(** ** What the agent takes from the Python runtime and its libraries *)
(* ================================================================== *)

(** The answer of the completion service to one prompt: [None] for a falsy
    response object, else what reading [response.text] gives. *)
Definition llm_response := option (res string).

(** A Gemini client: [generate_content_async] and [generate_content]. *)
Record gemini : Type := Gemini {
  generate_content_async : string -> res llm_response;
  generate_content : string -> res llm_response
}.

(** Library functions that are used but not modelled:
      - [py_str]: the built-in [str()] on an arbitrary object,
      - [py_title]: [str.title],
      - [json_loads]: [json.loads],
      - [format_intent_prompt]: [INTENT_CLASSIFICATION_PROMPT.format(query=q)],
      - [new_gemini_client]: what building the client from the configuration
        gives in the [gemini_client] property, [None] when that fails,
      - [format_text]: the evaluation of a report's f-strings (with
        [config.format_currency] and the number formats) on the given
        objects; it may raise. *)
Record runtime : Type := Runtime {
  py_str : value -> string;
  py_title : string -> string;
  json_loads : string -> res value;
  format_intent_prompt : string -> string;
  new_gemini_client : option gemini;
  format_text : string -> list value -> res string
}.

(* ================================================================== *)
(** ** AnalyticsAgent: UUID formatting and store match score *)
(* ================================================================== *)

Module Uuid.
Import PyStr.

Definition hex_digit (n : N) : ascii :=
  nth (N.to_nat n) (list_ascii_of_string "0123456789abcdef") "f"%char.

(** Lowercase hexadecimal digits of [n], most significant first. *)
Fixpoint hex_of_N_aux (fuel : nat) (n : N) (acc : string) : string :=
  match fuel with
  | O => acc
  | S fuel' =>
      let acc' := String (hex_digit (n mod 16)) acc in
      if (n / 16 =? 0)%N then acc' else hex_of_N_aux fuel' (n / 16) acc'
  end.

Definition hex_of_N (n : N) : string :=
  hex_of_N_aux (S (N.to_nat (N.size n))) n EmptyString.

(** [bytes.hex()]. *)
Definition byte_hex (b : byte) : string :=
  let n := Byte.to_N b in
  String (hex_digit (n / 16)) (String (hex_digit (n mod 16)) EmptyString).

Definition bytes_hex (bs : list byte) : string :=
  String.concat "" (map byte_hex bs).

(** [f'{b:02x}'] for an [int]: the sign counts in the width. *)
Definition format_02x (b : Z) : string :=
  if (b <? 0)%Z then String "-"%char (hex_of_N (Z.to_N (- b)))
  else let h := hex_of_N (Z.to_N b) in
       if (String.length h <? 2)%nat then String "0"%char h else h.

Definition format_value_error (v : value) : exn :=
  Exn "ValueError"
      ("Unknown format code 'x' for object of type '" ++ type_name v ++ "'").

Definition format_type_error (v : value) : exn :=
  Exn "TypeError"
      ("unsupported format string passed to " ++ type_name v
       ++ ".__format__").

(** [f'{b:02x}'] for an element of a sequence: integers and booleans have
    the format; a [str] or a [float] raises [ValueError], the other objects
    raise [TypeError]. *)
Definition format_item (v : value) : res string :=
  match v with
  | VInt n => Ret (format_02x n)
  | VBool b => Ret (format_02x (if b then 1 else 0))
  | VStr _ | VFloat _ => Raise (format_value_error v)
  | _ => Raise (format_type_error v)
  end.

(** [''.join(f'{b:02x}' for b in items)]. *)
Fixpoint join_items (items : list value) : res string :=
  match items with
  | [] => Ret EmptyString
  | v :: rest =>
      match format_item v with
      | Raise e => Raise e
      | Ret h =>
          match join_items rest with
          | Raise e => Raise e
          | Ret t => Ret (h ++ t)
          end
      end
  end.

(** [f"{h[:8]}-{h[8:12]}-{h[12:16]}-{h[16:20]}-{h[20:]}"]. *)
Definition dashed (h : string) : string :=
  take 8 h ++ "-" ++ slice 8 12 h ++ "-" ++ slice 12 16 h ++ "-"
  ++ slice 16 20 h ++ "-" ++ drop 20 h.

Section FormatUuid.
Variable rt : runtime.

Definition _format_uuid (uuid_value : value) : res string :=
  if negb (truthy uuid_value) then Ret ""
  else
    match uuid_value with
    | VStr s =>
        if (String.length s =? 36)%nat && (count_char "-" s =? 4)%nat
        then Ret s
        else if (String.length s =? 32)%nat then Ret (dashed s)
        else Ret s
    | VBytes bs | VByteArray bs => Ret (dashed (bytes_hex bs))
    | VList items | VTuple items =>
        if (List.length items =? 16)%nat then
          match join_items items with
          | Ret hex_str => Ret (dashed hex_str)
          | Raise e => Raise e
          end
        else Ret (py_str rt uuid_value)
    | VMemoryView bs => Ret (dashed (bytes_hex bs))
    | _ => Ret (py_str rt uuid_value)
    end.

End FormatUuid.

(** *** Encodings of a UUID *)

Definition is_lower_hex (c : ascii) : bool :=
  Regex.in_range "0" "9" c || Regex.in_range "a" "f" c.

(** Two lowercase hexadecimal digits. *)
Definition two_lower_hex (s : string) : bool :=
  match s with
  | String c1 (String c2 EmptyString) => is_lower_hex c1 && is_lower_hex c2
  | _ => false
  end.

Definition is_hex (c : ascii) : bool :=
  is_lower_hex c || Regex.in_range "A" "F" c.

(** The places of a dashed UUID: [true] where a dash stands. *)
Definition uuid_layout : list bool :=
  repeat false 8 ++ [true] ++ repeat false 4 ++ [true] ++ repeat false 4
  ++ [true] ++ repeat false 4 ++ [true] ++ repeat false 12.

Fixpoint follows_layout (hexp : ascii -> bool) (layout : list bool)
  (s : string) : bool :=
  match layout, s with
  | [], EmptyString => true
  | place :: layout', String c s' =>
      (if place then Ascii.eqb c "-" else hexp c)
      && follows_layout hexp layout' s'
  | _, _ => false
  end.

(** 8-4-4-4-12 hexadecimal digits between dashes; canonical when the
    digits are lowercase. *)
Definition dashed_uuid (s : string) : bool :=
  follows_layout is_hex uuid_layout s.

Definition canonical_uuid (s : string) : bool :=
  follows_layout is_lower_hex uuid_layout s.

Definition is_byte_value (v : value) : bool :=
  match v with
  | VInt n => (0 <=? n)%Z && (n <? 256)%Z
  | _ => false
  end.

(** The encodings of a UUID that the normalization accepts. *)
Definition accepted (v : value) : bool :=
  match v with
  | VStr s =>
      dashed_uuid s || (String.length s =? 32)%nat && all_chars is_hex s
  | VBytes bs | VByteArray bs | VMemoryView bs => (List.length bs =? 16)%nat
  | VList items | VTuple items =>
      (List.length items =? 16)%nat && forallb is_byte_value items
  | _ => false
  end.

Definition byte_of_item (v : value) : byte :=
  match v with
  | VInt n => match Byte.of_N (Z.to_N n) with Some b => b | None => x00 end
  | _ => x00
  end.

(** The canonical form as the specification words it: dashed, lowercase,
    36 characters, whatever the encoding. *)
Definition spec_normalize_uuid (v : value) : string :=
  match v with
  | VStr s =>
      if (String.length s =? 32)%nat then dashed (lower s) else lower s
  | VBytes bs | VByteArray bs | VMemoryView bs => dashed (bytes_hex bs)
  | VList items | VTuple items =>
      dashed (bytes_hex (map byte_of_item items))
  | _ => ""
  end.

End Uuid.

Module StoreMatch.
Import PyStr.

Definition common_words : list string :=
  ["laundry"; "toko"; "ruang"; "outlet"; "cabang"; "store"].

Definition _calculate_store_match_score (store_name query : string) : Z :=
  let store_words :=
    filter (fun w => negb (String.eqb w "") && (1 <? String.length w)%nat)
           (split store_name) in
  let unique_words :=
    filter (fun w => negb (str_mem w common_words)) store_words in
  let score := 0%Z in
  let score :=
    fold_left
      (fun score word =>
         if py_in word query then
           let score := (score + 1)%Z in
           if str_mem word unique_words then (score + 2)%Z else score
         else score)
      store_words score in
  if py_in store_name query then (score + 5)%Z else score.

(** The score as the specification words it: over the words of the store
    name (split at white space, longer than one character), one point for a
    word found in the query and two more when it is not a common word; five
    points when the whole name is found in the query. *)
Definition word_points (query word : string) : Z :=
  if py_in word query
  then (1 + (if str_mem word common_words then 0 else 2))%Z
  else 0%Z.

Definition spec_score (store_name query : string) : Z :=
  let words :=
    filter (fun w => (1 <? String.length w)%nat) (split store_name) in
  (fold_right Z.add 0 (map (word_points query) words)
   + (if py_in store_name query then 5 else 0))%Z.

End StoreMatch.

(* ================================================================== *)
(** ** CustomerServiceAgent: phone extraction *)
(* ================================================================== *)

Module CustomerService.
Import Regex.

Definition country_prefix : regex :=
  Alt (Str "+62") (Alt (Str "62") (Str "0")).

(** [(?:\+62|62|0)8[1-9][0-9]{7,10}] *)
Definition pattern1 : regex :=
  Seq country_prefix
      (Seq (Lit "8") (Seq (Range "1" "9") (Rep (Range "0" "9") 7 10))).

(** [\b08[0-9]{8,11}\b] *)
Definition pattern2 : regex :=
  Seq WordB (Seq (Str "08") (Seq (Rep (Range "0" "9") 8 11) WordB)).

Definition patterns : list regex := [pattern1; pattern2].

(** The loop over the patterns: the first pattern that matches somewhere
    in the message gives the result. *)
Fixpoint first_search (ps : list regex) (message : string) : option string :=
  match ps with
  | [] => None
  | p :: ps' =>
      match search p message with
      | Some m => Some m
      | None => first_search ps' message
      end
  end.

Definition _extract_phone (message : string) : option string :=
  first_search patterns message.

(** The mobile-number pattern as the specification words it: 08, or the
    same with +62 or 62 in place of the 0, followed by 8 to 12 digits. *)
Definition spec_phone_pattern : regex :=
  Seq country_prefix (Seq (Lit "8") (Rep Digit 8 12)).

(** What [_extract_phone] can return: +62, 62 or 0, then 8, then 8 to 11
    digits. *)
Definition phone_shape (m : string) : Prop :=
  exists cc ds,
    m = cc ++ "8" ++ ds
    /\ In cc ["+62"; "62"; "0"]
    /\ PyStr.all_chars is_digit ds = true
    /\ (8 <= String.length ds <= 11)%nat.

End CustomerService.

(* ================================================================== *)
(** ** AnalyticsTools: revenue comparison *)
(* ================================================================== *)

Module AnalyticsTools.

(** A row of the orders table; [created_at] in microseconds of UTC time,
    [total_amount] as [float(o.get('total_amount', 0))] reads it. *)
Record order : Type := Order {
  created_at : Z;
  total_amount : float;
  payment_status : string;
  status : string;
  store_id : string
}.

Definition second : Z := 1000000.
Definition day : Z := 86400 * second.

(** [t.replace(hour=h, minute=m, second=s)]: the microseconds are kept. *)
Definition replace_hms (t h m s : Z) : Z :=
  (t - t mod day + (h * 3600 + m * 60 + s) * second + t mod second)%Z.

(** [get_period_dates]: [now] is what [datetime.now(timezone.utc)] gives at
    the call. *)
Definition get_period_dates (now : Z) (period_name : string) : Z * Z :=
  let days (n : Z) := (n * day)%Z in
  if String.eqb period_name "today" then ((replace_hms now 0 0 0)%Z, now)
  else if String.eqb period_name "yesterday" then
    ((replace_hms (now - days 1) 0 0 0)%Z,
     (replace_hms (now - days 1) 23 59 59)%Z)
  else if String.eqb period_name "this_week" then ((now - days 7%Z)%Z, now)
  else if String.eqb period_name "last_week" then
    ((now - days 14%Z)%Z, (now - days 7%Z)%Z)
  else if String.eqb period_name "this_month" then ((now - days 30%Z)%Z, now)
  else if String.eqb period_name "last_month" then
    ((now - days 60%Z)%Z, (now - days 30%Z)%Z)
  else if String.eqb period_name "this_year" then ((now - days 365%Z)%Z, now)
  else ((now - days 7%Z)%Z, now).

(** [get_revenue_for_period]: the paid, not cancelled orders created in the
    window, of the store when one is given; their total and their number.
    [sum] adds the amounts one at a time from the left, each addition
    rounded (CPython up to 3.11; later versions carry a correction term);
    the [int] 0 it starts from, and returns for no order, is the float 0
    here. *)
Definition get_revenue_for_period (orders : list order)
  (store : option string) (window : Z * Z) : float * nat :=
  let selected :=
    filter (fun o =>
              (fst window <=? created_at o)%Z
              && (created_at o <=? snd window)%Z
              && String.eqb (payment_status o) "paid"
              && negb (String.eqb (status o) "cancelled")
              && match store with
                 | Some sid =>
                     if String.eqb sid "" then true
                     else String.eqb (store_id o) sid
                 | None => true
                 end)
           orders in
  (fold_left (fun total o => (total + total_amount o)%float) selected
             0%float,
   List.length selected).

(** The lines under "Calculate growth": [rev1 > 0] and [rev2 > 0] are false
    for a NaN. *)
Definition growth_percentage (rev1 rev2 : float) : float :=
  (if 0 <? rev1 then ((rev2 - rev1) / rev1) * 100
   else if 0 <? rev2 then 100
   else 0)%float.

Definition growth_direction (growth : float) : string :=
  if (0 <? growth)%float then "up"
  else if (growth <? 0)%float then "down"
  else "flat".

(** [a / b] rounded to the nearest integer, a tie to the even one
    ([0 <= a], [0 < b]). *)
Definition half_even_div (a b : Z) : Z :=
  let q := (a / b)%Z in
  match (2 * (a mod b) ?= b)%Z with
  | Lt => q
  | Gt => (q + 1)%Z
  | Eq => if Z.even q then q else (q + 1)%Z
  end.

(** [round(x, 2)] for a float [x], as [float.__round__] computes it: an
    infinity, a NaN and a zero are returned as they are; otherwise the
    exact value [m * 2 ** e] of [x] is rounded to a whole number of
    hundredths, a tie to the even one, and the result is the double
    nearest to that decimal number, with the sign of [x]. *)
Definition round2 (x : float) : float :=
  match Prim2SF x with
  | S754_finite s m e =>
      let hundredths :=
        if (e <? 0)%Z then half_even_div (100 * Zpos m) (2 ^ (- e))
        else (100 * Zpos m * 2 ^ e)%Z in
      match hundredths with
      | Zpos n =>
          SF2Prim (SFdiv prec emax (S754_finite s n 0)
                         (S754_finite false 100 0))
      | _ => SF2Prim (S754_zero s)
      end
  | _ => x
  end.

(** The dictionary [compare_revenue] returns, without the display strings
    ("formatted", "formatted_difference"). *)
Record period_summary : Type := PeriodSummary {
  name : string;
  revenue : float;
  order_count : nat
}.

Record comparison : Type := Comparison {
  period1 : period_summary;
  period2 : period_summary;
  reported_growth_percentage : float;
  reported_growth_direction : string;
  revenue_difference : float
}.

(** [now1], [now2]: the clock at the two calls of [get_period_dates]. *)
Definition compare_revenue (orders : list order) (now1 now2 : Z)
  (period1 period2 : string) (store_id : option string) : comparison :=
  let window1 := get_period_dates now1 period1 in
  let window2 := get_period_dates now2 period2 in
  let '(rev1, count1) := get_revenue_for_period orders store_id window1 in
  let '(rev2, count2) := get_revenue_for_period orders store_id window2 in
  let growth := growth_percentage rev1 rev2 in
  let direction := growth_direction growth in
  Comparison (PeriodSummary period1 rev1 count1)
             (PeriodSummary period2 rev2 count2)
             (round2 growth) direction (rev2 - rev1)%float.

End AnalyticsTools.

(* ================================================================== *)
(** ** AnalyticsAgent: state, effects *)
(* ================================================================== *)

Module Agent.
Import PyStr Keywords.

(** The methods of [LaundryToolboxClient] the agent calls. *)
Inductive call : Type :=
| load_analytics_tools
| list_stores_tool
| get_daily_revenue (date store_id : string)
| get_order_status_summary (store_id : string)
| get_weekly_revenue (store_id : string)
| get_monthly_revenue (store_id : string)
| get_popular_services (days limit : Z) (store_id : string)
| compare_revenue_periods (period : value) (store_id : string)
| get_peak_hours_tool (days : Z) (store_id : string)
| get_churned_customers_tool (days : Z)
| get_inactive_customers_tool (days : Z)
| get_customer_points_tool (phone : string)
| execute_tool (tool_name : string) (kwargs : list (string * value)).

(** What a run leaves behind: calls of the tool server, prompts sent to the
    completion service, warnings logged. *)
Inductive event : Type :=
| Called (c : call)
| Asked (prompt : string)
| Warned (message : string).

(** A tool client answers a call given the events so far: it returns an
    object or raises. *)
Definition toolbox := list event -> call -> res value.

Record agent : Type := AnalyticsAgent {
  _toolbox_client : toolbox;
  _gemini_client : option gemini;
  _tools_loaded : bool;
  _store_id : string;
  _store_cache : dict;
  _use_llm_fallback : bool
}.

Record world : Type := World { self : agent; events : list event }.

(** Computations of the agent: they may raise, and what they did to the
    agent and to the outside before raising stays done. *)
Definition M (A : Type) : Type := world -> res A * world.

Definition ret {A} (a : A) : M A := fun w => (Ret a, w).

Definition bind {A B} (m : M A) (f : A -> M B) : M B :=
  fun w =>
    match m w with
    | (Ret a, w') => f a w'
    | (Raise e, w') => (Raise e, w')
    end.

Notation "x <- m ;; k" := (bind m (fun x => k))
  (at level 61, m at next level, right associativity).
Notation "m ;;; k" := (bind m (fun _ => k))
  (at level 61, right associativity).

Definition lift {A} (r : res A) : M A := fun w => (r, w).

(** [try: body except Exception as e: handler e]. *)
Definition try_except {A} (body : M A) (handler : exn -> M A) : M A :=
  fun w =>
    match body w with
    | (Ret a, w') => (Ret a, w')
    | (Raise e, w') => handler e w'
    end.

Definition get_self : M agent := fun w => (Ret (self w), w).

Definition update_self (f : agent -> agent) : M unit :=
  fun w => (Ret tt, World (f (self w)) (events w)).

Definition emit (ev : event) : M unit :=
  fun w => (Ret tt, World (self w) (events w ++ [ev])%list).

(** [await self.toolbox_client.<method>(...)]. *)
Definition call_tool (c : call) : M value :=
  fun w =>
    (_toolbox_client (self w) (events w) c,
     World (self w) (events w ++ [Called c])%list).

(** [for x in xs: body x]. *)
Fixpoint for_each {A} (xs : list A) (body : A -> M unit) : M unit :=
  match xs with
  | [] => ret tt
  | x :: xs' => body x ;;; for_each xs' body
  end.

Definition set_tools_loaded (b : bool) (a : agent) : agent :=
  AnalyticsAgent (_toolbox_client a) (_gemini_client a) b (_store_id a)
                 (_store_cache a) (_use_llm_fallback a).

Definition set_store_cache (c : dict) (a : agent) : agent :=
  AnalyticsAgent (_toolbox_client a) (_gemini_client a) (_tools_loaded a)
                 (_store_id a) c (_use_llm_fallback a).

Definition set_gemini_client (g : option gemini) (a : agent) : agent :=
  AnalyticsAgent (_toolbox_client a) g (_tools_loaded a) (_store_id a)
                 (_store_cache a) (_use_llm_fallback a).

(** Iterating over an object. *)
Definition type_error (v : value) : exn :=
  Exn "TypeError" ("'" ++ type_name v ++ "' object is not iterable").

Definition chars (s : string) : list value :=
  map (fun c => VStr (String c EmptyString)) (list_ascii_of_string s).

Definition py_iter (v : value) : res (list value) :=
  match v with
  | VList l | VTuple l => Ret l
  | VDict d => Ret (map VStr (dict_keys d))
  | VStr s => Ret (chars s)
  | VBytes bs | VByteArray bs | VMemoryView bs =>
      Ret (map (fun b => VInt (Z.of_N (Byte.to_N b))) bs)
  | _ => Raise (type_error v)
  end.

(** [v.lower()] for the name of a store: a [str]; an object without
    [lower] raises.  A name that is a [bytes] or a [bytearray], which have
    a [lower] of their own, is left out of the model and treated as the
    objects without [lower]. *)
Definition py_lower (v : value) : res string :=
  match v with
  | VStr s => Ret (lower s)
  | _ => Raise (attribute_error v "lower")
  end.

Definition nl : string := String (ascii_of_nat 10) EmptyString.

Definition str_of_nat (n : nat) : string :=
  DecimalString.NilZero.string_of_uint (Nat.to_uint n).

Section WithRuntime.
Variable rt : runtime.

Definition _format_uuid := Uuid._format_uuid rt.

(** The [gemini_client] property: built on first use, [None] when that
    fails. *)
Definition gemini_client : M (option gemini) :=
  a <- get_self ;;
  match _gemini_client a with
  | Some g => ret (Some g)
  | None =>
      update_self (set_gemini_client (new_gemini_client rt)) ;;;
      ret (new_gemini_client rt)
  end.

Definition _ensure_tools_loaded : M unit :=
  a <- get_self ;;
  if negb (_tools_loaded a) then
    call_tool load_analytics_tools ;;;
    update_self (set_tools_loaded true)
  else ret tt.

(** The body of the loop of [_load_store_cache]. *)
Definition cache_store_normalized (store : value) : M unit :=
  name <- lift (py_get store "name" (VStr "")) ;;
  name_lower <- lift (py_lower name) ;;
  raw_id <- lift (py_get store "id" (VStr "")) ;;
  formatted <- lift (_format_uuid raw_id) ;;
  match store with
  | VDict d =>
      update_self (fun a =>
        set_store_cache
          (dict_set (_store_cache a) name_lower
                    (VDict (dict_set d "id" (VStr formatted)))) a)
  | _ =>
      lift (Raise (Exn "TypeError"
                       ("'" ++ type_name store
                        ++ "' object does not support item assignment")))
  end.

Definition _load_store_cache : M unit :=
  a <- get_self ;;
  if negb (truthy (VDict (_store_cache a))) then
    try_except
      (stores <- call_tool list_stores_tool ;;
       if truthy stores then
         items <- lift (py_iter stores) ;;
         for_each items cache_store_normalized
       else ret tt)
      (fun e => emit (Warned ("Failed to load store cache: " ++ exn_text e)))
  else ret tt.

Definition clear_store_cache : M unit := update_self (set_store_cache []).

(** *** Second stage of the classifier *)

Definition general_classification : classification :=
  Classification (VStr "general") VNone VNone VNone.

Definition startswith (p s : string) : bool := String.prefix p s.

Definition endswith (p s : string) : bool :=
  String.prefix (rev_string p) (rev_string s).

(** [text.split('\n', 1)[1]] when the text has a line feed. *)
Fixpoint after_first_line (s : string) : string :=
  match s with
  | EmptyString => EmptyString
  | String c s' => if Ascii.eqb c (ascii_of_nat 10) then s'
                   else after_first_line s'
  end.

(** The removal of the Markdown code fence around the reply. *)
Definition unfence (text : string) : string :=
  let text := strip text in
  if startswith "```" text then
    let text := if py_in nl text then after_first_line text else drop 3 text in
    let text := if endswith "```" text
                then take (String.length text - 3) text else text in
    let text := strip text in
    if startswith "json" text then strip (drop 4 text) else text
  else text.

(** From the parsed reply to the classification. *)
Definition classification_of (result : value) : res classification :=
  match py_get result "intent" (VStr "general") with
  | Raise e => Raise e
  | Ret i =>
      match py_get result "store_name" VNone,
            py_get result "phone_number" VNone,
            py_get result "period" VNone with
      | Ret s, Ret p, Ret d => Ret (Classification i s p d)
      | Raise e, _, _ | _, Raise e, _ | _, _, Raise e => Raise e
      end
  end.

Definition _classify_intent_with_llm (query : string) : M classification :=
  client <- gemini_client ;;
  match client with
  | None => ret general_classification
  | Some g =>
      found <-
        try_except
          (let prompt := format_intent_prompt rt query in
           emit (Asked prompt) ;;;
           response <- lift (generate_content_async g prompt) ;;
           match response with
           | None => ret None
           | Some reading =>
               text <- lift reading ;;
               if negb (String.eqb text "") then
                 result <- lift (json_loads rt (unfence text)) ;;
                 c <- lift (classification_of result) ;;
                 ret (Some c)
               else ret None
           end)
          (fun e =>
             if String.eqb (exn_class e) "JSONDecodeError" then
               emit (Warned ("Failed to parse LLM intent response: "
                             ++ exn_text e)) ;;;
               ret None
             else
               emit (Warned ("LLM intent classification error: "
                             ++ exn_text e)) ;;;
               ret None) ;;
      match found with
      | Some c => ret c
      | None => ret general_classification
      end
  end.

(** The client the [gemini_client] property gives. *)
Definition available_client (a : agent) : option gemini :=
  match _gemini_client a with
  | Some g => Some g
  | None => new_gemini_client rt
  end.

(** The ways the completion service fails to give a classification for a
    query: no client; the call raises; the response object is falsy;
    reading its text raises; the text is empty; the text, code fence
    removed, is not JSON; the JSON value is not an object. *)
Definition faulty_reply (a : agent) (query : string) : Prop :=
  match available_client a with
  | None => True
  | Some g =>
      match generate_content_async g (format_intent_prompt rt query) with
      | Raise _ => True
      | Ret None => True
      | Ret (Some (Raise _)) => True
      | Ret (Some (Ret text)) =>
          text = ""
          \/ match json_loads rt (unfence text) with
             | Raise _ => True
             | Ret (VDict _) => False
             | Ret _ => True
             end
      end
  end.
(** The classification step of [process_query]: keywords first, the
    completion service as fallback. *)
Definition classify (query : string) : M classification :=
  let query_lower := lower query in
  let classification := _classify_intent_with_keywords query_lower in
  a <- get_self ;;
  if eq_str (intent classification) "general" && _use_llm_fallback a then
    llm_classification <- _classify_intent_with_llm query ;;
    if negb (eq_str (intent llm_classification) "general")
    then ret llm_classification
    else ret classification
  else ret classification.

(** *** Responses *)

Definition failure (message : string) (e : exn) : value :=
  VDict [("success", VBool false); ("response", VStr message);
         ("error", VStr (exn_text e))].

Definition success (response : string) (data : value) : value :=
  VDict [("success", VBool true); ("response", VStr response);
         ("data", data)].

(** [x or 0]. *)
Definition or_zero (v : value) : value := if truthy v then v else VInt 0.

(** [v > 0] and [v < 0]: numbers are ordered, the other objects raise. *)
Definition not_ordered (op : string) (v : value) : exn :=
  Exn "TypeError"
      ("'" ++ op ++ "' not supported between instances of '" ++ type_name v
       ++ "' and 'int'").

Definition above_zero (v : value) : res bool :=
  match v with
  | VInt n => Ret (0 <? n)%Z
  | VBool b => Ret b
  | VFloat x => Ret (0 <? x)%float
  | _ => Raise (not_ordered ">" v)
  end.

Definition below_zero (v : value) : res bool :=
  match v with
  | VInt n => Ret (n <? 0)%Z
  | VBool _ => Ret false
  | VFloat x => Ret (x <? 0)%float
  | _ => Raise (not_ordered "<" v)
  end.

(** ["📈" if change > 0 else "📉" if change < 0 else "➡️"]. *)
Definition trend_of (change : value) : res string :=
  match above_zero change with
  | Raise e => Raise e
  | Ret true => Ret "📈"
  | Ret false =>
      match below_zero change with
      | Raise e => Raise e
      | Ret true => Ret "📉"
      | Ret false => Ret "➡️"
      end
  end.

(** [result[0] if isinstance(result, list) else result], for a truthy
    result. *)
Definition first_row (result : value) : value :=
  match result with
  | VList (row :: _) => row
  | _ => result
  end.

(** The lines that list the first five known stores, and the line that
    counts the others. *)
Definition store_lines (cache : dict) : string :=
  let store_names := firstn 5 (dict_keys cache) in
  let listed :=
    fold_left (fun response name => response ++ nl ++ "• " ++ py_title rt name)
              store_names "" in
  if (5 <? List.length cache)%nat
  then listed ++ nl ++ "• ... dan " ++ str_of_nat (List.length cache - 5)
       ++ " toko lainnya"
  else listed.

Definition _ask_for_store_context (report_type : string) : M value :=
  _load_store_cache ;;;
  a <- get_self ;;
  let response :=
    "📊 *" ++ py_title rt report_type ++ "*" ++ nl ++ nl
    ++ "Mohon sebutkan nama toko untuk melihat " ++ report_type ++ "."
    ++ nl ++ nl
    ++ "Contoh: `" ++ report_type ++ " toko [nama toko]`" ++ nl ++ nl
    ++ "🏪 *Toko tersedia:*" in
  let response := response ++ store_lines (_store_cache a) in
  let response :=
    response ++ nl ++ nl
    ++ "💡 Ketik `daftar toko` untuk melihat semua toko." in
  ret (success response (VDict [("requires_store", VBool true)])).

(** The loop of [_get_store_name_by_id] over the cache. *)
Fixpoint find_store_name (items : dict) (store_id : string) : res value :=
  match items with
  | [] => Ret (VStr (if negb (String.eqb store_id "")
                     then take 8 store_id else "Unknown"))
  | (store_name, store_info) :: rest =>
      match py_get store_info "id" VNone with
      | Raise e => Raise e
      | Ret id =>
          if eq_str id store_id
          then py_get store_info "name" (VStr (py_title rt store_name))
          else find_store_name rest store_id
      end
  end.

Definition _get_store_name_by_id (store_id : string) : M value :=
  _load_store_cache ;;;
  a <- get_self ;;
  lift (find_store_name (_store_cache a) store_id).

(** [store_id if store_id is not None else self._store_id]. *)
Definition effective (store_id : option string) (a : agent) : string :=
  match store_id with
  | Some s => s
  | None => _store_id a
  end.

(** *** Report handlers *)

Definition get_daily_report (date store_id : option string) : M value :=
  _ensure_tools_loaded ;;;
  a <- get_self ;;
  let effective_store_id := effective store_id a in
  if String.eqb effective_store_id "" then
    _ask_for_store_context "laporan harian"
  else
    try_except
      (revenue <- call_tool
         (get_daily_revenue (match date with Some d => d | None => "" end)
                            effective_store_id) ;;
       status_summary <-
         call_tool (get_order_status_summary effective_store_id) ;;
       if negb (truthy revenue) then
         ret (success "Belum ada data transaksi untuk tanggal ini." VNone)
       else
         date_str <- lift (py_get revenue "date" (VStr "Hari ini")) ;;
         total_orders <- lift (py_get revenue "total_orders" (VInt 0)) ;;
         paid <- lift (py_get revenue "paid_revenue" (VInt 0)) ;;
         unpaid <- lift (py_get revenue "unpaid_revenue" (VInt 0)) ;;
         total <- lift (py_get revenue "total_revenue" (VInt 0)) ;;
         store_name <- _get_store_name_by_id effective_store_id ;;
         response <- lift (format_text rt "daily_report"
                             [store_name; date_str; total; total_orders;
                              paid; unpaid; status_summary]) ;;
         ret (success response
                (VDict [("revenue", revenue);
                        ("status_summary", status_summary)])))
      (fun e => ret (failure "Gagal mengambil laporan harian." e)).

Definition get_weekly_report (store_id : option string) : M value :=
  _ensure_tools_loaded ;;;
  a <- get_self ;;
  let effective_store_id := effective store_id a in
  if String.eqb effective_store_id "" then
    _ask_for_store_context "laporan mingguan"
  else
    try_except
      (revenue <- call_tool (get_weekly_revenue effective_store_id) ;;
       if negb (truthy revenue) then
         ret (success "Belum ada data transaksi minggu ini." VNone)
       else
         total_orders <- lift (py_get revenue "total_orders" (VInt 0)) ;;
         paid <- lift (py_get revenue "paid_revenue" (VInt 0)) ;;
         total <- lift (py_get revenue "total_revenue" (VInt 0)) ;;
         avg <- lift (py_get revenue "average_order_value" (VInt 0)) ;;
         store_name <- _get_store_name_by_id effective_store_id ;;
         response <- lift (format_text rt "weekly_report"
                             [store_name; total; total_orders; paid; avg]) ;;
         ret (success response revenue))
      (fun e => ret (failure "Gagal mengambil laporan mingguan." e)).

Definition get_monthly_report (store_id : option string) : M value :=
  _ensure_tools_loaded ;;;
  a <- get_self ;;
  let effective_store_id := effective store_id a in
  if String.eqb effective_store_id "" then
    _ask_for_store_context "laporan bulanan"
  else
    try_except
      (revenue <- call_tool (get_monthly_revenue effective_store_id) ;;
       popular_services <-
         call_tool (get_popular_services 30 5 effective_store_id) ;;
       if negb (truthy revenue) then
         ret (success "Belum ada data transaksi bulan ini." VNone)
       else
         total_orders <- lift (py_get revenue "total_orders" (VInt 0)) ;;
         paid <- lift (py_get revenue "paid_revenue" (VInt 0)) ;;
         total <- lift (py_get revenue "total_revenue" (VInt 0)) ;;
         avg <- lift (py_get revenue "average_order_value" (VInt 0)) ;;
         response <- lift (format_text rt "monthly_report"
                             [total; total_orders; paid; avg;
                              popular_services]) ;;
         ret (success response
                (VDict [("revenue", revenue);
                        ("popular_services", popular_services)])))
      (fun e => ret (failure "Gagal mengambil laporan bulanan." e)).

Definition compare_periods (period : value) (store_id : option string)
  : M value :=
  _ensure_tools_loaded ;;;
  a <- get_self ;;
  let effective_store_id := effective store_id a in
  if String.eqb effective_store_id "" then
    _ask_for_store_context "perbandingan pendapatan"
  else
    try_except
      (comparison <-
         call_tool (compare_revenue_periods period effective_store_id) ;;
       if negb (truthy comparison) then
         ret (success "Data tidak cukup untuk perbandingan." VNone)
       else
         current <- lift (py_get comparison "current_revenue" (VInt 0)) ;;
         previous <- lift (py_get comparison "previous_revenue" (VInt 0)) ;;
         current_orders <-
           lift (py_get comparison "current_orders" (VInt 0)) ;;
         previous_orders <-
           lift (py_get comparison "previous_orders" (VInt 0)) ;;
         change <-
           lift (py_get comparison "revenue_change_percent" (VInt 0)) ;;
         trend <- lift (trend_of (or_zero change)) ;;
         store_name <- _get_store_name_by_id effective_store_id ;;
         response <- lift (format_text rt "compare_periods"
                             [VStr trend; period; store_name;
                              or_zero current; or_zero previous;
                              or_zero current_orders;
                              or_zero previous_orders; or_zero change]) ;;
         ret (success response comparison))
      (fun e => ret (failure "Gagal membandingkan periode." e)).

Definition get_top_services (days limit : Z) (store_id : option string)
  : M value :=
  _ensure_tools_loaded ;;;
  a <- get_self ;;
  let effective_store_id := effective store_id a in
  try_except
    (services <-
       call_tool (get_popular_services days limit effective_store_id) ;;
     if negb (truthy services) then
       ret (success "Belum ada data layanan." (VList []))
     else
       response <- lift (format_text rt "top_services" [services]) ;;
       ret (success response services))
    (fun e => ret (failure "Gagal mengambil data layanan populer." e)).

Definition get_peak_hours (days : Z) (store_id : option string) : M value :=
  _ensure_tools_loaded ;;;
  a <- get_self ;;
  let effective_store_id := effective store_id a in
  try_except
    (hours <- call_tool (get_peak_hours_tool days effective_store_id) ;;
     if negb (truthy hours) then
       ret (success "Belum ada data jam operasional." (VList []))
     else
       response <- lift (format_text rt "peak_hours" [hours]) ;;
       ret (success response hours))
    (fun e => ret (failure "Gagal menganalisis jam sibuk." e)).

Definition get_churned_customers (days : Z) : M value :=
  _ensure_tools_loaded ;;;
  try_except
    (customers <- call_tool (get_churned_customers_tool days) ;;
     if negb (truthy customers) then
       ret (success "Tidak ada pelanggan churn 🎉" (VList []))
     else
       response <- lift (format_text rt "churned_customers" [customers]) ;;
       ret (success response customers))
    (fun e => ret (failure "Gagal menganalisis pelanggan churn." e)).

Definition get_inactive_customers (days : Z) : M value :=
  _ensure_tools_loaded ;;;
  try_except
    (customers <- call_tool (get_inactive_customers_tool days) ;;
     if negb (truthy customers) then
       ret (success "Semua pelanggan aktif 🎉" (VList []))
     else
       response <- lift (format_text rt "inactive_customers" [customers]) ;;
       ret (success response customers))
    (fun e => ret (failure "Gagal menganalisis pelanggan tidak aktif." e)).

Definition get_customer_points (phone : string) : M value :=
  _ensure_tools_loaded ;;;
  try_except
    (result <- call_tool (get_customer_points_tool phone) ;;
     if negb (truthy result) then
       ret (success
              "Nomor tidak ditemukan dalam sistem. Pastikan nomor HP benar atau pelanggan sudah terdaftar."
              VNone)
     else
       let customer := first_row result in
       response <- lift (format_text rt "customer_points" [customer]) ;;
       ret (success response customer))
    (fun e => ret (failure "Gagal mengambil data poin." e)).

Definition get_points_summary (store_id : option string) : M value :=
  _ensure_tools_loaded ;;;
  a <- get_self ;;
  let effective_store_id :=
    match store_id with
    | Some s => if negb (String.eqb s "") then s else _store_id a
    | None => _store_id a
    end in
  if String.eqb effective_store_id "" then
    _load_store_cache ;;;
    a <- get_self ;;
    let response :=
      "📊 *Ringkasan Poin*" ++ nl ++ nl
      ++ "Mohon sebutkan nama toko untuk melihat ringkasan poin."
      ++ nl ++ nl
      ++ "Contoh: `ringkasan poin toko [nama toko]`" ++ nl ++ nl
      ++ "🏪 *Toko tersedia:*" in
    let response := response ++ store_lines (_store_cache a) in
    ret (success response (VDict [("requires_store", VBool true)]))
  else
    try_except
      (result <-
         call_tool (execute_tool "get-points-summary-by-store"
                                 [("store_id", VStr effective_store_id)]) ;;
       if negb (truthy result) then
         ret (success "Belum ada data poin untuk toko ini." VNone)
       else
         let summary := first_row result in
         total_customers <-
           lift (py_get summary "total_customers_with_points" (VInt 0)) ;;
         total_available <-
           lift (py_get summary "total_available_points" (VInt 0)) ;;
         total_lifetime <-
           lift (py_get summary "total_lifetime_points_issued" (VInt 0)) ;;
         avg_points <-
           lift (py_get summary "avg_points_per_customer" (VInt 0)) ;;
         store_name <- _get_store_name_by_id effective_store_id ;;
         response <- lift (format_text rt "points_summary"
                             [store_name; or_zero total_customers;
                              or_zero total_available; or_zero total_lifetime;
                              or_zero avg_points]) ;;
         ret (success response summary))
      (fun e => ret (failure "Gagal mengambil ringkasan poin." e)).

(** *** Stores *)

(** The body of the loop "Update store cache" of [list_stores]. *)
Definition cache_store (store : value) : M unit :=
  name <- lift (py_get store "name" (VStr "")) ;;
  name_lower <- lift (py_lower name) ;;
  update_self (fun a =>
    set_store_cache (dict_set (_store_cache a) name_lower store) a).

Definition list_stores : M value :=
  _ensure_tools_loaded ;;;
  try_except
    (stores <- call_tool list_stores_tool ;;
     if negb (truthy stores) then
       ret (success "Tidak ada toko terdaftar dalam sistem." (VList []))
     else
       items <- lift (py_iter stores) ;;
       for_each items cache_store ;;;
       response <- lift (format_text rt "store_list" [stores]) ;;
       ret (success response stores))
    (fun e => ret (failure "Gagal mengambil daftar toko dari database." e)).

Definition store_card (store : value) : M value :=
  name <- lift (py_get store "name" (VStr "N/A")) ;;
  address <- lift (py_get store "address" (VStr "-")) ;;
  phone <- lift (py_get store "phone" (VStr "-")) ;;
  response <- lift (format_text rt "store_detail" [name; address; phone]) ;;
  ret (success response store).

Definition get_store_by_name (name : string) : M value :=
  _load_store_cache ;;;
  let name_lower := lower name in
  a <- get_self ;;
  match dict_get (_store_cache a) name_lower with
  | Some store => store_card store
  | None =>
      match find (fun entry => py_in name_lower (fst entry))
                 (_store_cache a) with
      | Some entry => store_card (snd entry)
      | None =>
          ret (VDict [("success", VBool false);
                      ("response",
                       VStr ("Toko '" ++ name
                             ++ "' tidak ditemukan. Gunakan 'daftar toko' untuk melihat toko yang tersedia."));
                      ("data", VNone)])
      end
  end.

(** *** Store resolution *)

(** The loop of [_resolve_store_id]: the first store with the highest
    score, and that score. *)
Definition best_store (cache : dict) (query_lower : string)
  : option value * Z :=
  fold_left
    (fun best entry =>
       let score :=
         StoreMatch._calculate_store_match_score (fst entry) query_lower in
       if (snd best <? score)%Z then (Some (snd entry), score) else best)
    cache (None, 0%Z).

Definition _resolve_store_id (query provided_store_id : string) : M string :=
  if negb (String.eqb provided_store_id "") then
    lift (_format_uuid (VStr provided_store_id))
  else
    _load_store_cache ;;;
    a <- get_self ;;
    let query_lower := lower query in
    let best := best_store (_store_cache a) query_lower in
    let default :=
      if negb (String.eqb (_store_id a) "")
      then lift (_format_uuid (VStr (_store_id a)))
      else ret "" in
    match fst best with
    | Some store_info =>
        if truthy store_info && (2 <=? snd best)%Z then
          store_id <- lift (py_get store_info "id" (VStr "")) ;;
          if truthy store_id then lift (_format_uuid store_id) else ret ""
        else default
    | None => default
    end.

(** *** Knowledge about loyalty points *)

Definition knowledge_redeem : string :=
"🎁 *Cara Menukar Poin*

💡 *Langkah-langkah:*
1. Pastikan Anda sudah memiliki poin (min. 100 poin)
2. Saat transaksi, sampaikan ke kasir bahwa ingin tukar poin
3. Kasir akan memasukkan jumlah poin yang ingin ditukar
4. Poin akan dipotong dari saldo dan menjadi diskon

💰 *Nilai Tukar:*
• 1 poin = Rp 100 (dapat berbeda tiap toko)
• Contoh: 500 poin = Rp 50.000 diskon

📌 *Syarat & Ketentuan:*
• Minimum penukaran: 100 poin
• Maksimum: sesuai saldo poin Anda
• Poin tidak bisa diuangkan
• Berlaku untuk semua layanan

📱 Cek saldo poin: ketik `cek poin 08xxxxxxxxxx`".

Definition knowledge_earn : string :=
"🎁 *Cara Mendapat Poin*

📌 *Ketentuan Perolehan:*
• 1 poin per KG untuk layanan kiloan
• 1 poin per item untuk layanan satuan
• Poin otomatis ditambahkan setelah transaksi selesai

💡 *Tips Kumpulkan Poin:*
• Gunakan layanan kiloan untuk poin lebih banyak
• Ajak keluarga/teman untuk bertransaksi
• Poin tidak kadaluarsa

📱 Cek saldo poin: ketik `cek poin 08xxxxxxxxxx`".

Definition knowledge_check : string :=
"📱 *Cara Cek Poin*

Ketik: `cek poin 08xxxxxxxxxx`
Contoh: `cek poin 081234567890`

Atau langsung tanyakan ke kasir saat transaksi.".

Definition knowledge_general : string :=
"🎁 *Sistem Poin Loyalitas Smart Laundry*

📌 *Cara Mendapat Poin:*
• 1 poin per KG untuk layanan kiloan
• 1 poin per item untuk layanan satuan
• Poin otomatis ditambahkan setelah transaksi selesai

💰 *Cara Tukar Poin:*
• Sampaikan ke kasir saat transaksi
• 1 poin = Rp 100 (dapat berbeda tiap toko)
• Minimum penukaran: 100 poin

📱 *Cek Poin Pelanggan:*
Ketik: `cek poin 08xxxxxxxxxx`
Contoh: `cek poin 081234567890`".

Definition _get_points_knowledge (context : string) : value :=
  let response :=
    if String.eqb context "redeem" then knowledge_redeem
    else if String.eqb context "earn" then knowledge_earn
    else if String.eqb context "check" then knowledge_check
    else knowledge_general in
  VDict [("success", VBool true);
         ("response", VStr response);
         ("data",
          VDict [("type", VStr "points_knowledge");
                 ("context", VStr context);
                 ("earning_rate",
                  VDict [("kilo", VStr "1 poin per KG");
                         ("unit", VStr "1 poin per item")]);
                 ("redemption_rate", VStr "1 poin = Rp 100")])].

(** *** General questions *)

Definition _handle_complex_query (query : string) : M value :=
  client <- gemini_client ;;
  match client with
  | None =>
      ret (VDict [("success", VBool false);
                  ("response",
                   VStr "Maaf, pertanyaan ini membutuhkan analisis AI yang tidak tersedia saat ini.");
                  ("data", VNone)])
  | Some g =>
      try_except
        (daily <- call_tool (get_daily_revenue "" "") ;;
         weekly <- call_tool (get_weekly_revenue "") ;;
         services <- call_tool (get_popular_services 30 5 "") ;;
         prompt <- lift (format_text rt "complex_query_prompt"
                           [daily; weekly; services; VStr query]) ;;
         emit (Asked prompt) ;;;
         response <- lift (generate_content g prompt) ;;
         match response with
         | None =>
             lift (Raise (attribute_error VNone "text"))
         | Some reading =>
             text <- lift reading ;;
             ret (VDict [("success", VBool true);
                         ("response", VStr text);
                         ("ai_generated", VBool true);
                         ("data",
                          VDict [("daily", daily); ("weekly", weekly);
                                 ("services", services)])])
         end)
        (fun e => ret (failure "Gagal memproses pertanyaan analitik." e))
  end.

(** *** The router *)

(** [s.replace(old, '')] for a non-empty [old]; [skip] counts the characters
    of an occurrence still to be dropped. *)
Fixpoint remove_all_aux (old s : string) (skip : nat) : string :=
  match s with
  | EmptyString => EmptyString
  | String c s' =>
      match skip with
      | S k => remove_all_aux old s' k
      | O =>
          if String.prefix old s
          then remove_all_aux old s' (String.length old - 1)
          else String c (remove_all_aux old s' 0)
      end
  end.

Definition remove_all (old s : string) : string := remove_all_aux old s 0.

Definition store_detail_words : list string :=
  ["info toko"; "detail toko"; "store info"; "tentang toko"; "alamat toko"].

Definition process_query (query : string) (store_id : option string)
  : M value :=
  if String.eqb query "" || String.eqb (strip query) "" then
    ret (VDict [("success", VBool false);
                ("response", VStr "Mohon berikan pertanyaan.");
                ("data", VNone)])
  else
    _ensure_tools_loaded ;;;
    let query_lower := lower query in
    classification <- classify query ;;
    let intent := intent classification in
    let phone_number := phone_number classification in
    let period := period classification in
    effective_store_id <-
      _resolve_store_id query
        (match store_id with Some s => s | None => "" end) ;;
    if eq_str intent "store_list" then list_stores
    else if eq_str intent "store_detail" then
      let cleaned :=
        fold_left (fun cleaned word => strip (remove_all word cleaned))
                  store_detail_words query_lower in
      if negb (String.eqb cleaned "") then get_store_by_name cleaned
      else list_stores
    else if eq_str intent "compare_periods" then
      let period :=
        if truthy period then period else VStr (_extract_period query_lower) in
      compare_periods period (Some effective_store_id)
    else if eq_str intent "daily_revenue" then
      get_daily_report None (Some effective_store_id)
    else if eq_str intent "weekly_revenue" then
      get_weekly_report (Some effective_store_id)
    else if eq_str intent "monthly_revenue" then
      get_monthly_report (Some effective_store_id)
    else if eq_str intent "popular_services" then
      get_top_services 30 10 (Some effective_store_id)
    else if eq_str intent "peak_hours" then
      get_peak_hours 30 (Some effective_store_id)
    else if eq_str intent "churned_customers" then get_churned_customers 30
    else if eq_str intent "inactive_customers" then get_inactive_customers 30
    else if eq_str intent "points_summary" then
      get_points_summary (Some effective_store_id)
    else if eq_str intent "points_redeem" then
      ret (_get_points_knowledge "redeem")
    else if eq_str intent "points_earn" then
      ret (_get_points_knowledge "earn")
    else if eq_str intent "points_info" then
      ret (_get_points_knowledge "general")
    else if eq_str intent "points_check" then
      if truthy phone_number then
        match phone_number with
        | VStr phone => get_customer_points phone
        | _ => lift (Raise (attribute_error phone_number "group"))
        end
      else
        match Regex.search phone_pattern query with
        | Some phone => get_customer_points phone
        | None => ret (_get_points_knowledge "check")
        end
    else _handle_complex_query query.

End WithRuntime.

End Agent.

(* ================================================================== *)
(** ** The requests an agent serves, and concrete surroundings *)
(* ================================================================== *)

Module Requests.
Import Agent.

(** The handlers of the agent that query the data store inside a guarded
    block, each with its arguments. *)
Inductive request : Type :=
| DailyReport (date store_id : option string)
| WeeklyReport (store_id : option string)
| MonthlyReport (store_id : option string)
| ComparePeriods (period : value) (store_id : option string)
| TopServices (days limit : Z) (store_id : option string)
| PeakHours (days : Z) (store_id : option string)
| ChurnedCustomers (days : Z)
| InactiveCustomers (days : Z)
| CustomerPoints (phone : string)
| PointsSummary (store_id : option string)
| ListStores.

Definition run (rt : runtime) (r : request) : M value :=
  match r with
  | DailyReport date store_id => get_daily_report rt date store_id
  | WeeklyReport store_id => get_weekly_report rt store_id
  | MonthlyReport store_id => get_monthly_report rt store_id
  | ComparePeriods period store_id => compare_periods rt period store_id
  | TopServices days limit store_id => get_top_services rt days limit store_id
  | PeakHours days store_id => get_peak_hours rt days store_id
  | ChurnedCustomers days => get_churned_customers rt days
  | InactiveCustomers days => get_inactive_customers rt days
  | CustomerPoints phone => get_customer_points rt phone
  | PointsSummary store_id => get_points_summary rt store_id
  | ListStores => list_stores rt
  end.


(** The store the handler works for: the argument, else the agent's own. *)
Definition store_of (r : request) (a : agent) : string :=
  match r with
  | DailyReport _ s | WeeklyReport s | MonthlyReport s | ComparePeriods _ s
  | TopServices _ _ s | PeakHours _ s => effective s a
  | PointsSummary s =>
      match s with
      | Some x => if String.eqb x "" then _store_id a else x
      | None => _store_id a
      end
  | _ => ""
  end.

(** The handlers that ask for a store when they have none. *)
Definition requires_store (r : request) : bool :=
  match r with
  | DailyReport _ _ | WeeklyReport _ | MonthlyReport _ | ComparePeriods _ _
  | PointsSummary _ => true
  | _ => false
  end.


(** The name of the report in the request for a store. *)
Definition report_type (r : request) : string :=
  match r with
  | DailyReport _ _ => "laporan harian"
  | WeeklyReport _ => "laporan mingguan"
  | MonthlyReport _ => "laporan bulanan"
  | ComparePeriods _ _ => "perbandingan pendapatan"
  | _ => "ringkasan poin"
  end.

(** Calls that read business data, as opposed to loading the tool set and
    listing the stores. *)
Definition is_report_query (c : call) : bool :=
  match c with
  | load_analytics_tools | list_stores_tool => false
  | _ => true
  end.

Definition is_report_event (ev : event) : bool :=
  match ev with
  | Called c => is_report_query c
  | _ => false
  end.

(** A response that reports success. *)
Definition is_success (v : value) : bool :=
  match v with
  | VDict (("success", VBool true) :: _) => true
  | _ => false
  end.

(** Events among which no business data is read. *)
Definition quiet (evs : list event) : bool :=
  forallb (fun ev => negb (is_report_event ev)) evs.







Section StoreRequest.
Variable rt : runtime.

(** The text that asks for a store, piece by piece: the opening of the
    handler, one line for each listed store, the count of the stores not
    listed, the closing hint. *)
Definition ask_opening (r : request) : string :=
  match r with
  | PointsSummary _ =>
      "📊 *Ringkasan Poin*" ++ nl ++ nl
      ++ "Mohon sebutkan nama toko untuk melihat ringkasan poin."
      ++ nl ++ nl
      ++ "Contoh: `ringkasan poin toko [nama toko]`" ++ nl ++ nl
      ++ "🏪 *Toko tersedia:*"
  | _ =>
      "📊 *" ++ py_title rt (report_type r) ++ "*" ++ nl ++ nl
      ++ "Mohon sebutkan nama toko untuk melihat " ++ report_type r ++ "."
      ++ nl ++ nl
      ++ "Contoh: `" ++ report_type r ++ " toko [nama toko]`" ++ nl ++ nl
      ++ "🏪 *Toko tersedia:*"
  end.

Definition listed_stores (cache : dict) : list string :=
  firstn 5 (dict_keys cache).

Definition store_line (name : string) : string :=
  nl ++ "• " ++ py_title rt name.

Definition others_line (cache : dict) : string :=
  if (5 <? List.length cache)%nat
  then nl ++ "• ... dan " ++ str_of_nat (List.length cache - 5)
       ++ " toko lainnya"
  else "".

Definition ask_closing (r : request) : string :=
  match r with
  | PointsSummary _ => ""
  | _ => nl ++ nl ++ "💡 Ketik `daftar toko` untuk melihat semua toko."
  end.

Definition flat (parts : list string) : string :=
  fold_right append "" parts.

Definition store_request (r : request) (cache : dict) : string :=
  ask_opening r ++ flat (map store_line (listed_stores cache))
  ++ others_line cache ++ ask_closing r.

End StoreRequest.

End Requests.

Module Scenario.
Import Agent.

(** [str.title] on text whose letters are ASCII letters. *)
Definition is_ascii_letter (c : ascii) : bool :=
  Regex.in_range "a" "z" c || Regex.in_range "A" "Z" c.

Definition upper_ascii (c : ascii) : ascii :=
  if Regex.in_range "a" "z" c then ascii_of_N (N_of_ascii c - 32) else c.

Fixpoint title_aux (previous_is_cased : bool) (s : string) : string :=
  match s with
  | EmptyString => EmptyString
  | String c s' =>
      if is_ascii_letter c then
        String (if previous_is_cased then PyStr.lower_char c
                else upper_ascii c)
               (title_aux true s')
      else String c (title_aux false s')
  end.

Definition ascii_title (s : string) : string := title_aux false s.

(** [str()] on the simple objects. *)
Definition simple_str (v : value) : string :=
  match v with
  | VNone => "None"
  | VBool true => "True"
  | VBool false => "False"
  | VInt n => DecimalString.NilZero.string_of_int (Z.to_int n)
  | VStr s => s
  | _ => "<object>"
  end.

Definition quote : string := String (ascii_of_nat 34) EmptyString.

(** A reply of the completion service and what the JSON decoder makes of
    it; the decoder of the scenario knows this one text. *)
Definition weekly_reply : string :=
  "{" ++ quote ++ "intent" ++ quote ++ ": " ++ quote ++ "weekly_revenue"
  ++ quote ++ "}".

Definition decode_reply (text : string) : res value :=
  if String.eqb text weekly_reply
  then Ret (VDict [("intent", VStr "weekly_revenue")])
  else Raise (Exn "JSONDecodeError"
                  "Expecting value: line 1 column 1 (char 0)").

Definition rt0 : runtime :=
  Runtime simple_str ascii_title decode_reply (fun query => query) None
          (fun template _ => Ret template).

Definition connection_error : exn :=
  Exn "ConnectionError" "All connection attempts failed".

(** A tool server that cannot be reached. *)
Definition server_down : toolbox := fun _ _ => Raise connection_error.

(** A tool server whose tools load and whose queries fail. *)
Definition queries_fail : toolbox :=
  fun _ c =>
    match c with
    | load_analytics_tools => Ret (VList [])
    | _ => Raise connection_error
    end.


(** A tool server with one store, whose id comes without dashes. *)
Definition sudirman : value :=
  VDict [("id", VStr "29edf3ae6ac342b3abf890494dcdc7c5");
         ("name", VStr "Laundry Sudirman")].

Definition one_store : toolbox :=
  fun _ c =>
    match c with
    | load_analytics_tools => Ret (VList [])
    | list_stores_tool => Ret (VList [sudirman])
    | _ => Ret VNone
    end.

(** A tool server with three stores, two of them named after Sudirman. *)
Definition kemang : value :=
  VDict [("id", VStr "0b5c1d2e-7f80-4a91-b2c3-d4e5f6a7b8c9");
         ("name", VStr "Laundry Kemang")].

Definition sudirman_express : value :=
  VDict [("id", VStr "5e6f7a8b-9c0d-4e1f-8a2b-3c4d5e6f7a8b");
         ("name", VStr "Sudirman Express")].

Definition three_stores : toolbox :=
  fun _ c =>
    match c with
    | load_analytics_tools => Ret (VList [])
    | list_stores_tool => Ret (VList [kemang; sudirman; sudirman_express])
    | _ => Ret VNone
    end.

(** The invariant of the store cache: every cached store has a [str] id
    that [_format_uuid] returns unchanged. *)
Definition normalized_cache (rt : runtime) (cache : dict) : bool :=
  forallb
    (fun entry =>
       match py_get (snd entry) "id" VNone with
       | Ret (VStr id) =>
           match Uuid._format_uuid rt (VStr id) with
           | Ret id' => String.eqb id' id
           | Raise _ => false
           end
       | _ => false
       end)
    cache.

(** [AnalyticsAgent(toolbox_client=t, store_id=store_id)]. *)
Definition new_agent (t : toolbox) (store_id : string) : agent :=
  AnalyticsAgent t None false store_id [] true.

Definition start (t : toolbox) (store_id : string) : world :=
  World (new_agent t store_id) [].

(** The same agent once its tools are loaded. *)
Definition ready (t : toolbox) (store_id : string) : world :=
  World (set_tools_loaded true (new_agent t store_id)) [].

(** A completion service that answers every prompt with [weekly_reply]. *)
Definition helpful_client : gemini :=
  Gemini (fun _ => Ret (Some (Ret weekly_reply)))
         (fun _ => Ret (Some (Ret "Pendapatan stabil."))).

(** Two paid orders of 50000 and 100000 in the last week, none in the week
    before: previous is 0, current is 150000. *)
Definition week_orders : list AnalyticsTools.order :=
  [ AnalyticsTools.Order (10 * AnalyticsTools.day) 50000 "paid" "completed"
                         "s1";
    AnalyticsTools.Order (12 * AnalyticsTools.day) 100000 "paid" "completed"
                         "s1";
    AnalyticsTools.Order (13 * AnalyticsTools.day) 70000 "unpaid" "pending"
                         "s1" ].

(** 300000 paid in the week before, 400000 in the last week. *)
Definition growing_orders : list AnalyticsTools.order :=
  [ AnalyticsTools.Order (3 * AnalyticsTools.day) 300000 "paid" "completed"
                         "s1";
    AnalyticsTools.Order (10 * AnalyticsTools.day) 400000 "paid" "completed"
                         "s1" ].

(** 1000000 paid in the week before, 1000001 in the last week. *)
Definition steady_orders : list AnalyticsTools.order :=
  [ AnalyticsTools.Order (3 * AnalyticsTools.day) 1000000 "paid" "completed"
                         "s1";
    AnalyticsTools.Order (10 * AnalyticsTools.day) 1000001 "paid" "completed"
                         "s1" ].

End Scenario.

From Stdlib Require Import Sorting.Sorted Sorting.Permutation.

(* ================================================================== *)
(** ** AnalyticsTools: summaries computed from the rows of a query

    The tables are lists of rows and a query selects the rows that pass its
    filters, as in [AnalyticsTools.get_revenue_for_period]. *)
(* ================================================================== *)

Module AnalyticsReports.
Import PyStr AnalyticsTools.

(** [sorted(xs, key=key, reverse=True)]: descending by key, and stable:
    elements with equal keys keep their order. *)
Fixpoint insert_desc {A} (key : A -> Z) (x : A) (sorted : list A) : list A :=
  match sorted with
  | [] => [x]
  | y :: rest =>
      if (key x <? key y)%Z then y :: insert_desc key x rest
      else x :: sorted
  end.

Definition sorted_desc {A} (key : A -> Z) (xs : list A) : list A :=
  fold_right (insert_desc key) [] xs.

(** [xs[:limit]]: a negative limit counts from the end. *)
Definition up_to {A} (limit : Z) (xs : list A) : list A :=
  if (0 <=? limit)%Z then firstn (Z.to_nat limit) xs
  else firstn (List.length xs - Z.to_nat (- limit)) xs.

(** [if store_id: query = query.eq('store_id', store_id)]. *)
Definition of_store (store : option string) (o : order) : bool :=
  match store with
  | Some sid =>
      if String.eqb sid "" then true else String.eqb (store_id o) sid
  | None => true
  end.

(** *** get_order_summary *)

(** [if key in counts: counts[key] += 1]. *)
Definition count_known (counts : list (string * Z)) (key : string)
  : list (string * Z) :=
  map (fun kv =>
         if String.eqb (fst kv) key then (fst kv, (snd kv + 1)%Z) else kv)
      counts.

(** [counts[key]] for a key of [counts]. *)
Definition count_of (counts : list (string * Z)) (key : string) : Z :=
  match find (fun kv => String.eqb (fst kv) key) counts with
  | Some kv => snd kv
  | None => 0%Z
  end.

Record order_summary : Type := OrderSummary {
  total_orders : nat;
  by_status : list (string * Z);
  by_payment : list (string * Z);
  active_orders : Z
}.

Definition get_order_summary (orders : list order) (store : option string)
  : order_summary :=
  let orders := filter (of_store store) orders in
  let status_counts :=
    [("pending", 0%Z); ("in_progress", 0%Z); ("ready_for_pickup", 0%Z);
     ("completed", 0%Z); ("cancelled", 0%Z)] in
  let payment_counts := [("pending", 0%Z); ("paid", 0%Z); ("refunded", 0%Z)] in
  let counts :=
    fold_left
      (fun counts o =>
         (count_known (fst counts) (status o),
          count_known (snd counts) (payment_status o)))
      orders (status_counts, payment_counts) in
  OrderSummary (List.length orders) (fst counts) (snd counts)
               (count_of (fst counts) "pending"
                + count_of (fst counts) "in_progress"
                + count_of (fst counts) "ready_for_pickup")%Z.

(** *** get_daily_revenue *)

(** [counts[key] = counts.get(key, 0) + 1]. *)
Fixpoint count_any (counts : list (string * Z)) (key : string)
  : list (string * Z) :=
  match counts with
  | [] => [(key, 1%Z)]
  | (k, n) :: rest =>
      if String.eqb k key then (k, (n + 1)%Z) :: rest
      else (k, n) :: count_any rest key
  end.

(** [sum(float(o.get('total_amount', 0)) for o in orders)]: one float
    addition per row, from the left, as in [get_revenue_for_period]. *)
Definition sum_amounts (orders : list order) : float :=
  fold_left (fun total o => (total + total_amount o)%float) orders 0%float.

(** What [get_daily_revenue] returns, without the display strings: the
    error dict or the summary. *)
Inductive daily_revenue : Type :=
| InvalidDate (error date : string)
| DailyRevenue (date : string) (total_orders : nat)
    (total_revenue paid_revenue pending_revenue : float)
    (orders_by_status : list (string * Z)).

Section DailyRevenue.
(** The clock and the calendar: today's date in UTC as YYYY-MM-DD, whether
    [datetime.strptime(date, '%Y-%m-%d')] accepts a text, and whether an
    order was created between [date]T00:00:00 and [date]T23:59:59. *)
Variable today : string.
Variable strptime_accepts : string -> bool.
Variable created_on : string -> order -> bool.

Definition get_daily_revenue (orders : list order) (date : option string)
  (store : option string) : daily_revenue :=
  let date :=
    match date with
    | Some d => if String.eqb d "" then today else d
    | None => today
    end in
  if negb (strptime_accepts date) then
    InvalidDate "Invalid date format. Use YYYY-MM-DD" date
  else
    let orders :=
      filter (fun o =>
                created_on date o
                && negb (String.eqb (status o) "cancelled")
                && of_store store o)
             orders in
    let total_revenue := sum_amounts orders in
    let paid_revenue :=
      sum_amounts
        (filter (fun o => String.eqb (payment_status o) "paid") orders) in
    let pending_revenue :=
      sum_amounts
        (filter (fun o => String.eqb (payment_status o) "pending") orders) in
    let status_counts :=
      fold_left (fun counts o => count_any counts (status o)) orders [] in
    DailyRevenue date (List.length orders) total_revenue paid_revenue
                 pending_revenue status_counts.

End DailyRevenue.

(** *** get_popular_services *)

(** A row of the order_items table, [quantity] and [line_total] as
    [int(...)] and [float(...)] read them. *)
Record order_item : Type := OrderItem {
  service_name : string;
  quantity : Z;
  line_total : float
}.

(** A value of [service_stats], without the display string
    ("formatted_revenue"); the [int] 0 that 'total_revenue' starts from is
    the float 0 here, every entry has had a float added to it. *)
Record service_stat : Type := ServiceStat {
  stat_name : string;
  order_count : Z;
  total_quantity : Z;
  total_revenue : float
}.

(** [name in service_stats]. *)
Definition has_service (stats : list service_stat) (name : string) : bool :=
  existsb (fun s => String.eqb (stat_name s) name) stats.

(** The three [+=] on [service_stats[name]]. *)
Definition add_to_service (item : order_item) (stats : list service_stat)
  : list service_stat :=
  map (fun s =>
         if String.eqb (stat_name s) (service_name item)
         then ServiceStat (stat_name s) (order_count s + 1)
                          (total_quantity s + quantity item)
                          (total_revenue s + line_total item)
         else s)
      stats.

(** The body of the loop over the items. *)
Definition count_item (stats : list service_stat) (item : order_item)
  : list service_stat :=
  let stats :=
    if negb (has_service stats (service_name item))
    then (stats ++ [ServiceStat (service_name item) 0 0 0])%list
    else stats in
  add_to_service item stats.

Definition period_days : list (string * Z) :=
  [("day", 1%Z); ("week", 7%Z); ("month", 30%Z); ("year", 365%Z)].

(** [period_days.get(period, default)]. *)
Definition days_of (period : string) (default : Z) : Z :=
  match find (fun kv => String.eqb (fst kv) period) period_days with
  | Some kv => snd kv
  | None => default
  end.

(** [items] are the rows of order_items: the query has no filter, and
    [start_date], computed from the period, is not used. *)
Definition get_popular_services (items : list order_item) (now : Z)
  (period : string) (limit : Z) (store : option string)
  : list service_stat :=
  let days := days_of period 7 in
  let start_date := (now - days * day)%Z in
  let service_stats := fold_left count_item items [] in
  up_to limit (sorted_desc order_count service_stats).

(** *** get_peak_hours *)

Section PeakHours.
(** [datetime.fromisoformat(s).hour], [None] when it raises ValueError. *)
Variable fromisoformat_hour : string -> option Z.

(** The hour of what [_parse_datetime] returns; [None] for a missing
    value. *)
Definition _parse_datetime (date_str : option string) : option Z :=
  match date_str with
  | None => None
  | Some s =>
      if String.eqb s "" then None
      else
        let s := if Agent.endswith "Z" s
                 then take (String.length s - 1) s ++ "+00:00"
                 else s in
        fromisoformat_hour s
  end.

Record peak_hour : Type := PeakHour {
  hour : Z;
  time_label : string;
  hour_order_count : Z
}.

(** [f"{hour:02d}"] for an hour of the day. *)
Definition two_digits (n : Z) : string :=
  let digit (k : Z) :=
    String (ascii_of_nat (48 + Z.to_nat k)) EmptyString in
  digit (n / 10)%Z ++ digit (n mod 10)%Z.

(** [hour_counts[hour] += 1] for an hour of the day. *)
Definition count_hour (counts : list (Z * Z)) (h : Z) : list (Z * Z) :=
  map (fun kv => if (fst kv =? h)%Z then (fst kv, (snd kv + 1)%Z) else kv)
      counts.

(** [created] holds the created_at of the rows of the query, which
    selects the orders of the last [days] days that are not cancelled. *)
Definition get_peak_hours (created : list (option string)) : list peak_hour :=
  let hour_counts := map (fun h => (Z.of_nat h, 0%Z)) (seq 0 24) in
  let hour_counts :=
    fold_left
      (fun counts created_at =>
         match _parse_datetime created_at with
         | Some h => count_hour counts h
         | None => counts
         end)
      created hour_counts in
  let peak_hours :=
    map (fun kv =>
           PeakHour (fst kv)
                    (two_digits (fst kv) ++ ":00 - " ++ two_digits (fst kv)
                     ++ ":59")
                    (snd kv))
        hour_counts in
  sorted_desc hour_order_count peak_hours.

End PeakHours.

End AnalyticsReports.

(* ================================================================== *)
(** ** LaundryToolboxClient ([src/toolbox_client.py]): the tools index and
       the execution of a tool *)
(* ================================================================== *)

Module Client.
Import PyStr.

(** A tool loaded from the Toolbox server: its [__name__] and what calling
    it with keyword arguments gives. *)
Record tool : Type := Tool {
  __name__ : string;
  call_with : list (string * value) -> res value
}.

(** A [toolbox_core.ToolboxClient]: [load_toolset] gives the tools of a
    toolset or raises. *)
Record core : Type := Core {
  load_toolset_of : string -> res (list tool)
}.

(** [self._tools]: a dict from tool names to tools, in insertion order. *)
Definition index := list (string * tool).

Fixpoint index_get (d : index) (k : string) : option tool :=
  match d with
  | [] => None
  | (k', v) :: d' => if String.eqb k' k then Some v else index_get d' k
  end.

Fixpoint index_set (d : index) (k : string) (v : tool) : index :=
  match d with
  | [] => [(k, v)]
  | (k', v') :: d' =>
      if String.eqb k' k then (k', v) :: d' else (k', v') :: index_set d' k v
  end.

Record client : Type := LaundryToolboxClient {
  _url : string;
  _client : option core;
  _tools : index
}.

(** What a run does outside the client. *)
Inductive event : Type :=
| Connected (url : string)
| Loaded (toolset_name : string)
| Invoked (tool_name : string) (kwargs : list (string * value))
| Closed.

Record world : Type := World { self : client; events : list event }.

Definition M (A : Type) : Type := world -> res A * world.

Definition ret {A} (a : A) : M A := fun w => (Ret a, w).

Definition bind {A B} (m : M A) (f : A -> M B) : M B :=
  fun w =>
    match m w with
    | (Ret a, w') => f a w'
    | (Raise e, w') => (Raise e, w')
    end.

Notation "x <- m ;; k" := (bind m (fun x => k))
  (at level 61, m at next level, right associativity).
Notation "m ;;; k" := (bind m (fun _ => k))
  (at level 61, right associativity).

Definition lift {A} (r : res A) : M A := fun w => (r, w).

Definition get_self : M client := fun w => (Ret (self w), w).

Definition update_self (f : client -> client) : M unit :=
  fun w => (Ret tt, World (f (self w)) (events w)).

Definition emit (ev : event) : M unit :=
  fun w => (Ret tt, World (self w) (events w ++ [ev])%list).

Fixpoint for_each {A} (xs : list A) (body : A -> M unit) : M unit :=
  match xs with
  | [] => ret tt
  | x :: xs' => body x ;;; for_each xs' body
  end.

Definition set_client (c : option core) (a : client) : client :=
  LaundryToolboxClient (_url a) c (_tools a).

Definition set_tools (t : index) (a : client) : client :=
  LaundryToolboxClient (_url a) (_client a) t.

(** The body of the loop of [load_toolset]:
    [self._tools[tool.__name__] = tool]. *)
Definition index_tool (tool : tool) : M unit :=
  update_self (fun a =>
    set_tools (index_set (_tools a) (__name__ tool) tool) a).

Section WithLibrary.
(** [ToolboxClient(url)] of toolbox_core, and [json.loads]. *)
Variable ToolboxClient : string -> core.
Variable rt : runtime.

Definition connect : M unit :=
  a <- get_self ;;
  emit (Connected (_url a)) ;;;
  update_self (set_client (Some (ToolboxClient (_url a)))).

Definition close : M unit :=
  a <- get_self ;;
  match _client a with
  | Some _ => emit Closed ;;; update_self (set_client None)
  | None => ret tt
  end.

Definition load_toolset (toolset_name : string) : M (list tool) :=
  a <- get_self ;;
  (match _client a with
   | None => connect
   | Some _ => ret tt
   end) ;;;
  a <- get_self ;;
  match _client a with
  | None =>
      lift (Raise (attribute_error VNone "load_toolset"))
  | Some c =>
      emit (Loaded toolset_name) ;;;
      tools <- lift (load_toolset_of c toolset_name) ;;
      for_each tools index_tool ;;;
      ret tools
  end.

Definition load_customer_service_tools : M (list tool) :=
  load_toolset "customer-service".

Definition load_analytics_tools : M (list tool) := load_toolset "analytics".

Definition load_order_management_tools : M (list tool) :=
  load_toolset "order-management".

Definition load_whatsapp_tools : M (list tool) := load_toolset "whatsapp".

Definition load_all_tools : M (list tool) := load_toolset "all-tools".

Definition get_tool (name : string) : M (option tool) :=
  a <- get_self ;; ret (index_get (_tools a) name).

Definition not_found (tool_name : string) : exn :=
  Exn "ValueError" ("Tool '" ++ tool_name ++ "' not found").

Definition execute_tool (tool_name : string)
  (kwargs : list (string * value)) : M value :=
  tool <- get_tool tool_name ;;
  tool <-
    match tool with
    | Some t => ret (Some t)
    | None => load_all_tools ;;; get_tool tool_name
    end ;;
  match tool with
  | None => lift (Raise (not_found tool_name))
  | Some t =>
      emit (Invoked tool_name kwargs) ;;;
      result <- lift (call_with t kwargs) ;;
      match result with
      | VStr text =>
          match json_loads rt text with
          | Ret parsed => ret parsed
          | Raise e =>
              if String.eqb (exn_class e) "JSONDecodeError"
              then ret result
              else lift (Raise e)
          end
      | _ => ret result
      end
  end.

End WithLibrary.

End Client.

(* ================================================================== *)
(** ** CustomerServiceAgent: the handlers of an inquiry *)
(* ================================================================== *)

Module CustomerAgent.
Import PyStr Regex.

(** The methods of [LaundryToolboxClient] the agent calls. *)
Inductive call : Type :=
| load_customer_service_tools
| check_order_status_tool (phone : string) (limit : Z)
| get_all_services (store_id : string)
| get_customer_points (phone : string)
| get_order_by_id (order_id : string).

Inductive event : Type :=
| Called (c : call)
| Asked (prompt : string).

Definition toolbox := list event -> call -> res value.

Record agent : Type := CustomerServiceAgent {
  _toolbox_client : toolbox;
  _gemini_client : option gemini;
  _tools_loaded : bool
}.

Record world : Type := World { self : agent; events : list event }.

Definition M (A : Type) : Type := world -> res A * world.

Definition ret {A} (a : A) : M A := fun w => (Ret a, w).

Definition bind {A B} (m : M A) (f : A -> M B) : M B :=
  fun w =>
    match m w with
    | (Ret a, w') => f a w'
    | (Raise e, w') => (Raise e, w')
    end.

Notation "x <- m ;; k" := (bind m (fun x => k))
  (at level 61, m at next level, right associativity).
Notation "m ;;; k" := (bind m (fun _ => k))
  (at level 61, right associativity).

Definition lift {A} (r : res A) : M A := fun w => (r, w).

Definition try_except {A} (body : M A) (handler : exn -> M A) : M A :=
  fun w =>
    match body w with
    | (Ret a, w') => (Ret a, w')
    | (Raise e, w') => handler e w'
    end.

Definition get_self : M agent := fun w => (Ret (self w), w).

Definition update_self (f : agent -> agent) : M unit :=
  fun w => (Ret tt, World (f (self w)) (events w)).

Definition emit (ev : event) : M unit :=
  fun w => (Ret tt, World (self w) (events w ++ [ev])%list).

Definition call_tool (c : call) : M value :=
  fun w =>
    (_toolbox_client (self w) (events w) c,
     World (self w) (events w ++ [Called c])%list).

Definition set_tools_loaded (b : bool) (a : agent) : agent :=
  CustomerServiceAgent (_toolbox_client a) (_gemini_client a) b.

Definition set_gemini_client (g : option gemini) (a : agent) : agent :=
  CustomerServiceAgent (_toolbox_client a) g (_tools_loaded a).

Definition nl : string := String (ascii_of_nat 10) EmptyString.

(** [None] and the empty str are falsy. *)
Definition given (s : option string) : option string :=
  match s with
  | Some t => if String.eqb t "" then None else Some t
  | None => None
  end.

(** *** Order ids in a message *)

(** [[0-9a-f]] under [re.IGNORECASE]. *)
Definition hex : regex :=
  Alt (Range "0" "9") (Alt (Range "a" "f") (Range "A" "F")).

(** [[0-9a-f]{8}-[0-9a-f]{4}-[0-9a-f]{4}-[0-9a-f]{4}-[0-9a-f]{12}]. *)
Definition uuid_pattern : regex :=
  Seq (Rep hex 8 8)
      (Seq (Lit "-")
           (Seq (Rep hex 4 4)
                (Seq (Lit "-")
                     (Seq (Rep hex 4 4)
                          (Seq (Lit "-")
                               (Seq (Rep hex 4 4)
                                    (Seq (Lit "-") (Rep hex 12 12)))))))).

(** [#?([0-9a-f]{8})]; group 1 is the match without the [#] it may start
    with. *)
Definition short_pattern : regex := Seq (Rep (Lit "#") 0 1) (Rep hex 8 8).

Definition group_1 (m : string) : string :=
  match m with
  | String c rest => if Ascii.eqb c "#" then rest else m
  | EmptyString => m
  end.

Definition _extract_order_id (message : string) : option string :=
  match search uuid_pattern message with
  | Some m => Some m
  | None =>
      match search short_pattern message with
      | Some m => Some (group_1 m)
      | None => None
      end
  end.

(** *** Intent detection *)

Definition _is_status_inquiry (message : string) : bool :=
  any_in ["status"; "pesanan"; "order"; "cek"; "dimana"; "sampai mana";
          "sudah"; "belum"] message.

Definition _is_price_inquiry (message : string) : bool :=
  any_in ["harga"; "biaya"; "tarif"; "berapa"; "price"; "ongkos"; "bayar"]
         message.

Definition _is_points_inquiry (message : string) : bool :=
  any_in ["poin"; "point"; "points"; "loyalti"; "loyalty"; "reward"] message.

Definition _is_pickup_inquiry (message : string) : bool :=
  any_in ["kapan"; "selesai"; "ambil"; "pickup"; "jadi"; "estimasi"; "waktu"]
         message.

Definition _is_greeting (message : string) : bool :=
  any_in ["halo"; "hello"; "hi"; "hai"; "selamat"; "pagi"; "siang"; "sore";
          "malam"; "assalam"] message.

(** *** Labels *)

Definition status_messages : list (string * string) :=
  [("pending", "Pesanan sedang menunggu diproses.");
   ("processing", "Pesanan sedang diproses.");
   ("washing", "Pakaian sedang dicuci.");
   ("drying", "Pakaian sedang dikeringkan.");
   ("folding", "Pakaian sedang dilipat.");
   ("completed", "Pesanan sudah selesai dan siap diambil! 🎉");
   ("delivered", "Pesanan sudah dikirim/diambil.")].

(** [status_messages.get(status, default)]: a list, a dict or a bytearray
    cannot be hashed. *)
Definition status_message (status : value) : res string :=
  let default := "Silakan hubungi kami untuk informasi lebih lanjut." in
  match status with
  | VStr s =>
      Ret match find (fun kv => String.eqb (fst kv) s) status_messages with
          | Some kv => snd kv
          | None => default
          end
  | VList _ | VDict _ | VByteArray _ =>
      Raise (Exn "TypeError"
                 ("unhashable type: '" ++ type_name status ++ "'"))
  | _ => Ret default
  end.

(** [orders[0]] for a truthy [orders]. *)
Definition item_0 (orders : value) : res value :=
  match orders with
  | VList (row :: _) | VTuple (row :: _) => Ret row
  | VStr (String c _) => Ret (VStr (String c EmptyString))
  | VBytes (b :: _) | VByteArray (b :: _) | VMemoryView (b :: _) =>
      Ret (VInt (Z.of_N (Byte.to_N b)))
  | VDict _ => Raise (Exn "KeyError" "0")
  | _ =>
      Raise (Exn "TypeError"
                 ("'" ++ type_name orders ++ "' object is not subscriptable"))
  end.

(** *** Fixed answers *)

Definition blank_message : value :=
  VDict [("success", VBool false);
         ("response",
          VStr "Maaf, pesan Anda kosong. Ada yang bisa saya bantu?");
         ("data", VNone)].

Definition ask_phone_for_status : value :=
  VDict [("success", VBool true);
         ("response",
          VStr ("Untuk cek status pesanan, mohon berikan nomor telepon Anda."
                ++ nl ++ "Contoh: 081234567890"));
         ("data", VNone)].

Definition ask_phone_for_points : value :=
  VDict [("success", VBool true);
         ("response",
          VStr ("Untuk cek poin, mohon berikan nomor telepon Anda."
                ++ nl ++ "Contoh: 081234567890"));
         ("data", VNone)].

Definition points_need_phone : value :=
  VDict [("success", VBool false);
         ("response",
          VStr "Mohon berikan nomor telepon untuk mengecek poin.");
         ("points", VInt 0)].

Definition pickup_needs_reference : value :=
  VDict [("success", VBool false);
         ("response",
          VStr "Mohon berikan nomor pesanan atau nomor telepon.");
         ("estimation", VNone)].

Definition no_active_order : value :=
  VDict [("success", VBool true);
         ("response", VStr "Tidak ditemukan pesanan aktif.");
         ("estimation", VNone)].

Definition _handle_greeting : value :=
  VDict [("success", VBool true);
         ("response",
          VStr ("Halo! Selamat datang di Smart Laundry! 👋" ++ nl ++ nl
                ++ "Saya siap membantu Anda. Silakan pilih:" ++ nl
                ++ "1. Cek status pesanan" ++ nl
                ++ "2. Lihat daftar harga" ++ nl
                ++ "3. Cek poin loyalitas" ++ nl
                ++ "4. Estimasi waktu selesai" ++ nl ++ nl
                ++ "Atau ketik pertanyaan Anda langsung 😊"));
         ("data", VNone)].

Definition contact_us : value :=
  VDict [("success", VBool true);
         ("response",
          VStr ("Terima kasih atas pertanyaan Anda! 🙏" ++ nl ++ nl
                ++ "Untuk pertanyaan lebih lanjut, silakan hubungi kami:"
                ++ nl ++ "📞 WhatsApp: 081234567890" ++ nl
                ++ "🕐 Jam operasional: 07:00 - 21:00"));
         ("data", VNone)].

Definition failure (message : string) (e : exn) : value :=
  VDict [("success", VBool false); ("response", VStr message);
         ("error", VStr (exn_text e))].

Definition SYSTEM_PROMPT : string :=
"Anda adalah asisten layanan pelanggan Smart Laundry yang ramah dan membantu.
Gunakan bahasa Indonesia yang sopan dan profesional.
Berikan informasi yang akurat dan jelas.
Gunakan emoji secukupnya untuk membuat percakapan lebih menarik.
Selalu tawarkan bantuan lebih lanjut di akhir respons.".

Section WithRuntime.
Variable rt : runtime.

Definition gemini_client : M (option gemini) :=
  a <- get_self ;;
  match _gemini_client a with
  | Some g => ret (Some g)
  | None =>
      update_self (set_gemini_client (new_gemini_client rt)) ;;;
      ret (new_gemini_client rt)
  end.

Definition _ensure_tools_loaded : M unit :=
  a <- get_self ;;
  if negb (_tools_loaded a) then
    call_tool load_customer_service_tools ;;;
    update_self (set_tools_loaded true)
  else ret tt.

Definition check_order_status (phone : string) : M value :=
  _ensure_tools_loaded ;;;
  try_except
    (orders <- call_tool (check_order_status_tool phone 3) ;;
     if negb (truthy orders) then
       ret (VDict [("success", VBool true);
                   ("response",
                    VStr "Tidak ditemukan pesanan untuk nomor ini. Pastikan nomor telepon sudah benar.");
                   ("orders", VList [])])
     else
       response <- lift (format_text rt "order_status" [orders]) ;;
       ret (VDict [("success", VBool true); ("response", VStr response);
                   ("orders", orders)]))
    (fun e =>
       ret (failure "Terjadi kesalahan saat mengecek status pesanan." e)).

Definition get_service_prices (store_id : option string) : M value :=
  _ensure_tools_loaded ;;;
  try_except
    (services <-
       call_tool (get_all_services
                    (match given store_id with Some s => s | None => "" end)) ;;
     if negb (truthy services) then
       ret (VDict [("success", VBool true);
                   ("response",
                    VStr "Maaf, tidak ada layanan yang tersedia saat ini.");
                   ("services", VList [])])
     else
       response <- lift (format_text rt "service_prices" [services]) ;;
       ret (VDict [("success", VBool true); ("response", VStr response);
                   ("services", services)]))
    (fun e =>
       ret (failure "Terjadi kesalahan saat mengambil daftar layanan." e)).

Definition check_points (phone : string) : M value :=
  if String.eqb phone "" then ret points_need_phone
  else
    _ensure_tools_loaded ;;;
    try_except
      (customer <- call_tool (get_customer_points phone) ;;
       if negb (truthy customer) then
         ret (VDict [("success", VBool true);
                     ("response",
                      VStr "Tidak ditemukan data pelanggan dengan nomor ini.");
                     ("points", VInt 0)])
       else
         points <- lift (py_get customer "points" (VInt 0)) ;;
         name <- lift (py_get customer "name" (VStr "Pelanggan")) ;;
         response <- lift (format_text rt "points" [name; points]) ;;
         ret (VDict [("success", VBool true); ("response", VStr response);
                     ("points", points); ("customer", customer)]))
      (fun e => ret (failure "Terjadi kesalahan saat mengecek poin." e)).

Definition _format_pickup_response (order : value) : res value :=
  match py_get order "status" (VStr "") with
  | Raise e => Raise e
  | Ret status =>
      match py_get order "estimated_completion" VNone with
      | Raise e => Raise e
      | Ret estimated =>
          match status_message status with
          | Raise e => Raise e
          | Ret message =>
              let message :=
                if truthy estimated
                   && negb (eq_str status "completed"
                            || eq_str status "delivered")
                then message ++ nl ++ nl ++ "⏰ Estimasi selesai: "
                     ++ py_str rt estimated
                else message in
              Ret (VDict [("success", VBool true);
                          ("response", VStr message);
                          ("estimation", estimated);
                          ("status", status)])
          end
      end
  end.

(** The second lookup of [estimate_pickup], by phone. *)
Definition pickup_by_phone (phone : option string) : M value :=
  match given phone with
  | Some p =>
      orders <- call_tool (check_order_status_tool p 1) ;;
      if truthy orders then
        order <- lift (item_0 orders) ;;
        lift (_format_pickup_response order)
      else ret no_active_order
  | None => ret no_active_order
  end.

Definition estimate_pickup (order_id phone : option string) : M value :=
  match given order_id, given phone with
  | None, None => ret pickup_needs_reference
  | _, _ =>
      _ensure_tools_loaded ;;;
      try_except
        (match given order_id with
         | Some id =>
             order <- call_tool (get_order_by_id id) ;;
             if truthy order then lift (_format_pickup_response order)
             else pickup_by_phone phone
         | None => pickup_by_phone phone
         end)
        (fun e =>
           ret (failure "Terjadi kesalahan saat mengecek estimasi." e))
  end.

Definition _handle_status_inquiry (message : string)
  (phone : option string) : M value :=
  let phone :=
    match given phone with
    | Some p => Some p
    | None => CustomerService._extract_phone message
    end in
  match given phone with
  | None => ret ask_phone_for_status
  | Some p => check_order_status p
  end.

Definition _handle_price_inquiry : M value := get_service_prices None.

Definition _handle_points_inquiry (phone : option string) : M value :=
  match given phone with
  | None => ret ask_phone_for_points
  | Some p => check_points p
  end.

Definition _handle_pickup_inquiry (message : string)
  (phone : option string) : M value :=
  let order_id := _extract_order_id message in
  estimate_pickup order_id phone.

Definition _handle_general_inquiry (message : string)
  (phone : option string) (context : value) : M value :=
  client <- gemini_client ;;
  match client with
  | None => ret contact_us
  | Some g =>
      try_except
        (let prompt :=
           SYSTEM_PROMPT ++ nl ++ nl ++ "Pertanyaan pelanggan: " ++ message in
         emit (Asked prompt) ;;;
         response <- lift (generate_content g prompt) ;;
         match response with
         | None =>
             lift (Raise (attribute_error VNone "text"))
         | Some reading =>
             text <- lift reading ;;
             ret (VDict [("success", VBool true);
                         ("response", VStr text);
                         ("ai_generated", VBool true)])
         end)
        (fun e => ret (failure "Maaf, terjadi kesalahan. Silakan coba lagi." e))
  end.

Definition handle_inquiry (message : string)
  (customer_phone : option string) (context : value) : M value :=
  if String.eqb message "" || String.eqb (strip message) "" then
    ret blank_message
  else
    _ensure_tools_loaded ;;;
    let message_lower := lower message in
    if _is_status_inquiry message_lower then
      _handle_status_inquiry message customer_phone
    else if _is_price_inquiry message_lower then _handle_price_inquiry
    else if _is_points_inquiry message_lower then
      _handle_points_inquiry customer_phone
    else if _is_pickup_inquiry message_lower then
      _handle_pickup_inquiry message customer_phone
    else if _is_greeting message_lower then ret _handle_greeting
    else _handle_general_inquiry message customer_phone context.

End WithRuntime.

End CustomerAgent.

(* ================================================================== *)
(** ** Notions used to state further properties of the agents *)
(* ================================================================== *)

Module Notions.
Import PyStr.

(** The intents of the keyword stage. *)
Definition keyword_intents : list string :=
  ["general"; "compare_periods"; "store_list"; "store_detail";
   "daily_revenue"; "weekly_revenue"; "monthly_revenue"; "popular_services";
   "peak_hours"; "churned_customers"; "inactive_customers"; "points_summary";
   "points_redeem"; "points_earn"; "points_info"; "points_check"].

(** What the pattern [(08\d{8,12})] matches: 08, then 8 to 12 digits. *)
Definition mobile_number (m : string) : Prop :=
  exists ds,
    m = "08" ++ ds
    /\ all_chars Regex.is_digit ds = true
    /\ (8 <= String.length ds <= 12)%nat.

(** The words of a store name that count for the score. *)
Definition store_words (store_name : string) : list string :=
  filter (fun w => (1 <? String.length w)%nat) (split store_name).

(** The score of a cached store for a query. *)
Definition score_of (query_lower : string) (entry : string * value) : Z :=
  StoreMatch._calculate_store_match_score (fst entry) query_lower.

(** One turn of the loop of [_resolve_store_id]. *)
Definition best_step (query_lower : string) (best : option value * Z)
  (entry : string * value) : option value * Z :=
  let score := score_of query_lower entry in
  if (snd best <? score)%Z then (Some (snd entry), score) else best.

(** What holds of the best store so far after any number of entries. *)
Definition first_maximum (query_lower : string) (seen : dict)
  (best : option value * Z) : Prop :=
  (forall e, In e seen -> (score_of query_lower e <= snd best)%Z)
  /\ (fst best = None -> snd best = 0%Z)
  /\ (forall v, fst best = Some v ->
        (0 < snd best)%Z
        /\ exists pre e post,
             seen = (pre ++ e :: post)%list
             /\ snd e = v
             /\ score_of query_lower e = snd best
             /\ forall e', In e' pre ->
                  (score_of query_lower e' < snd best)%Z).

(** The two ways [_resolve_store_id] ends when no id is given: the default
    store of the agent, or the id of the matched store. *)
Definition default_store_id (rt : runtime) (a : Agent.agent) : res string :=
  if negb (String.eqb (Agent._store_id a) "")
  then Uuid._format_uuid rt (VStr (Agent._store_id a))
  else Ret "".

Definition matched_store_id (rt : runtime) (store_info : value)
  : res string :=
  match py_get store_info "id" (VStr "") with
  | Ret store_id =>
      if truthy store_id then Uuid._format_uuid rt store_id else Ret ""
  | Raise e => Raise e
  end.

(** What [_load_store_cache] keeps of every store it caches: the record is
    a dict filed under the lowercase of its own name, and its id is a str
    that [_format_uuid] returned. *)
Definition filed_normalized (rt : runtime) (entry : string * value) : Prop :=
  exists d name id,
    snd entry = VDict d
    /\ py_get (VDict d) "name" (VStr "") = Ret (VStr name)
    /\ fst entry = lower name
    /\ dict_get d "id" = Some (VStr id)
    /\ exists raw, Uuid._format_uuid rt raw = Ret id.

(** The answer of [get_store_by_name] when no store is found. *)
Definition store_not_found (name : string) : value :=
  VDict [("success", VBool false);
         ("response",
          VStr ("Toko '" ++ name
                ++ "' tidak ditemukan. Gunakan 'daftar toko' untuk melihat toko yang tersedia."));
         ("data", VNone)].

(** The period names [get_period_dates] knows. *)
Definition period_names : list string :=
  ["today"; "yesterday"; "this_week"; "last_week"; "this_month";
   "last_month"; "this_year"].


(** The last tool of a list with a given name. *)
Definition last_named (k : string) (tools : list Client.tool)
  : option Client.tool :=
  find (fun t => String.eqb (Client.__name__ t) k) (rev tools).

(** What [execute_tool] makes of the result of a tool: a str is decoded as
    JSON when it can be. *)
Definition decoded (rt : runtime) (result : res value) : res value :=
  match result with
  | Ret (VStr text) =>
      match json_loads rt text with
      | Ret parsed => Ret parsed
      | Raise e =>
          if String.eqb (exn_class e) "JSONDecodeError"
          then Ret (VStr text)
          else Raise e
      end
  | other => other
  end.

(** A Toolbox server with two tools in its toolset all-tools: one answers
    with JSON text, the other with text that is not JSON. *)
Definition stores_tool : Client.tool :=
  Client.Tool "list-stores" (fun _ => Ret (VStr Scenario.weekly_reply)).

Definition greeting_tool : Client.tool :=
  Client.Tool "greet" (fun _ => Ret (VStr "halo")).

Definition small_server (url : string) : Client.core :=
  Client.Core
    (fun toolset_name =>
       if String.eqb toolset_name "all-tools"
       then Ret [stores_tool; greeting_tool]
       else Ret []).

Definition fresh_client : Client.world :=
  Client.World (Client.LaundryToolboxClient "http://127.0.0.1:5000" None [])
               [].

(** The statuses and payment statuses [get_order_summary] counts. *)
Definition counted_statuses : list string :=
  ["pending"; "in_progress"; "ready_for_pickup"; "completed"; "cancelled"].

Definition counted_payments : list string := ["pending"; "paid"; "refunded"].

(** How many of the rows have a given status, a given payment status, or
    a status that is not counted. *)
Definition with_status (rows : list AnalyticsTools.order) (k : string) : Z :=
  Z.of_nat
    (List.length
       (filter (fun o => String.eqb (AnalyticsTools.status o) k) rows)).

Definition with_payment (rows : list AnalyticsTools.order) (k : string) : Z :=
  Z.of_nat
    (List.length
       (filter (fun o => String.eqb (AnalyticsTools.payment_status o) k)
               rows)).

Definition with_other_status (rows : list AnalyticsTools.order) : Z :=
  Z.of_nat
    (List.length
       (filter (fun o =>
                  negb (str_mem (AnalyticsTools.status o) counted_statuses))
               rows)).

(** The services of a list of order items, each once, in the order in
    which they first occur. *)
Definition service_names (items : list AnalyticsReports.order_item)
  : list string :=
  fold_left
    (fun names i =>
       if str_mem (AnalyticsReports.service_name i) names then names
       else (names ++ [AnalyticsReports.service_name i])%list)
    items [].

(** The order items of a service: how many, their quantities and their
    revenue, added up in the order of the items. *)
Definition ordered (items : list AnalyticsReports.order_item)
  (name : string) : Z :=
  fold_left
    (fun total i =>
       if String.eqb name (AnalyticsReports.service_name i)
       then (total + 1)%Z else total)
    items 0%Z.

Definition quantity_of (items : list AnalyticsReports.order_item)
  (name : string) : Z :=
  fold_left
    (fun total i =>
       if String.eqb name (AnalyticsReports.service_name i)
       then (total + AnalyticsReports.quantity i)%Z else total)
    items 0%Z.

Definition revenue_of (items : list AnalyticsReports.order_item)
  (name : string) : float :=
  fold_left
    (fun total i =>
       if String.eqb name (AnalyticsReports.service_name i)
       then (total + AnalyticsReports.line_total i)%float else total)
    items 0%float.

Definition stat_of (items : list AnalyticsReports.order_item)
  (name : string) : AnalyticsReports.service_stat :=
  AnalyticsReports.ServiceStat name (ordered items name)
    (quantity_of items name) (revenue_of items name).

(** How many of the created_at values are of a given hour, and how many
    can be parsed at all. *)
Definition at_hour (fromisoformat_hour : string -> option Z)
  (created : list (option string)) (h : Z) : Z :=
  Z.of_nat
    (List.length
       (filter
          (fun c =>
             match AnalyticsReports._parse_datetime fromisoformat_hour c with
             | Some h' => (h =? h')%Z
             | None => false
             end)
          created)).

Definition parsed (fromisoformat_hour : string -> option Z)
  (created : list (option string)) : Z :=
  Z.of_nat
    (List.length
       (filter
          (fun c =>
             match AnalyticsReports._parse_datetime fromisoformat_hour c with
             | Some _ => true
             | None => false
             end)
          created)).

Definition hours_of_day : list Z := map Z.of_nat (seq 0 24).

(** A parser for the scenario: it knows two time stamps. *)
Definition two_stamps (s : string) : option Z :=
  if String.eqb s "2025-01-02T09:15:00+00:00" then Some 9%Z
  else if String.eqb s "2025-01-02T17:40:00" then Some 17%Z
  else None.

(** Descending by a key. *)
Definition descending {A} (key : A -> Z) (xs : list A) : Prop :=
  StronglySorted (fun a b => (key b <= key a)%Z) xs.

(** The rows [get_daily_revenue] selects for a date. *)
Definition rows_of_day (created_on : string -> AnalyticsTools.order -> bool)
  (orders : list AnalyticsTools.order) (date : string)
  (store : option string) : list AnalyticsTools.order :=
  filter (fun o =>
            created_on date o
            && negb (String.eqb (AnalyticsTools.status o) "cancelled")
            && AnalyticsReports.of_store store o)
         orders.

(** The rows of payment status [k]. *)
Definition rows_with_payment (rows : list AnalyticsTools.order) (k : string)
  : list AnalyticsTools.order :=
  filter (fun o => String.eqb (AnalyticsTools.payment_status o) k) rows.

(** A computation of the analytics agent that, run with the tools loaded,
    leaves them loaded and does not load them again. *)
Definition is_load (ev : Agent.event) : bool :=
  match ev with
  | Agent.Called Agent.load_analytics_tools => true
  | _ => false
  end.

Definition no_reload {A} (m : Agent.M A) : Prop :=
  forall w r w',
    Agent._tools_loaded (Agent.self w) = true ->
    m w = (r, w') ->
    Agent._tools_loaded (Agent.self w') = true
    /\ exists evs,
         Agent.events w' = (Agent.events w ++ evs)%list
         /\ existsb is_load evs = false.

(** Eight hexadecimal digits, of either case. *)
Definition short_id (id : string) : Prop :=
  String.length id = 8%nat /\ all_chars Uuid.is_hex id = true.

(** The handlers of [handle_inquiry] in the order it tries them. *)
Definition inquiry_routes (rt : runtime) (message : string)
  (customer_phone : option string)
  : list ((string -> bool) * CustomerAgent.M value) :=
  [(CustomerAgent._is_status_inquiry,
    CustomerAgent._handle_status_inquiry rt message customer_phone);
   (CustomerAgent._is_price_inquiry, CustomerAgent._handle_price_inquiry rt);
   (CustomerAgent._is_points_inquiry,
    CustomerAgent._handle_points_inquiry rt customer_phone);
   (CustomerAgent._is_pickup_inquiry,
    CustomerAgent._handle_pickup_inquiry rt message customer_phone);
   (CustomerAgent._is_greeting,
    CustomerAgent.ret CustomerAgent._handle_greeting)].

(** An answer of the customer service agent: a dict with a bool under
    success and a str under response. *)
Definition is_answer (v : value) : bool :=
  match v with
  | VDict d =>
      match dict_get d "success", dict_get d "response" with
      | Some (VBool _), Some (VStr _) => true
      | _, _ => false
      end
  | _ => false
  end.

(** A computation of the customer service agent that returns an answer
    and does not raise. *)
Definition answers (m : CustomerAgent.M value) (w : CustomerAgent.world)
  : Prop :=
  exists v w', m w = (Ret v, w') /\ is_answer v = true.

(** A tool server for the customer service agent that knows one order. *)
Definition washing_order : value :=
  VDict [("id", VStr "29edf3ae-6ac3-42b3-abf8-90494dcdc7c5");
         ("status", VStr "washing");
         ("estimated_completion", VStr "2025-01-02 10:00")].

Definition one_order : CustomerAgent.toolbox :=
  fun _ c =>
    match c with
    | CustomerAgent.get_order_by_id _ => Ret washing_order
    | CustomerAgent.check_order_status_tool _ _ => Ret (VList [])
    | _ => Ret VNone
    end.

Definition desk (t : CustomerAgent.toolbox) (loaded : bool)
  : CustomerAgent.world :=
  CustomerAgent.World (CustomerAgent.CustomerServiceAgent t None loaded) [].

End Notions.

(* ================================================================== *)
(** * Properties *)
(* ================================================================== *)

(** ** Strings *)

Section StringFacts.
Import PyStr.

Lemma append_nil_r (s : string) : s ++ "" = s.
Proof. induction s as [|c s IH]; cbn; [reflexivity|rewrite IH; reflexivity]. Qed.

Lemma append_assoc (a b c : string) : (a ++ b) ++ c = a ++ (b ++ c).
Proof. induction a as [|x a IH]; cbn; [reflexivity|rewrite IH; reflexivity]. Qed.

Lemma length_append (a b : string) :
  String.length (a ++ b) = (String.length a + String.length b)%nat.
Proof. induction a as [|x a IH]; cbn; [reflexivity|rewrite IH; reflexivity]. Qed.

Lemma take_append (m rest : string) :
  take (String.length m) (m ++ rest) = m.
Proof.
  unfold take. induction m as [|c m IH]; cbn.
  - destruct rest; reflexivity.
  - rewrite IH. reflexivity.
Qed.

Lemma prefix_append (sub rest : string) : String.prefix sub (sub ++ rest) = true.
Proof.
  induction sub as [|c sub IH]; cbn.
  - destruct rest; reflexivity.
  - destruct (ascii_dec c c) as [_|Hne]; [exact IH|contradiction].
Qed.

(** A text contains each of its segments. *)
Lemma py_in_segment (sub pre post : string) :
  py_in sub (pre ++ sub ++ post) = true.
Proof.
  induction pre as [|c pre IH]; cbn [append].
  - destruct (sub ++ post) eqn:E; cbn [py_in];
      rewrite <- E, prefix_append; reflexivity.
  - cbn [py_in]. rewrite IH. destruct (String.prefix sub _); reflexivity.
Qed.

End StringFacts.

(** ** Regular expressions: the matcher finds the matches *)

Section RegexFacts.
Import Regex.

Lemma bt_rep_zero (r : regex) (lo : nat) p s k :
  bt (Rep r lo 0) p s k = match lo with O => k p s | S _ => None end.
Proof. reflexivity. Qed.

Lemma bt_rep_succ (r : regex) (lo hi : nat) p s k :
  bt (Rep r lo (S hi)) p s k
  = match bt r p s (fun p' t => bt (Rep r (Nat.pred lo) hi) p' t k) with
    | Some rest => Some rest
    | None => match lo with O => k p s | S _ => None end
    end.
Proof. reflexivity. Qed.

(** The matcher only answers with matches. *)
Lemma bt_sound (r : regex) :
  forall p s k out,
    bt r p s k = Some out ->
    exists p' s', derives r p s p' s' /\ k p' s' = Some out.
Proof.
  induction r as [| c | lo hi | | | r1 IH1 r2 IH2 | r1 IH1 r2 IH2 | r IH lo hi];
    intros p s k out H.
  - exists p, s. split; [constructor|exact H].
  - cbn in H. destruct s as [|d s]; [discriminate|].
    destruct (Ascii.eqb c d) eqn:E; [|discriminate].
    apply Ascii.eqb_eq in E. subst d.
    exists (Some c), s. split; [constructor|exact H].
  - cbn in H. destruct s as [|d s]; [discriminate|].
    destruct (in_range lo hi d) eqn:E; [|discriminate].
    exists (Some d), s. split; [constructor; exact E|exact H].
  - cbn in H. destruct s as [|d s]; [discriminate|].
    destruct (is_digit d) eqn:E; [|discriminate].
    exists (Some d), s. split; [constructor; exact E|exact H].
  - cbn in H. destruct (boundary p s) eqn:E; [|discriminate].
    exists p, s. split; [constructor; exact E|exact H].
  - cbn in H. apply IH1 in H. destruct H as [p1 [s1 [D1 H]]].
    apply IH2 in H. destruct H as [p2 [s2 [D2 H]]].
    exists p2, s2. split; [econstructor; eassumption|exact H].
  - cbn in H. destruct (bt r1 p s k) eqn:E.
    + injection H as <-. apply IH1 in E. destruct E as [p' [s' [D E]]].
      exists p', s'. split; [apply D_alt_l; exact D|exact E].
    + apply IH2 in H. destruct H as [p' [s' [D H]]].
      exists p', s'. split; [apply D_alt_r; exact D|exact H].
  - revert lo p s k out H.
    induction hi as [|hi IHhi]; intros lo p s k out H.
    + rewrite bt_rep_zero in H. destruct lo; [|discriminate].
      exists p, s. split; [constructor|exact H].
    + rewrite bt_rep_succ in H.
      destruct (bt r p s (fun p' t => bt (Rep r (Nat.pred lo) hi) p' t k))
        eqn:E.
      * injection H as <-. apply IH in E.
        destruct E as [p1 [s1 [D1 E]]].
        apply IHhi in E. destruct E as [p2 [s2 [D2 E]]].
        exists p2, s2. split; [econstructor; eassumption|exact E].
      * destruct lo; [|discriminate].
        exists p, s. split; [constructor|exact H].
Qed.

(** The matcher finds a match whenever there is one that the rest of the
    pattern accepts. *)
Lemma bt_complete {r p s p' s'} :
  derives r p s p' s' ->
  forall k out, k p' s' = Some out -> exists out', bt r p s k = Some out'.
Proof.
  induction 1 as [ p s | c p s | lo hi d p s Hd | d p s Hd | p s Hb
                 | r1 r2 p s p1 s1 p2 s2 _ IH1 _ IH2
                 | r1 r2 p s p' s' _ IH | r1 r2 p s p' s' _ IH
                 | r hi p s
                 | r lo hi p s p1 s1 p2 s2 _ IH1 _ IH2 ];
    intros k out Hk.
  - exists out. exact Hk.
  - exists out. cbn. rewrite Ascii.eqb_refl. exact Hk.
  - exists out. cbn. rewrite Hd. exact Hk.
  - exists out. cbn. rewrite Hd. exact Hk.
  - exists out. cbn. rewrite Hb. exact Hk.
  - cbn. destruct (IH2 k out Hk) as [o2 H2].
    exact (IH1 (fun p t => bt r2 p t k) o2 H2).
  - cbn. destruct (IH k out Hk) as [o H]. rewrite H. exists o. reflexivity.
  - cbn. destruct (bt r1 p s k) as [o|]; [exists o; reflexivity|].
    exact (IH k out Hk).
  - destruct hi as [|hi].
    + exists out. rewrite bt_rep_zero. exact Hk.
    + rewrite bt_rep_succ.
      destruct (bt r p s (fun p' t => bt (Rep r (Nat.pred 0) hi) p' t k))
        as [o|];
        [exists o; reflexivity|exists out; exact Hk].
  - rewrite bt_rep_succ.
    destruct (IH2 k out Hk) as [o2 H2].
    destruct (IH1 (fun p' t => bt (Rep r (Nat.pred lo) hi) p' t k) o2 H2)
      as [o1 H1].
    rewrite H1. exists o1. reflexivity.
Qed.

(** A match consumes a prefix of the text. *)
Lemma derives_prefix {r p s p' s'} :
  derives r p s p' s' -> exists m, s = m ++ s'.
Proof.
  induction 1 as [ p s | c p s | lo hi d p s Hd | d p s Hd | p s Hb
                 | r1 r2 p s p1 s1 p2 s2 _ IH1 _ IH2
                 | r1 r2 p s p' s' _ IH | r1 r2 p s p' s' _ IH
                 | r hi p s
                 | r lo hi p s p1 s1 p2 s2 _ IH1 _ IH2 ];
    try (exists ""; reflexivity); try assumption.
  - exists (String c ""). reflexivity.
  - exists (String d ""). reflexivity.
  - exists (String d ""). reflexivity.
  - destruct IH1 as [m1 ->]. destruct IH2 as [m2 ->].
    exists (m1 ++ m2). symmetry. apply append_assoc.
  - destruct IH1 as [m1 ->]. destruct IH2 as [m2 ->].
    exists (m1 ++ m2). symmetry. apply append_assoc.
Qed.

Lemma found_at_start {r prev s rest} :
  bt r prev s (fun _ rest => Some rest) = Some rest ->
  exists m p',
    s = m ++ rest
    /\ PyStr.take (String.length s - String.length rest) s = m
    /\ derives r prev (m ++ rest) p' rest.
Proof.
  intro E. apply bt_sound in E. destruct E as [p' [s' [D E]]].
  injection E as ->.
  destruct (derives_prefix D) as [m Hm]. subst s.
  exists m, p'. split; [reflexivity|].
  rewrite length_append, Nat.add_sub, take_append.
  split; [reflexivity|exact D].
Qed.

Lemma search_from_sound r :
  forall s prev m,
    search_from r prev s = Some m ->
    exists pre post p',
      s = pre ++ m ++ post
      /\ derives r (last_char prev pre) (m ++ post) p' post.
Proof.
  induction s as [|c s IH]; intros prev m H; cbn [search_from] in H.
  - destruct (bt r prev "" _) as [rest|] eqn:E; [|discriminate].
    destruct (found_at_start E) as [m0 [p' [Hs [Ht D]]]].
    rewrite Ht in H. injection H as <-.
    exists "", rest, p'. split; [exact Hs|exact D].
  - destruct (bt r prev (String c s) _) as [rest|] eqn:E.
    + destruct (found_at_start E) as [m0 [p' [Hs [Ht D]]]].
      rewrite Ht in H. injection H as <-.
      exists "", rest, p'. split; [exact Hs|exact D].
    + apply IH in H. destruct H as [pre [post [p' [Hs D]]]].
      exists (String c pre), post, p'. cbn [append last_char].
      rewrite Hs. split; [reflexivity|exact D].
Qed.

Lemma search_sound {r t m} : search r t = Some m -> matches_in r t m.
Proof. apply search_from_sound. Qed.

Lemma search_from_complete {r} :
  forall pre prev m post p',
    derives r (last_char prev pre) (m ++ post) p' post ->
    search_from r prev (pre ++ m ++ post) <> None.
Proof.
  induction pre as [|c pre IH]; intros prev m post p' D.
  - cbn [append last_char] in *.
    destruct (bt_complete D (fun _ rest => Some rest) post eq_refl) as [o E].
    destruct (m ++ post); cbn [search_from]; rewrite E; discriminate.
  - cbn [append last_char search_from] in *.
    destruct (bt r prev _ _); [discriminate|].
    exact (IH _ _ _ _ D).
Qed.

Lemma search_complete {r t m} : matches_in r t m -> search r t <> None.
Proof.
  intros [pre [post [p' [-> D]]]]. exact (search_from_complete _ _ _ _ _ D).
Qed.

(** The search stops at the first position that has a match. *)
Lemma search_from_leftmost r :
  forall s prev m,
    search_from r prev s = Some m ->
    exists pre post p',
      s = pre ++ m ++ post
      /\ derives r (last_char prev pre) (m ++ post) p' post
      /\ forall pre1 rest1,
           s = pre1 ++ rest1 ->
           (String.length pre1 < String.length pre)%nat ->
           forall p1 s1, ~ derives r (last_char prev pre1) rest1 p1 s1.
Proof.
  induction s as [|c s IH]; intros prev m H; cbn [search_from] in H.
  - destruct (bt r prev "" _) as [rest|] eqn:E; [|discriminate].
    destruct (found_at_start E) as [m0 [p' [Hs [Ht D]]]].
    rewrite Ht in H. injection H as <-.
    exists "", rest, p'. split; [exact Hs|]. split; [exact D|].
    intros pre1 rest1 _ Hlt. cbn in Hlt. lia.
  - destruct (bt r prev (String c s) _) as [rest|] eqn:E.
    + destruct (found_at_start E) as [m0 [p' [Hs [Ht D]]]].
      rewrite Ht in H. injection H as <-.
      exists "", rest, p'. split; [exact Hs|]. split; [exact D|].
      intros pre1 rest1 _ Hlt. cbn in Hlt. lia.
    + apply IH in H. destruct H as [pre [post [p' [Hs [D Hfirst]]]]].
      exists (String c pre), post, p'. cbn [append last_char].
      rewrite Hs. split; [reflexivity|]. split; [exact D|].
      intros pre1 rest1 Hsplit Hlt p1 s1 D1.
      destruct pre1 as [|c1 pre1]; cbn [append last_char] in *.
      * subst rest1.
        destruct (bt_complete D1 (fun _ rest => Some rest) s1 eq_refl)
          as [o Ho].
        rewrite Hs in E. rewrite E in Ho. discriminate.
      * injection Hsplit as <- Hsplit.
        rewrite <- Hs in Hsplit.
        assert (Hlt' : (String.length pre1 < String.length pre)%nat)
          by (cbn in Hlt; lia).
        exact (Hfirst pre1 rest1 Hsplit Hlt' p1 s1 D1).
Qed.

Lemma search_leftmost {r t m} : search r t = Some m -> leftmost_match r t m.
Proof. apply search_from_leftmost. Qed.

End RegexFacts.

(** ** Phone extraction *)

Section PhoneExtraction.
Import Regex CustomerService PyStr.

Ltac inv H := inversion H; subst; clear H.

Ltac unravel :=
  repeat match goal with
         | H : derives (Str _) _ _ _ _ |- _ => cbn [Str] in H
         | H : derives (Seq _ _) _ _ _ _ |- _ => inv H
         | H : derives (Alt _ _) _ _ _ _ |- _ => inv H
         | H : derives (Lit _) _ _ _ _ |- _ => inv H
         | H : derives (Range "1" "9") _ _ _ _ |- _ => inv H
         | H : derives Eps _ _ _ _ |- _ => inv H
         | H : derives WordB _ _ _ _ |- _ => inv H
         end.

(** A bounded repetition of a character class matches a run of such
    characters within the bounds. *)
Lemma rep_range lo hi :
  forall b a p s p' s',
    derives (Rep (Range lo hi) a b) p s p' s' ->
    exists ds,
      s = ds ++ s'
      /\ all_chars (in_range lo hi) ds = true
      /\ (a <= String.length ds <= b)%nat.
Proof.
  induction b as [|b IH]; intros a p s p' s' D.
  - inv D. exists "". cbn. repeat split; lia.
  - inv D.
    + exists "". cbn. repeat split; lia.
    + match goal with H : derives (Range lo hi) _ _ _ _ |- _ => inv H end.
      match goal with H : derives (Rep _ _ _) _ _ _ _ |- _ =>
        apply IH in H; destruct H as [ds [-> [Hall Hlen]]] end.
      exists (String d ds). cbn.
      match goal with H : in_range lo hi d = true |- _ => rewrite H end.
      repeat split; [exact Hall|lia|lia].
Qed.

Lemma nonzero_digit (d : ascii) :
  in_range "1" "9" d = true -> is_digit d = true.
Proof.
  unfold is_digit, in_range. rewrite !andb_true_iff, !N.leb_le.
  cbn. lia.
Qed.

Lemma pattern1_shape p s p' s' :
  derives pattern1 p s p' s' -> exists m, s = m ++ s' /\ phone_shape m.
Proof.
  unfold pattern1, country_prefix. intro D. unravel;
    match goal with H : derives (Rep _ _ _) _ _ _ _ |- _ =>
      apply rep_range in H; destruct H as [ds [-> [Hall Hlen]]] end;
    match goal with H : in_range "1" "9" ?d = true |- _ =>
      apply nonzero_digit in H; rename H into Hd end.
  - exists ("+628" ++ String d ds). split; [reflexivity|].
    exists "+62", (String d ds). cbn [all_chars String.length].
    rewrite Hd. repeat split; cbn; auto; lia.
  - exists ("628" ++ String d ds). split; [reflexivity|].
    exists "62", (String d ds). cbn [all_chars String.length].
    rewrite Hd. repeat split; cbn; auto; lia.
  - exists ("08" ++ String d ds). split; [reflexivity|].
    exists "0", (String d ds). cbn [all_chars String.length].
    rewrite Hd. repeat split; cbn; auto; lia.
Qed.

Lemma pattern2_shape p s p' s' :
  derives pattern2 p s p' s' -> exists m, s = m ++ s' /\ phone_shape m.
Proof.
  unfold pattern2. intro D. unravel.
  match goal with H : derives (Rep _ _ _) _ _ _ _ |- _ =>
    apply rep_range in H; destruct H as [ds [-> [Hall Hlen]]] end.
  exists ("08" ++ ds). split; [reflexivity|].
  exists "0", ds. repeat split; cbn; auto; lia.
Qed.

Lemma append_cancel_r (a b c : string) : a ++ c = b ++ c -> a = b.
Proof.
  revert b. induction a as [|x a IH]; intros b H.
  - destruct b as [|y b]; [reflexivity|]. exfalso.
    apply (f_equal String.length) in H. cbn in H.
    rewrite length_append in H. lia.
  - destruct b as [|y b].
    + exfalso. apply (f_equal String.length) in H. cbn in H.
      rewrite length_append in H. lia.
    + cbn in H. injection H as -> H. f_equal. apply IH. exact H.
Qed.

Lemma match_shape {r t m} :
  (forall p s p' s', derives r p s p' s' ->
                     exists m, s = m ++ s' /\ phone_shape m) ->
  matches_in r t m -> phone_shape m.
Proof.
  intros Hshape [pre [post [p' [_ D]]]].
  apply Hshape in D. destruct D as [m' [Hm Hs]].
  apply append_cancel_r in Hm. subst. exact Hs.
Qed.

(** A text with a phone number in it has "08" or "628" in it. *)
Lemma phone_has_marker {t m : string} :
  (exists pre post, t = pre ++ m ++ post) -> phone_shape m ->
  py_in "08" t = true \/ py_in "628" t = true.
Proof.
  intros [pre [post ->]] [cc [ds [-> [Hcc _]]]].
  cbn [In] in Hcc. destruct Hcc as [<-|[<-|[<-|[]]]].
  - right.
    replace (pre ++ ("+62" ++ "8" ++ ds) ++ post)
      with ((pre ++ "+") ++ "628" ++ (ds ++ post))
      by (rewrite !append_assoc; reflexivity).
    apply py_in_segment.
  - right.
    replace (pre ++ ("62" ++ "8" ++ ds) ++ post)
      with (pre ++ "628" ++ (ds ++ post))
      by (rewrite !append_assoc; reflexivity).
    apply py_in_segment.
  - left.
    replace (pre ++ ("0" ++ "8" ++ ds) ++ post)
      with (pre ++ "08" ++ (ds ++ post))
      by (rewrite !append_assoc; reflexivity).
    apply py_in_segment.
Qed.

Lemma extract_phone_cases (t : string) :
  _extract_phone t
  = match search pattern1 t with
    | Some m => Some m
    | None => search pattern2 t
    end.
Proof.
  unfold _extract_phone, patterns. cbn [first_search].
  destruct (search pattern1 t); [reflexivity|].
  destruct (search pattern2 t); reflexivity.
Qed.

(** C8, as amended: [_extract_phone] returns None exactly when neither of
    its two patterns, (?:\+62|62|0)8[1-9][0-9]{7,10} and \b08[0-9]{8,11}\b,
    has a match in the text, in particular when the text has neither "08"
    nor "628" in it; otherwise it returns the leftmost match of the first
    pattern when that pattern has a match, else the leftmost match of the
    second pattern; what it returns is a segment of the text made of "+62",
    "62" or "0", then "8", then 8 to 11 digits. *)
Theorem extract_phone_result (t : string) :
  (_extract_phone t = None <->
   (forall m, ~ matches_in pattern1 t m)
   /\ (forall m, ~ matches_in pattern2 t m))
  /\ (forall m, _extract_phone t = Some m ->
        (leftmost_match pattern1 t m
         \/ ((forall m', ~ matches_in pattern1 t m')
             /\ leftmost_match pattern2 t m))
        /\ (exists pre post, t = pre ++ m ++ post)
        /\ phone_shape m)
  /\ (py_in "08" t = false -> py_in "628" t = false ->
      _extract_phone t = None).
Proof.
  assert (Hnone : forall r, search r t = None ->
                            forall m, ~ matches_in r t m).
  { intros r E m Hm. apply search_complete in Hm. congruence. }
  assert (Hsome : forall m, _extract_phone t = Some m ->
            (leftmost_match pattern1 t m
             \/ ((forall m', ~ matches_in pattern1 t m')
                 /\ leftmost_match pattern2 t m))
            /\ (exists pre post, t = pre ++ m ++ post)
            /\ phone_shape m).
  { intros m H. rewrite extract_phone_cases in H.
    destruct (search pattern1 t) as [m1|] eqn:E1.
    - injection H as ->. split; [left; exact (search_leftmost E1)|].
      apply search_sound in E1. split.
      + destruct E1 as [pre [post [_ [Ht _]]]]. exists pre, post. exact Ht.
      + exact (match_shape pattern1_shape E1).
    - split; [right; split; [exact (Hnone _ E1)|exact (search_leftmost H)]|].
      apply search_sound in H. split.
      + destruct H as [pre [post [_ [Ht _]]]]. exists pre, post. exact Ht.
      + exact (match_shape pattern2_shape H). }
  split; [|split; [exact Hsome|]].
  - rewrite extract_phone_cases. split.
    + intro H. destruct (search pattern1 t) eqn:E1; [discriminate|].
      split; [exact (Hnone _ E1)|exact (Hnone _ H)].
    + intros [H1 H2].
      destruct (search pattern1 t) as [m|] eqn:E1.
      { exfalso. exact (H1 m (search_sound E1)). }
      destruct (search pattern2 t) as [m|] eqn:E2; [|reflexivity].
      exfalso. exact (H2 m (search_sound E2)).
  - intros H08 H628.
    destruct (_extract_phone t) as [m|] eqn:E; [|reflexivity].
    destruct (Hsome m eq_refl) as [_ [Hseg Hshape]].
    destruct (phone_has_marker Hseg Hshape); congruence.
Qed.

(** A text with a number in it, and one that has neither "08" nor "628". *)
Lemma extract_phone_result_witness :
  phone_shape "081234567890"
  /\ _extract_phone "tidak ada nomor" = None.
Proof.
  split.
  - apply (proj1 (proj2 (extract_phone_result "nomor saya 081234567890"))).
    reflexivity.
  - apply (proj2 (proj2 (extract_phone_result "tidak ada nomor")));
      reflexivity.
Defined.

(** C8, as stated: the text "08012345678901" has a segment that starts with
    "08" and goes on with 12 digits, and [_extract_phone] returns None on
    it. *)
Lemma extract_phone_misses_spec_match :
  search spec_phone_pattern "08012345678901" = Some "08012345678901"
  /\ _extract_phone "08012345678901" = None.
Proof. split; reflexivity. Qed.

(** The cases of the repository's tests of [_extract_phone]. *)
Example extract_phone_tests :
  _extract_phone "nomor saya 081234567890" = Some "081234567890"
  /\ _extract_phone "telepon +6281234567890" = Some "+6281234567890"
  /\ _extract_phone "tidak ada nomor" = None.
Proof. repeat split. Qed.

(** The first pattern goes first over the whole text: a later match of it
    wins over an earlier match of the second pattern. *)
Example extract_phone_first_pattern_first :
  _extract_phone "0801234567 atau 6281234567890" = Some "6281234567890"
  /\ search pattern2 "0801234567 atau 6281234567890" = Some "0801234567".
Proof. split; reflexivity. Qed.

End PhoneExtraction.

(** ** Keyword stage *)

Section KeywordStage.
Import PyStr Keywords.

Lemma any_in_intro (kw : string) (keywords : list string) (query : string) :
  In kw keywords -> py_in kw query = true -> any_in keywords query = true.
Proof.
  intros Hin Hkw. unfold any_in. apply existsb_exists.
  exists kw. split; assumption.
Qed.

Lemma intent_with_intent (c : classification) (i : string) :
  intent (with_intent c i) = VStr i.
Proof. reflexivity. Qed.

(** The cascade of [elif]s computes the first true predicate of the
    priority order. *)
Lemma keyword_intent_first_true (q : string) :
  intent (_classify_intent_with_keywords q)
  = VStr (first_true priority_order q).
Proof.
  unfold _classify_intent_with_keywords, first_true, priority_order.
  cbn [find fst snd].
  destruct (Regex.search phone_pattern q);
    repeat match goal with
           | |- context [if ?b then _ else _] => destruct b
           end; reflexivity.
Qed.

(** C1: the keyword stage tests the categories in the fixed priority order
    comparison, store list, store detail, daily, weekly, monthly, popular
    services, peak hours, churned, inactive, points summary, points redeem,
    points earn, points info, points check, and the first true predicate
    decides the intent; a message with a comparison keyword gets
    compare_periods, in particular one that has both "banding" and "bulan",
    which never gets monthly_revenue; when no predicate is true the intent
    is general. *)
Theorem keyword_stage_priority (q : string) :
  intent (_classify_intent_with_keywords q)
  = VStr (first_true priority_order q)
  /\ (_is_comparison_query q = true ->
      intent (_classify_intent_with_keywords q) = VStr "compare_periods")
  /\ (py_in "banding" q = true -> py_in "bulan" q = true ->
      intent (_classify_intent_with_keywords q) = VStr "compare_periods"
      /\ intent (_classify_intent_with_keywords q) <> VStr "monthly_revenue")
  /\ (forallb (fun entry => negb (fst entry q)) priority_order = true ->
      intent (_classify_intent_with_keywords q) = VStr "general").
Proof.
  assert (Hcmp : _is_comparison_query q = true ->
                 intent (_classify_intent_with_keywords q)
                 = VStr "compare_periods").
  { intro H. rewrite keyword_intent_first_true.
    unfold first_true, priority_order. cbn [find fst snd].
    rewrite H. reflexivity. }
  split; [apply keyword_intent_first_true|].
  split; [exact Hcmp|]. split.
  - intros Hbanding _.
    assert (H : _is_comparison_query q = true).
    { unfold _is_comparison_query.
      apply any_in_intro with (kw := "banding"); [left; reflexivity|assumption]. }
    rewrite (Hcmp H). split; [reflexivity|discriminate].
  - intro Hnone. rewrite keyword_intent_first_true.
    unfold first_true.
    destruct (find (fun entry => fst entry q) priority_order) as [entry|] eqn:Hfind;
      [|reflexivity].
    apply find_some in Hfind. destruct Hfind as [Hin Htrue].
    rewrite forallb_forall in Hnone. specialize (Hnone entry Hin).
    rewrite Htrue in Hnone. discriminate.
Qed.

(** A message with "banding" and "bulan", and one without any keyword. *)
Lemma keyword_stage_priority_witness :
  intent (_classify_intent_with_keywords "bandingkan bulan ini")
  = VStr "compare_periods"
  /\ intent (_classify_intent_with_keywords "halo apa kabar") = VStr "general".
Proof.
  split.
  - apply (proj1 (proj2 (proj2 (keyword_stage_priority "bandingkan bulan ini"))));
      reflexivity.
  - apply (proj2 (proj2 (proj2 (keyword_stage_priority "halo apa kabar"))));
      reflexivity.
Defined.

Example keyword_stage_examples :
  _classify_intent_with_keywords "pendapatan minggu ini toko sudirman"
  = Classification (VStr "weekly_revenue") VNone VNone VNone
  /\ _classify_intent_with_keywords "cek poin 081234567890"
     = Classification (VStr "points_check") VNone (VStr "081234567890") VNone
  /\ _classify_intent_with_keywords "bandingkan pendapatan bulan ini"
     = Classification (VStr "compare_periods") VNone VNone (VStr "month").
Proof. repeat split. Qed.

End KeywordStage.

(** ** Store match score *)

Section StoreMatchScore.
Import PyStr StoreMatch.

Lemma str_mem_true (w : string) (l : list string) :
  str_mem w l = true <-> In w l.
Proof.
  unfold str_mem. rewrite existsb_exists. split.
  - intros [x [Hin Heq]]. apply String.eqb_eq in Heq. subst. exact Hin.
  - intro Hin. exists w. split; [exact Hin|apply String.eqb_refl].
Qed.

(** A store word is among the unique words exactly when it is not common. *)
Lemma unique_iff_not_common (w : string) (ws : list string) :
  In w ws ->
  str_mem w (filter (fun x => negb (str_mem x common_words)) ws)
  = negb (str_mem w common_words).
Proof.
  intro Hin.
  destruct (str_mem w common_words) eqn:Hc; cbn [negb].
  - destruct (str_mem w (filter _ ws)) eqn:Hu; [|reflexivity].
    apply str_mem_true in Hu. apply filter_In in Hu.
    destruct Hu as [_ Hu]. rewrite Hc in Hu. discriminate.
  - apply str_mem_true. apply filter_In. split; [exact Hin|].
    rewrite Hc. reflexivity.
Qed.

(** The loop over the store words adds the points of each word. *)
Lemma score_loop (query : string) (unique : list string) (ws : list string) :
  (forall w, In w ws ->
             str_mem w unique = negb (str_mem w common_words)) ->
  forall acc : Z,
    fold_left
      (fun score word =>
         if py_in word query then
           let score := (score + 1)%Z in
           if str_mem word unique then (score + 2)%Z else score
         else score)
      ws acc
    = (acc + fold_right Z.add 0 (map (word_points query) ws))%Z.
Proof.
  induction ws as [|w ws IH]; intros Hu acc; cbn [fold_left map fold_right].
  - lia.
  - rewrite IH by (intros x Hx; apply Hu; right; exact Hx).
    unfold word_points at 2.
    rewrite (Hu w (or_introl eq_refl)).
    destruct (py_in w query); [|lia].
    destruct (str_mem w common_words); cbn [negb]; lia.
Qed.

Lemma longer_than_one_not_empty (w : string) :
  negb (String.eqb w "") && (1 <? String.length w)%nat
  = (1 <? String.length w)%nat.
Proof. destruct w; reflexivity. Qed.

Lemma score_formula (store_name query : string) :
  _calculate_store_match_score store_name query = spec_score store_name query.
Proof.
  unfold _calculate_store_match_score, spec_score.
  rewrite (filter_ext _ _ longer_than_one_not_empty).
  set (ws := filter (fun w => (1 <? String.length w)%nat) (split store_name)).
  rewrite score_loop by (intros w Hw; apply unique_iff_not_common; exact Hw).
  destruct (py_in store_name query); lia.
Qed.

(** C3, as amended: the score is one point for each word of the store name
    (split at white space, longer than one character) found in the query,
    two more points when that word is not in the stop set, and five points
    when the whole store name occurs in the query; for the store
    "ruang laundry sudirman" the query "laporan toko sudirman" scores 3,
    above the threshold 2, and the query "toko laundry" scores 1, below
    it. *)
Theorem store_match_score_formula :
  (forall store_name query,
     _calculate_store_match_score store_name query
     = spec_score store_name query)
  /\ _calculate_store_match_score "ruang laundry sudirman"
                                  "laporan toko sudirman" = 3%Z
  /\ (2 < _calculate_store_match_score "ruang laundry sudirman"
                                       "laporan toko sudirman")%Z
  /\ _calculate_store_match_score "ruang laundry sudirman" "toko laundry"
     = 1%Z
  /\ (_calculate_store_match_score "ruang laundry sudirman" "toko laundry"
      < 2)%Z.
Proof.
  split; [exact score_formula|].
  repeat split; vm_compute; reflexivity.
Qed.

(** C3, as stated: the query "toko laundry" does not score 0 for the store
    "ruang laundry sudirman"; the common word "laundry" of the store name
    occurs in it and earns one point. *)
Lemma store_match_score_common_word :
  _calculate_store_match_score "ruang laundry sudirman" "toko laundry" = 1%Z
  /\ _calculate_store_match_score "ruang laundry sudirman" "toko laundry"
     <> 0%Z.
Proof. split; [reflexivity|discriminate]. Qed.

End StoreMatchScore.

(** ** Revenue comparison *)

Section RevenueComparison.
Import AnalyticsTools.

(** A float that equals 0 (either zero) is neither above nor below 0. *)
Lemma float_zero_not_signed (x : float) :
  (x =? 0)%float = true ->
  (0 <? x)%float = false /\ (x <? 0)%float = false.
Proof.
  rewrite FloatAxioms.eqb_spec, !ltb_spec.
  change (Prim2SF 0%float) with (S754_zero false).
  destruct (Prim2SF x) as [s|s| |s m e]; cbn;
    try discriminate; try (destruct s; discriminate).
  intros _. split; reflexivity.
Qed.

(** A float below 0 is not above 0. *)
Lemma float_negative_not_positive (x : float) :
  (x <? 0)%float = true -> (0 <? x)%float = false.
Proof.
  rewrite !ltb_spec.
  change (Prim2SF 0%float) with (S754_zero false).
  destruct (Prim2SF x) as [s|s| |s m e]; cbn; try discriminate;
    destruct s; cbn; try discriminate; reflexivity.
Qed.

Lemma growth_positive_previous (previous current : float) :
  (0 <? previous)%float = true ->
  growth_percentage previous current
  = ((current - previous) / previous * 100)%float.
Proof. intro H. unfold growth_percentage. rewrite H. reflexivity. Qed.

Lemma growth_from_nothing (previous current : float) :
  (0 <? previous)%float = false -> (0 <? current)%float = true ->
  growth_percentage previous current = 100%float.
Proof.
  intros Hp Hc. unfold growth_percentage. rewrite Hp, Hc. reflexivity.
Qed.

Lemma growth_nothing_to_nothing (previous current : float) :
  (0 <? previous)%float = false -> (0 <? current)%float = false ->
  growth_percentage previous current = 0%float.
Proof.
  intros Hp Hc. unfold growth_percentage. rewrite Hp, Hc. reflexivity.
Qed.

Lemma direction_by_sign (growth : float) :
  ((0 <? growth)%float = true -> growth_direction growth = "up")
  /\ ((growth <? 0)%float = true -> growth_direction growth = "down")
  /\ ((0 <? growth)%float = false -> (growth <? 0)%float = false ->
      growth_direction growth = "flat")
  /\ ((growth =? 0)%float = true -> growth_direction growth = "flat").
Proof.
  unfold growth_direction. repeat split.
  - intro H. rewrite H. reflexivity.
  - intro H. rewrite (float_negative_not_positive growth H), H. reflexivity.
  - intros H1 H2. rewrite H1, H2. reflexivity.
  - intro H. destruct (float_zero_not_signed growth H) as [H1 H2].
    rewrite H1, H2. reflexivity.
Qed.

(** [round(x, 2)] on doubles: 0.125 is a tie and goes to the even 0.12;
    2.675 is the double just below the tie and goes down; the double 0.025
    is just above the tie and goes up; the sign of a zero is kept. *)
Example round2_examples :
  round2 0.125 = 0.12%float
  /\ round2 2.675 = 2.67%float
  /\ round2 0.025 = 0.03%float
  /\ round2 33.333333333333336 = 33.33%float
  /\ round2 (-0.125) = (-0.12)%float
  /\ Prim2SF (round2 (-0.001)) = S754_zero true
  /\ round2 1e22 = 1e22%float
  /\ round2 infinity = infinity
  /\ Prim2SF (round2 nan) = S754_nan.
Proof. repeat split; vm_compute; reflexivity. Qed.

(** What [compare_revenue] reports, in terms of the two revenues. *)
Lemma compare_revenue_report (orders : list order) (now1 now2 : Z)
  (p1 p2 : string) (store : option string) :
  let r := compare_revenue orders now1 now2 p1 p2 store in
  let previous := revenue (period1 r) in
  let current := revenue (period2 r) in
  previous = fst (get_revenue_for_period orders store
                    (get_period_dates now1 p1))
  /\ current = fst (get_revenue_for_period orders store
                      (get_period_dates now2 p2))
  /\ reported_growth_percentage r
     = round2 (growth_percentage previous current)
  /\ reported_growth_direction r
     = growth_direction (growth_percentage previous current).
Proof.
  unfold compare_revenue.
  destruct (get_revenue_for_period orders store (get_period_dates now1 p1))
    as [rev1 count1].
  destruct (get_revenue_for_period orders store (get_period_dates now2 p2))
    as [rev2 count2].
  cbn. repeat split.
Qed.

(** C9, as amended: with previous the paid revenue of the first period and
    current that of the second, both sums of floats, [compare_revenue]
    computes the growth in float arithmetic as
    (current - previous) / previous * 100 when previous > 0, as 100 when
    previous is not above 0 (so when it is 0) and current > 0, and as 0
    when neither is above 0 (so when both are 0); the direction it reports
    is up when that growth is above 0, down when it is below 0 and flat
    otherwise, so flat when it is 0; the percentage it reports is that
    growth rounded to two decimals by [round], so 100 with direction up
    when previous = 0 and current > 0, and 0 with direction flat when both
    are 0. *)
Theorem compare_revenue_growth (orders : list order) (now1 now2 : Z)
  (p1 p2 : string) (store : option string) :
  let r := compare_revenue orders now1 now2 p1 p2 store in
  let previous := revenue (period1 r) in
  let current := revenue (period2 r) in
  let growth := growth_percentage previous current in
  previous = fst (get_revenue_for_period orders store
                    (get_period_dates now1 p1))
  /\ current = fst (get_revenue_for_period orders store
                      (get_period_dates now2 p2))
  /\ reported_growth_direction r = growth_direction growth
  /\ reported_growth_percentage r = round2 growth
  /\ ((0 <? previous)%float = true ->
      growth = ((current - previous) / previous * 100)%float)
  /\ ((0 <? previous)%float = false -> (0 <? current)%float = true ->
      growth = 100%float /\ reported_growth_direction r = "up"
      /\ reported_growth_percentage r = 100%float)
  /\ ((0 <? previous)%float = false -> (0 <? current)%float = false ->
      growth = 0%float /\ reported_growth_direction r = "flat"
      /\ reported_growth_percentage r = 0%float)
  /\ ((previous =? 0)%float = true -> (0 <? previous)%float = false)
  /\ ((current =? 0)%float = true -> (0 <? current)%float = false)
  /\ ((0 <? growth)%float = true -> reported_growth_direction r = "up")
  /\ ((growth <? 0)%float = true -> reported_growth_direction r = "down")
  /\ ((0 <? growth)%float = false -> (growth <? 0)%float = false ->
      reported_growth_direction r = "flat")
  /\ ((growth =? 0)%float = true -> reported_growth_direction r = "flat").
Proof.
  intros r previous current growth.
  destruct (compare_revenue_report orders now1 now2 p1 p2 store)
    as [Hprev [Hcur [Hpct Hdir]]].
  fold r in Hprev, Hcur, Hpct, Hdir.
  fold previous in Hprev, Hpct, Hdir. fold current in Hcur, Hpct, Hdir.
  fold growth in Hpct, Hdir.
  destruct (direction_by_sign growth) as [Hup [Hdown [Hflat Hzero]]].
  split; [exact Hprev|]. split; [exact Hcur|].
  split; [exact Hdir|]. split; [exact Hpct|]. split.
  { intro H. apply growth_positive_previous. exact H. }
  split.
  { intros Hp Hc.
    assert (Hg : growth = 100%float)
      by (apply growth_from_nothing; assumption).
    split; [exact Hg|]. rewrite Hdir, Hpct, Hg.
    split; vm_compute; reflexivity. }
  split.
  { intros Hp Hc.
    assert (Hg : growth = 0%float)
      by (apply growth_nothing_to_nothing; assumption).
    split; [exact Hg|]. rewrite Hdir, Hpct, Hg.
    split; vm_compute; reflexivity. }
  split; [intro H; apply (float_zero_not_signed previous H)|].
  split; [intro H; apply (float_zero_not_signed current H)|].
  rewrite Hdir. repeat split; assumption.
Qed.

(** The orders of one week against an empty week before. *)
Lemma compare_revenue_growth_witness :
  reported_growth_direction
    (compare_revenue Scenario.week_orders (14 * day) (14 * day)
                     "last_week" "this_week" (Some "s1")) = "up"
  /\ reported_growth_percentage
       (compare_revenue Scenario.week_orders (14 * day) (14 * day)
                        "last_week" "this_week" (Some "s1")) = 100%float.
Proof.
  pose proof (compare_revenue_growth Scenario.week_orders (14 * day) (14 * day)
                "last_week" "this_week" (Some "s1")) as H.
  cbv zeta in H.
  destruct H as [_ [_ [_ [_ [_ [H _]]]]]].
  destruct H as [_ [Hdir Hpct]].
  - vm_compute. reflexivity.
  - vm_compute. reflexivity.
  - split; assumption.
Defined.

(** C9, as stated: with previous = 300000 and current = 400000 the reported
    growth percentage is 33.33 and not (current - previous) / previous * 100;
    with previous = 1000000 and current = 1000001 the reported growth
    percentage is 0 while the reported direction is up. *)
Lemma compare_revenue_reports_rounded :
  let r := compare_revenue Scenario.growing_orders (14 * day) (14 * day)
                           "last_week" "this_week" None in
  let r' := compare_revenue Scenario.steady_orders (14 * day) (14 * day)
                            "last_week" "this_week" None in
  revenue (period1 r) = 300000%float
  /\ revenue (period2 r) = 400000%float
  /\ reported_growth_percentage r = 33.33%float
  /\ (reported_growth_percentage r
      =? (400000 - 300000) / 300000 * 100)%float = false
  /\ revenue (period1 r') = 1000000%float
  /\ revenue (period2 r') = 1000001%float
  /\ reported_growth_percentage r' = 0%float
  /\ reported_growth_direction r' = "up".
Proof.
  cbv zeta. repeat split; vm_compute; reflexivity.
Qed.

End RevenueComparison.

(** ** UUID formatting *)

Section UuidFacts.
Import PyStr Uuid.

(** *** Characters *)

Ltac by_cases_on c :=
  destruct c as [[] [] [] [] [] [] [] []]; vm_compute;
  repeat split; intros; try discriminate; try reflexivity; try assumption.

Lemma hex_not_dash (c : ascii) : is_hex c = true -> Ascii.eqb c "-" = false.
Proof. by_cases_on c. Qed.

Lemma lower_hex_is_hex (c : ascii) : is_lower_hex c = true -> is_hex c = true.
Proof. unfold is_hex. intros ->. reflexivity. Qed.

Lemma lower_char_hex (c : ascii) :
  is_hex c = true -> is_lower_hex (lower_char c) = true.
Proof. by_cases_on c. Qed.

Lemma lower_char_dash (c : ascii) :
  Ascii.eqb c "-" = true -> Ascii.eqb (lower_char c) "-" = true.
Proof. by_cases_on c. Qed.

Lemma lower_char_lower_hex (c : ascii) :
  is_lower_hex c = true -> lower_char c = c.
Proof. by_cases_on c. Qed.

Lemma lower_char_dash_id (c : ascii) :
  Ascii.eqb c "-" = true -> lower_char c = c.
Proof. by_cases_on c. Qed.

(** *** Layout *)

Lemma layout_length_count (hexp : ascii -> bool) :
  (forall c, hexp c = true -> Ascii.eqb c "-" = false) ->
  forall layout s,
    follows_layout hexp layout s = true ->
    String.length s = List.length layout
    /\ count_char "-" s = count_occ bool_dec layout true.
Proof.
  intros Hnd. induction layout as [|place layout IH]; intros s H.
  - destruct s; [split; reflexivity|discriminate].
  - destruct s as [|c s]; [discriminate|].
    cbn [follows_layout] in H. apply andb_prop in H. destruct H as [Hc Hs].
    destruct (IH s Hs) as [Hlen Hcount].
    cbn [String.length List.length count_char]. rewrite Hlen, Hcount.
    split; [reflexivity|].
    destruct place.
    + apply Ascii.eqb_eq in Hc. subst c. reflexivity.
    + apply Hnd in Hc. rewrite Ascii.eqb_sym, Hc. reflexivity.
Qed.

Lemma dashed_uuid_length_count (s : string) :
  dashed_uuid s = true ->
  String.length s = 36%nat /\ count_char "-" s = 4%nat.
Proof.
  intro H. exact (layout_length_count _ hex_not_dash _ _ H).
Qed.

Lemma layout_weaken (f g : ascii -> bool) :
  (forall c, f c = true -> g c = true) ->
  forall layout s,
    follows_layout f layout s = true -> follows_layout g layout s = true.
Proof.
  intros Hfg. induction layout as [|place layout IH]; intros s H.
  - exact H.
  - destruct s as [|c s]; [discriminate|].
    cbn [follows_layout] in *. apply andb_prop in H. destruct H as [Hc Hs].
    rewrite (IH s Hs). destruct place; [rewrite Hc|rewrite (Hfg c Hc)];
      reflexivity.
Qed.

Lemma canonical_is_dashed (s : string) :
  canonical_uuid s = true -> dashed_uuid s = true.
Proof. apply layout_weaken. exact lower_hex_is_hex. Qed.

Lemma layout_lower :
  forall layout s,
    follows_layout is_hex layout s = true ->
    follows_layout is_lower_hex layout (lower s) = true.
Proof.
  induction layout as [|place layout IH]; intros s H.
  - destruct s; [reflexivity|discriminate].
  - destruct s as [|c s]; [discriminate|].
    cbn [follows_layout lower] in *. apply andb_prop in H.
    destruct H as [Hc Hs]. rewrite (IH s Hs).
    destruct place;
      [rewrite (lower_char_dash _ Hc)|rewrite (lower_char_hex _ Hc)];
      reflexivity.
Qed.

Lemma layout_lower_id :
  forall layout s,
    follows_layout is_lower_hex layout s = true -> lower s = s.
Proof.
  induction layout as [|place layout IH]; intros s H.
  - destruct s; [reflexivity|discriminate].
  - destruct s as [|c s]; [discriminate|].
    cbn [follows_layout lower] in *. apply andb_prop in H.
    destruct H as [Hc Hs]. rewrite (IH s Hs).
    destruct place;
      [rewrite (lower_char_dash_id _ Hc)|rewrite (lower_char_lower_hex _ Hc)];
      reflexivity.
Qed.

(** Thirty-two digits, dashed, follow the layout. *)
Lemma dashed_layout (hexp : ascii -> bool) (h : string) :
  String.length h = 32%nat -> all_chars hexp h = true ->
  follows_layout hexp uuid_layout (dashed h) = true.
Proof.
  intros Hlen Hall.
  do 32 (destruct h as [|? h]; [discriminate|]).
  destruct h; [|discriminate]. clear Hlen.
  cbn [all_chars] in Hall.
  repeat match goal with
         | H : _ && _ = true |- _ =>
             apply andb_prop in H; let Hc := fresh "Hc" in
                                   destruct H as [Hc H]
         end.
  cbn.
  repeat match goal with
         | H : hexp _ = true |- _ => rewrite H; clear H
         end.
  reflexivity.
Qed.

Lemma all_chars_lower (s : string) :
  all_chars is_hex s = true -> all_chars is_lower_hex (lower s) = true.
Proof.
  induction s as [|c s IH]; [reflexivity|]. cbn [all_chars lower].
  intro H. apply andb_prop in H. destruct H as [Hc Hs].
  rewrite (lower_char_hex _ Hc), (IH Hs). reflexivity.
Qed.

Lemma length_lower (s : string) : String.length (lower s) = String.length s.
Proof. induction s as [|c s IH]; cbn; [reflexivity|rewrite IH; reflexivity]. Qed.

Lemma lower_dashed (h : string) :
  String.length h = 32%nat -> lower (dashed h) = dashed (lower h).
Proof.
  intros Hlen.
  do 32 (destruct h as [|? h]; [discriminate|]).
  destruct h; [|discriminate]. reflexivity.
Qed.

(** *** Bytes and byte values *)

Lemma byte_hex_two_digits (b : byte) : two_lower_hex (byte_hex b) = true.
Proof. destruct b; vm_compute; reflexivity. Qed.

Lemma byte_hex_digits (b : byte) :
  exists c1 c2,
    byte_hex b = String c1 (String c2 "")
    /\ is_lower_hex c1 = true /\ is_lower_hex c2 = true.
Proof.
  pose proof (byte_hex_two_digits b) as H. unfold two_lower_hex in H.
  destruct (byte_hex b) as [|c1 [|c2 [|c3 rest]]]; try discriminate.
  apply andb_prop in H. destruct H as [H1 H2].
  exists c1, c2. repeat split; assumption.
Qed.

Lemma bytes_hex_cons (b : byte) (bs : list byte) :
  bytes_hex (b :: bs) = byte_hex b ++ bytes_hex bs.
Proof.
  unfold bytes_hex. cbn [map String.concat].
  destruct bs as [|b' bs]; cbn [map String.concat].
  - symmetry. apply append_nil_r.
  - reflexivity.
Qed.

Lemma bytes_hex_digits (bs : list byte) :
  String.length (bytes_hex bs) = (2 * List.length bs)%nat
  /\ all_chars is_lower_hex (bytes_hex bs) = true.
Proof.
  induction bs as [|b bs [IHlen IHall]]; [split; reflexivity|].
  rewrite bytes_hex_cons.
  destruct (byte_hex_digits b) as [c1 [c2 [-> [H1 H2]]]].
  cbn [append String.length all_chars List.length].
  rewrite IHlen, IHall, H1, H2. split; [lia|reflexivity].
Qed.

Lemma format_02x_byte (n : Z) :
  (0 <= n < 256)%Z ->
  exists b, Byte.of_N (Z.to_N n) = Some b /\ format_02x n = byte_hex b.
Proof.
  intro Hn.
  assert (Hall : forallb
            (fun k => match Byte.of_N (N.of_nat k) with
                      | Some b => String.eqb (format_02x (Z.of_nat k))
                                             (byte_hex b)
                      | None => false
                      end) (seq 0 256) = true) by (vm_compute; reflexivity).
  rewrite forallb_forall in Hall.
  specialize (Hall (Z.to_nat n)).
  rewrite Z2Nat.id in Hall by lia.
  replace (N.of_nat (Z.to_nat n)) with (Z.to_N n) in Hall by lia.
  assert (Hin : In (Z.to_nat n) (seq 0 256)) by (apply in_seq; lia).
  specialize (Hall Hin).
  destruct (Byte.of_N (Z.to_N n)) as [b|]; [|discriminate].
  exists b. split; [reflexivity|]. apply String.eqb_eq. exact Hall.
Qed.

Lemma join_byte_values (items : list value) :
  forallb is_byte_value items = true ->
  join_items items = Ret (bytes_hex (map byte_of_item items)).
Proof.
  induction items as [|v items IH]; [reflexivity|].
  cbn [forallb]. intro H. apply andb_prop in H. destruct H as [Hv Hs].
  cbn [join_items map]. rewrite (IH Hs), bytes_hex_cons.
  destruct v; try discriminate. cbn [is_byte_value] in Hv.
  apply andb_prop in Hv. destruct Hv as [H0 H256].
  apply Z.leb_le in H0. apply Z.ltb_lt in H256.
  destruct (format_02x_byte n (conj H0 H256)) as [b [Hb Hf]].
  cbn [format_item byte_of_item]. rewrite Hb, Hf. reflexivity.
Qed.

(** *** The function *)

Variable rt : runtime.

Lemma format_uuid_fixed (s : string) :
  String.length s = 36%nat -> count_char "-" s = 4%nat ->
  _format_uuid rt (VStr s) = Ret s.
Proof.
  intros Hlen Hcount. unfold _format_uuid.
  assert (Hne : String.eqb s "" = false) by (destruct s; [discriminate|reflexivity]).
  cbn [truthy]. rewrite Hne, Hlen, Hcount. reflexivity.
Qed.

Lemma format_uuid_hex32 (s : string) :
  String.length s = 32%nat -> _format_uuid rt (VStr s) = Ret (dashed s).
Proof.
  intros Hlen. unfold _format_uuid.
  assert (Hne : String.eqb s "" = false) by (destruct s; [discriminate|reflexivity]).
  cbn [truthy]. rewrite Hne, Hlen. reflexivity.
Qed.

Lemma format_uuid_bytes (bs : list byte) :
  List.length bs = 16%nat ->
  _format_uuid rt (VBytes bs) = Ret (dashed (bytes_hex bs))
  /\ _format_uuid rt (VByteArray bs) = Ret (dashed (bytes_hex bs))
  /\ _format_uuid rt (VMemoryView bs) = Ret (dashed (bytes_hex bs)).
Proof.
  intro Hlen. destruct bs; [discriminate|]. repeat split.
Qed.

Lemma format_uuid_items (items : list value) :
  List.length items = 16%nat -> forallb is_byte_value items = true ->
  _format_uuid rt (VList items)
  = Ret (dashed (bytes_hex (map byte_of_item items)))
  /\ _format_uuid rt (VTuple items)
     = Ret (dashed (bytes_hex (map byte_of_item items))).
Proof.
  intros Hlen Hall. unfold _format_uuid.
  destruct items as [|v items]; [discriminate|].
  cbn [truthy negb]. rewrite Hlen, (join_byte_values _ Hall).
  split; reflexivity.
Qed.

Lemma canonical_of_bytes (bs : list byte) :
  List.length bs = 16%nat -> canonical_uuid (dashed (bytes_hex bs)) = true.
Proof.
  intro Hlen. destruct (bytes_hex_digits bs) as [Hl Hall].
  apply dashed_layout; [rewrite Hl, Hlen; reflexivity|exact Hall].
Qed.

(** What [_format_uuid] returns on an accepted encoding. *)
Lemma format_uuid_accepted (v : value) :
  accepted v = true ->
  exists out,
    _format_uuid rt v = Ret out
    /\ dashed_uuid out = true
    /\ lower out = spec_normalize_uuid v
    /\ canonical_uuid (spec_normalize_uuid v) = true
    /\ (match v with VStr s => lower s = s | _ => True end ->
        out = spec_normalize_uuid v).
Proof.
  assert (Hbytes : forall bs, List.length bs = 16%nat ->
            dashed_uuid (dashed (bytes_hex bs)) = true
            /\ lower (dashed (bytes_hex bs)) = dashed (bytes_hex bs)
            /\ canonical_uuid (dashed (bytes_hex bs)) = true).
  { intros bs Hlen. pose proof (canonical_of_bytes _ Hlen) as Hc.
    split; [apply canonical_is_dashed; exact Hc|].
    split; [exact (layout_lower_id _ _ Hc)|exact Hc]. }
  intro Hacc. destruct v; try discriminate; cbn [accepted] in Hacc.
  - (* str *)
    apply orb_prop in Hacc. destruct Hacc as [Hd|H32].
    + destruct (dashed_uuid_length_count _ Hd) as [Hlen Hcount].
      exists s. cbn [spec_normalize_uuid]. rewrite Hlen. cbn [Nat.eqb].
      split; [apply format_uuid_fixed; assumption|].
      split; [exact Hd|]. split; [reflexivity|].
      split; [apply layout_lower; exact Hd|].
      intro Hlow. symmetry. exact Hlow.
    + apply andb_prop in H32. destruct H32 as [Hlen Hall].
      apply Nat.eqb_eq in Hlen.
      exists (dashed s). cbn [spec_normalize_uuid]. rewrite Hlen.
      cbn [Nat.eqb].
      split; [apply format_uuid_hex32; exact Hlen|].
      split; [apply dashed_layout; assumption|].
      split; [apply lower_dashed; exact Hlen|].
      split.
      * apply dashed_layout; [rewrite length_lower; exact Hlen|].
        apply all_chars_lower. exact Hall.
      * intro Hlow. rewrite Hlow. reflexivity.
  - (* bytes *)
    apply Nat.eqb_eq in Hacc. exists (dashed (bytes_hex bs)).
    destruct (Hbytes bs Hacc) as [Hd [Hl Hc]].
    split; [apply (format_uuid_bytes _ Hacc)|].
    cbn [spec_normalize_uuid]. repeat split; assumption.
  - (* bytearray *)
    apply Nat.eqb_eq in Hacc. exists (dashed (bytes_hex bs)).
    destruct (Hbytes bs Hacc) as [Hd [Hl Hc]].
    split; [apply (format_uuid_bytes _ Hacc)|].
    cbn [spec_normalize_uuid]. repeat split; assumption.
  - (* memoryview *)
    apply Nat.eqb_eq in Hacc. exists (dashed (bytes_hex bs)).
    destruct (Hbytes bs Hacc) as [Hd [Hl Hc]].
    split; [apply (format_uuid_bytes _ Hacc)|].
    cbn [spec_normalize_uuid]. repeat split; assumption.
  - (* list *)
    apply andb_prop in Hacc. destruct Hacc as [Hlen Hall].
    apply Nat.eqb_eq in Hlen.
    exists (dashed (bytes_hex (map byte_of_item items))).
    destruct (Hbytes (map byte_of_item items)) as [Hd [Hl Hc]];
      [rewrite length_map; exact Hlen|].
    split; [apply (format_uuid_items _ Hlen Hall)|].
    cbn [spec_normalize_uuid]. repeat split; assumption.
  - (* tuple *)
    apply andb_prop in Hacc. destruct Hacc as [Hlen Hall].
    apply Nat.eqb_eq in Hlen.
    exists (dashed (bytes_hex (map byte_of_item items))).
    destruct (Hbytes (map byte_of_item items)) as [Hd [Hl Hc]];
      [rewrite length_map; exact Hlen|].
    split; [apply (format_uuid_items _ Hlen Hall)|].
    cbn [spec_normalize_uuid]. repeat split; assumption.
Qed.

(** Dashes are put between the digits, whatever the digits are. *)
Lemma dashed_injective (a b : string) :
  String.length a = 32%nat -> String.length b = 32%nat ->
  dashed a = dashed b -> a = b.
Proof.
  intros Ha Hb.
  do 32 (destruct a as [|? a]; [discriminate|]).
  destruct a; [|discriminate].
  do 32 (destruct b as [|? b]; [discriminate|]).
  destruct b; [|discriminate].
  cbn. intro H. injection H. intros. subst. reflexivity.
Qed.

(** What [_format_uuid] returns on an accepted encoding, digit for digit:
    a dashed string as it is, a 32-character string with dashes put in,
    bytes and byte values as their dashed lowercase hexadecimal text. *)
Lemma format_uuid_exact (v : value) :
  accepted v = true ->
  _format_uuid rt v
  = Ret match v with
        | VStr s => if (String.length s =? 32)%nat then dashed s else s
        | VBytes bs | VByteArray bs | VMemoryView bs => dashed (bytes_hex bs)
        | VList items | VTuple items =>
            dashed (bytes_hex (map byte_of_item items))
        | _ => ""
        end.
Proof.
  intro Hacc. destruct v; try discriminate; cbn [accepted] in Hacc.
  - apply orb_prop in Hacc. destruct Hacc as [Hd|H32].
    + destruct (dashed_uuid_length_count _ Hd) as [Hlen Hcount].
      rewrite Hlen. cbn [Nat.eqb]. apply format_uuid_fixed; assumption.
    + apply andb_prop in H32. destruct H32 as [Hlen _]. rewrite Hlen.
      apply Nat.eqb_eq in Hlen. apply format_uuid_hex32. exact Hlen.
  - apply Nat.eqb_eq in Hacc. apply (format_uuid_bytes _ Hacc).
  - apply Nat.eqb_eq in Hacc. apply (format_uuid_bytes _ Hacc).
  - apply Nat.eqb_eq in Hacc. apply (format_uuid_bytes _ Hacc).
  - apply andb_prop in Hacc. destruct Hacc as [Hlen Hall].
    apply Nat.eqb_eq in Hlen. apply (format_uuid_items _ Hlen Hall).
  - apply andb_prop in Hacc. destruct Hacc as [Hlen Hall].
    apply Nat.eqb_eq in Hlen. apply (format_uuid_items _ Hlen Hall).
Qed.

(** The result is the canonical form only for a string without uppercase
    digits. *)
Lemma format_uuid_canonical_only (s out : string) :
  accepted (VStr s) = true ->
  _format_uuid rt (VStr s) = Ret out ->
  out = spec_normalize_uuid (VStr s) -> lower s = s.
Proof.
  intros Hacc Hout Heq.
  rewrite (format_uuid_exact _ Hacc) in Hout. injection Hout as Hout.
  cbn [spec_normalize_uuid] in Heq.
  destruct (String.length s =? 32)%nat eqn:Hlen; subst out.
  - apply Nat.eqb_eq in Hlen. symmetry.
    apply dashed_injective;
      [exact Hlen|rewrite length_lower; exact Hlen|exact Heq].
  - symmetry. exact Heq.
Qed.

(** C6, as amended: on a dashed 36-character UUID string, a 32-character
    hexadecimal string, 16 bytes or a sequence of 16 byte values,
    [_format_uuid] returns the dashed 36-character form of that UUID.  A
    string keeps its digits as they are given, letter case included: a
    dashed string is returned as it is and a 32-character string only
    gets the dashes; bytes and byte values give lowercase digits.  So the
    result is the canonical lowercase form up to letter case, and it is
    that form exactly when the input is bytes, byte values or a string
    without uppercase digits; 16 bytes and their 32-character (lowercase)
    hexadecimal text give the same string; a falsy input gives the empty
    string. *)
Theorem format_uuid_normalizes :
  (forall v, accepted v = true ->
     exists out,
       _format_uuid rt v = Ret out
       /\ dashed_uuid out = true
       /\ out = match v with
                | VStr s =>
                    if (String.length s =? 32)%nat then dashed s else s
                | VBytes bs | VByteArray bs | VMemoryView bs =>
                    dashed (bytes_hex bs)
                | VList items | VTuple items =>
                    dashed (bytes_hex (map byte_of_item items))
                | _ => ""
                end
       /\ lower out = spec_normalize_uuid v
       /\ canonical_uuid (spec_normalize_uuid v) = true
       /\ (out = spec_normalize_uuid v
           <-> match v with VStr s => lower s = s | _ => True end)
       /\ (canonical_uuid out = true
           <-> match v with VStr s => lower s = s | _ => True end))
  /\ (forall bs, List.length bs = 16%nat ->
        _format_uuid rt (VBytes bs) = _format_uuid rt (VStr (bytes_hex bs)))
  /\ (forall v, truthy v = false -> _format_uuid rt v = Ret "").
Proof.
  split; [|split].
  - intros v Hacc.
    destruct (format_uuid_accepted v Hacc) as [out [Hout [Hd [Hl [Hc Hif]]]]].
    assert (Honly : out = spec_normalize_uuid v ->
                    match v with VStr s => lower s = s | _ => True end).
    { destruct v; try exact (fun _ => I).
      exact (format_uuid_canonical_only s out Hacc Hout). }
    exists out. split; [exact Hout|]. split; [exact Hd|]. split.
    { pose proof (format_uuid_exact v Hacc) as Hx. rewrite Hout in Hx.
      injection Hx as Hx. exact Hx. }
    split; [exact Hl|]. split; [exact Hc|]. split.
    + split; [exact Honly|exact Hif].
    + split.
      * intro Hcan. apply Honly. rewrite <- Hl. symmetry.
        exact (layout_lower_id _ _ Hcan).
      * intro Hs. rewrite (Hif Hs). exact Hc.
  - intros bs Hlen.
    destruct (format_uuid_bytes bs Hlen) as [-> _].
    destruct (bytes_hex_digits bs) as [Hl _].
    rewrite format_uuid_hex32 by (rewrite Hl, Hlen; reflexivity).
    reflexivity.
  - intros v Hv. unfold _format_uuid. rewrite Hv. reflexivity.
Qed.

(** C7: [_format_uuid] returns a canonical 36-character dashed UUID string
    unchanged, and so applying it to its own result on an accepted encoding
    changes nothing. *)
Theorem format_uuid_idempotent :
  (forall u, canonical_uuid u = true -> _format_uuid rt (VStr u) = Ret u)
  /\ (forall v, accepted v = true ->
        exists out,
          _format_uuid rt v = Ret out
          /\ _format_uuid rt (VStr out) = Ret out).
Proof.
  assert (Hfix : forall u, dashed_uuid u = true ->
                           _format_uuid rt (VStr u) = Ret u).
  { intros u Hu. destruct (dashed_uuid_length_count u Hu) as [Hlen Hcount].
    exact (format_uuid_fixed u Hlen Hcount). }
  split.
  - intros u Hu. apply Hfix. apply canonical_is_dashed. exact Hu.
  - intros v Hacc.
    destruct (format_uuid_accepted v Hacc) as [out [Hout [Hd _]]].
    exists out. split; [exact Hout|exact (Hfix out Hd)].
Qed.

End UuidFacts.

(** A 32-character string with uppercase digits, and a falsy input. *)
Lemma format_uuid_normalizes_witness :
  (exists out,
     Uuid._format_uuid Scenario.rt0
       (VStr "29EDF3AE6ac342b3abf890494dcdc7c5") = Ret out
     /\ Uuid.dashed_uuid out = true
     /\ out = Uuid.dashed "29EDF3AE6ac342b3abf890494dcdc7c5"
     /\ PyStr.lower out
        = Uuid.spec_normalize_uuid (VStr "29EDF3AE6ac342b3abf890494dcdc7c5")
     /\ Uuid.canonical_uuid
          (Uuid.spec_normalize_uuid (VStr "29EDF3AE6ac342b3abf890494dcdc7c5"))
        = true
     /\ (out = Uuid.spec_normalize_uuid
                 (VStr "29EDF3AE6ac342b3abf890494dcdc7c5")
         <-> PyStr.lower "29EDF3AE6ac342b3abf890494dcdc7c5"
             = "29EDF3AE6ac342b3abf890494dcdc7c5")
     /\ (Uuid.canonical_uuid out = true
         <-> PyStr.lower "29EDF3AE6ac342b3abf890494dcdc7c5"
             = "29EDF3AE6ac342b3abf890494dcdc7c5"))
  /\ Uuid._format_uuid Scenario.rt0 VNone = Ret "".
Proof.
  split.
  - apply (proj1 (format_uuid_normalizes Scenario.rt0)
             (VStr "29EDF3AE6ac342b3abf890494dcdc7c5")).
    reflexivity.
  - apply (proj2 (proj2 (format_uuid_normalizes Scenario.rt0))). reflexivity.
Defined.

(** C6, as stated: the 32-character hexadecimal string
    "29EDF3AE6AC342B3ABF890494DCDC7C5" is an accepted encoding, and what
    [_format_uuid] returns for it has uppercase digits: it is not the
    canonical lowercase form. *)
Lemma format_uuid_keeps_uppercase :
  Uuid.accepted (VStr "29EDF3AE6AC342B3ABF890494DCDC7C5") = true
  /\ Uuid._format_uuid Scenario.rt0 (VStr "29EDF3AE6AC342B3ABF890494DCDC7C5")
     = Ret "29EDF3AE-6AC3-42B3-ABF8-90494DCDC7C5"
  /\ Uuid.canonical_uuid "29EDF3AE-6AC3-42B3-ABF8-90494DCDC7C5" = false
  /\ Uuid.spec_normalize_uuid (VStr "29EDF3AE6AC342B3ABF890494DCDC7C5")
     = "29edf3ae-6ac3-42b3-abf8-90494dcdc7c5".
Proof. repeat split. Qed.

(** A canonical string, and the list of the sixteen byte values 0 to 15. *)
Lemma format_uuid_idempotent_witness :
  Uuid._format_uuid Scenario.rt0 (VStr "29edf3ae-6ac3-42b3-abf8-90494dcdc7c5")
  = Ret "29edf3ae-6ac3-42b3-abf8-90494dcdc7c5"
  /\ exists out,
       Uuid._format_uuid Scenario.rt0
         (VList (map (fun n => VInt (Z.of_nat n)) (seq 0 16))) = Ret out
       /\ Uuid._format_uuid Scenario.rt0 (VStr out) = Ret out.
Proof.
  split.
  - apply (proj1 (format_uuid_idempotent Scenario.rt0)). reflexivity.
  - apply (proj2 (format_uuid_idempotent Scenario.rt0)). reflexivity.
Defined.

(** ** Fallback stage of the classifier *)

Section FallbackStage.
Import PyStr Keywords Agent.
Variable rt : runtime.

Ltac run_monad :=
  unfold bind, ret, lift, try_except, emit, get_self, update_self in *;
  cbn [fst snd self events] in *.

Lemma gemini_client_result (w : world) :
  exists w',
    gemini_client rt w = (Ret (available_client rt (self w)), w')
    /\ events w' = events w
    /\ available_client rt (self w') = available_client rt (self w)
    /\ _use_llm_fallback (self w') = _use_llm_fallback (self w).
Proof.
  unfold gemini_client, available_client. run_monad.
  destruct (_gemini_client (self w)) as [g|] eqn:Hg.
  - exists w. rewrite Hg. repeat split.
  - eexists. split; [reflexivity|]. cbn.
    destruct (new_gemini_client rt); repeat split.
Qed.

Lemma classification_of_object (result : value) :
  (exists c, classification_of result = Ret c)
  \/ (match result with VDict _ => False | _ => True end
      /\ exists e, classification_of result = Raise e).
Proof.
  destruct result; try (right; split; [exact I|eexists; reflexivity]).
  left. eexists. reflexivity.
Qed.

(** The fallback stage returns; it returns the general classification
    whenever the reply is faulty. *)
Lemma classify_with_llm_returns (query : string) (w : world) :
  exists c w',
    _classify_intent_with_llm rt query w = (Ret c, w')
    /\ _use_llm_fallback (self w') = _use_llm_fallback (self w)
    /\ (faulty_reply rt (self w) query -> c = general_classification).
Proof.
  unfold _classify_intent_with_llm, faulty_reply.
  destruct (gemini_client_result w) as [w1 [Hc [Hev [Hav Hfb]]]].
  unfold bind at 1. rewrite Hc.
  destruct (available_client rt (self w)) as [g|].
  2:{ exists general_classification, w1. repeat split. exact Hfb. }
  run_monad.
  destruct (generate_content_async g (format_intent_prompt rt query))
    as [[[text|e]|]|e].
  - destruct (String.eqb text "") eqn:Htext; cbn [negb].
    + eexists _, _. split; [reflexivity|]. split; [exact Hfb|reflexivity].
    + destruct (json_loads rt (unfence text)) as [result|e].
      * destruct (classification_of_object result) as [[c Hr]|[Hobj [e Hr]]];
          rewrite Hr.
        { eexists _, _. split; [reflexivity|]. split; [exact Hfb|].
          intros [Hempty|Hbad].
          - subst text. discriminate.
          - destruct result; try contradiction; discriminate. }
        { destruct (String.eqb (exn_class e) "JSONDecodeError");
            (eexists _, _; split; [reflexivity|]; split; [exact Hfb|reflexivity]). }
      * destruct (String.eqb (exn_class e) "JSONDecodeError");
          (eexists _, _; split; [reflexivity|]; split; [exact Hfb|reflexivity]).
  - destruct (String.eqb (exn_class e) "JSONDecodeError");
      (eexists _, _; split; [reflexivity|]; split; [exact Hfb|reflexivity]).
  - eexists _, _. split; [reflexivity|]. split; [exact Hfb|reflexivity].
  - destruct (String.eqb (exn_class e) "JSONDecodeError");
      (eexists _, _; split; [reflexivity|]; split; [exact Hfb|reflexivity]).
Qed.

(** C2: the fallback stage is entered only when the keyword stage gave
    general and the fallback is enabled (otherwise the classification is
    the keyword result and nothing is done to the agent or the outside);
    the result of the fallback takes the place of the keyword result only
    when its intent is not general, so a keyword result that is not general
    is never overridden; the fallback stage never raises and, when the
    client is missing, the call raises or the reply does not parse into an
    object, yields the classification with intent general and None for
    store_name, phone_number and period, which leaves the (general)
    keyword result in place. *)
Theorem llm_fallback_only_for_general (query : string) (w : world) :
  let keyword := _classify_intent_with_keywords (lower query) in
  (eq_str (intent keyword) "general" && _use_llm_fallback (self w) = false ->
   classify rt query w = (Ret keyword, w))
  /\ (exists c w',
        classify rt query w = (Ret c, w')
        /\ (c = keyword
            \/ (eq_str (intent keyword) "general" = true
                /\ _use_llm_fallback (self w) = true
                /\ eq_str (intent c) "general" = false
                /\ fst (_classify_intent_with_llm rt query w) = Ret c)))
  /\ (exists c w', _classify_intent_with_llm rt query w = (Ret c, w'))
  /\ (faulty_reply rt (self w) query ->
      (exists w',
         _classify_intent_with_llm rt query w
         = (Ret (Classification (VStr "general") VNone VNone VNone), w'))
      /\ exists w', classify rt query w = (Ret keyword, w')).
Proof.
  intro keyword.
  destruct (classify_with_llm_returns query w) as [c [w' [Hllm [_ Hfaulty]]]].
  assert (Hcl : classify rt query w
                = if eq_str (intent keyword) "general"
                     && _use_llm_fallback (self w)
                  then (Ret (if negb (eq_str (intent c) "general")
                             then c else keyword), w')
                  else (Ret keyword, w)).
  { unfold classify. fold keyword. run_monad.
    destruct (eq_str (intent keyword) "general" && _use_llm_fallback (self w));
      [|reflexivity].
    rewrite Hllm. destruct (negb (eq_str (intent c) "general")); reflexivity. }
  split; [intro Hoff; rewrite Hcl, Hoff; reflexivity|].
  split.
  { rewrite Hcl.
    destruct (eq_str (intent keyword) "general" && _use_llm_fallback (self w))
      eqn:Hon.
    - apply andb_prop in Hon. destruct Hon as [Hgen Hen].
      destruct (eq_str (intent c) "general") eqn:Hc; cbn [negb].
      + exists keyword, w'. split; [reflexivity|left; reflexivity].
      + exists c, w'. split; [reflexivity|right].
        rewrite Hllm. repeat split; assumption.
    - exists keyword, w. split; [reflexivity|left; reflexivity]. }
  split; [exists c, w'; exact Hllm|].
  intro Hf. specialize (Hfaulty Hf). subst c. split.
  - exists w'. exact Hllm.
  - rewrite Hcl.
    destruct (eq_str (intent keyword) "general" && _use_llm_fallback (self w));
      eexists; reflexivity.
Qed.

End FallbackStage.

(** An agent without completion service and the query "halo apa kabar":
    the reply is faulty, the classification is the general one. *)
Lemma llm_fallback_only_for_general_witness :
  (exists w',
     Agent._classify_intent_with_llm Scenario.rt0 "halo apa kabar"
       (Scenario.start Scenario.one_store "")
     = (Ret (Keywords.Classification (VStr "general") VNone VNone VNone), w'))
  /\ exists w',
       Agent.classify Scenario.rt0 "halo apa kabar"
         (Scenario.start Scenario.one_store "")
       = (Ret (Keywords._classify_intent_with_keywords
                 (PyStr.lower "halo apa kabar")), w').
Proof.
  apply (proj2 (proj2 (proj2
           (llm_fallback_only_for_general Scenario.rt0 "halo apa kabar"
              (Scenario.start Scenario.one_store ""))))).
  exact I.
Defined.

(** With a completion service that answers "weekly_revenue", a query
    without keyword gets that intent, and a query with a keyword keeps the
    intent of the keyword stage without the service being asked. *)
Example llm_fallback_examples :
  let a := Agent.AnalyticsAgent Scenario.one_store
             (Some Scenario.helpful_client) true "" [] true in
  fst (Agent.classify Scenario.rt0 "halo apa kabar" (Agent.World a []))
  = Ret (Keywords.Classification (VStr "weekly_revenue") VNone VNone VNone)
  /\ Agent.events
       (snd (Agent.classify Scenario.rt0 "halo apa kabar" (Agent.World a [])))
     = [Agent.Asked "halo apa kabar"]
  /\ Agent.classify Scenario.rt0 "jam sibuk" (Agent.World a [])
     = (Ret (Keywords.Classification (VStr "peak_hours") VNone VNone VNone),
        Agent.World a []).
Proof. repeat split. Qed.

(** ** Handlers and the exceptions of the data store *)

Section HandlerFailures.
Import PyStr Agent Requests.
Variable rt : runtime.

Ltac run_monad :=
  unfold bind, ret, lift, try_except, emit, get_self, update_self in *;
  cbn [fst snd self events] in *.







(** Loading the store cache never raises: a failure of the store list is
    logged and the cache stays as it is. *)
Lemma load_store_cache_returns (w : world) :
  exists w', _load_store_cache rt w = (Ret tt, w').
Proof.
  unfold _load_store_cache. run_monad.
  destruct (negb (truthy (VDict (_store_cache (self w)))));
    [|eexists; reflexivity].
  destruct (call_tool list_stores_tool w) as [[stores|e] w1];
    [|eexists; reflexivity].
  destruct (truthy stores); [|eexists; reflexivity].
  destruct (py_iter stores) as [items|e]; [|eexists; reflexivity].
  destruct (for_each items (cache_store_normalized rt) w1) as [[[]|e] w2];
    eexists; reflexivity.
Qed.


Lemma points_summary_ask_returns (w : world) (k : agent -> M value) :
  (forall a w1, exists v, k a w1 = (Ret v, w1) /\ is_success v = true) ->
  exists v w',
    (_load_store_cache rt ;;; a <- get_self ;; k a) w = (Ret v, w')
    /\ is_success v = true.
Proof.
  intro Hk.
  destruct (load_store_cache_returns w) as [w1 H1].
  unfold bind at 1. rewrite H1. run_monad.
  destruct (Hk (self w1) w1) as [v [E Hv]].
  exists v, w1. split; assumption.
Qed.




(** *** Queries that raise inside the guarded block *)





Section Queries.
Variable own : call -> bool.











Hypothesis not_loading : own load_analytics_tools = false.



Hypothesis not_listing : own list_stores_tool = false.




End Queries.

Section Endings.
Variable own : call -> bool.







End Endings.






End HandlerFailures.



(** ** Handlers without a store *)

Section StoreContext.
Import PyStr Agent Requests.
Variable rt : runtime.

Ltac run_monad :=
  unfold bind, ret, lift, try_except, emit, get_self, update_self in *;
  cbn [fst snd self events] in *.

Lemma list_app_nil_r {A} (l : list A) : (l ++ [])%list = l.
Proof. apply app_nil_r. Qed.

Lemma cache_store_normalized_silent (store : value) (w : world) :
  events (snd (cache_store_normalized rt store w)) = events w.
Proof.
  unfold cache_store_normalized. run_monad.
  destruct (py_get store "name" (VStr "")) as [name|e]; [|reflexivity].
  destruct (py_lower name) as [name_lower|e]; [|reflexivity].
  destruct (py_get store "id" (VStr "")) as [raw_id|e]; [|reflexivity].
  destruct (_format_uuid rt raw_id) as [formatted|e]; [|reflexivity].
  destruct store; reflexivity.
Qed.

Lemma for_each_silent {A} (body : A -> M unit) :
  (forall x w, events (snd (body x w)) = events w) ->
  forall xs w, events (snd (for_each xs body w)) = events w.
Proof.
  intros Hbody. induction xs as [|x xs IH]; intro w; [reflexivity|].
  cbn [for_each]. unfold bind. specialize (Hbody x w).
  destruct (body x w) as [[[]|e] w1]; cbn [snd] in *.
  - rewrite IH. exact Hbody.
  - exact Hbody.
Qed.

(** Loading the store cache returns, and reads no business data. *)
Lemma load_store_cache_quiet (w : world) :
  exists w' evs,
    _load_store_cache rt w = (Ret tt, w')
    /\ events w' = (events w ++ evs)%list /\ quiet evs = true.
Proof.
  unfold _load_store_cache. run_monad.
  destruct (negb (truthy (VDict (_store_cache (self w))))).
  2:{ exists w, []. rewrite app_nil_r. repeat split. }
  unfold call_tool.
  destruct (_toolbox_client (self w) (events w) list_stores_tool)
    as [stores|e].
  2:{ eexists _, [_; _]. cbn [events]. rewrite <- app_assoc.
      repeat split. }
  destruct (truthy stores).
  2:{ eexists _, [_]. repeat split. }
  destruct (py_iter stores) as [items|e].
  2:{ eexists _, [_; _]. cbn [events]. rewrite <- app_assoc.
      repeat split. }
  pose proof (for_each_silent _ (cache_store_normalized_silent) items
                (World (self w) (events w ++ [Called list_stores_tool])))
    as Hsilent.
  destruct (for_each items (cache_store_normalized rt) _) as [[[]|e] w2];
    cbn [snd events] in Hsilent.
  - exists w2, [Called list_stores_tool]. repeat split. exact Hsilent.
  - eexists _, [_; _]. cbn [events]. rewrite Hsilent, <- app_assoc.
    repeat split.
Qed.

Lemma listing_appends (names : list string) (start : string) :
  fold_left (fun response name => response ++ nl ++ "• " ++ py_title rt name)
            names start
  = start ++ flat (map (store_line rt) names).
Proof.
  revert start. induction names as [|name names IH]; intro start;
    cbn [fold_left map flat fold_right].
  - symmetry. apply append_nil_r.
  - rewrite IH. unfold store_line at 2. fold (flat (map (store_line rt) names)).
    rewrite !append_assoc. reflexivity.
Qed.

Lemma store_lines_listing (cache : dict) :
  store_lines rt cache
  = flat (map (store_line rt) (listed_stores cache)) ++ others_line cache.
Proof.
  unfold store_lines, others_line, listed_stores.
  rewrite listing_appends. cbn [append].
  destruct (5 <? List.length cache)%nat; [reflexivity|].
  symmetry. apply append_nil_r.
Qed.

Lemma listed_stores_few (cache : dict) :
  (List.length (listed_stores cache) <= 5)%nat
  /\ incl (listed_stores cache) (dict_keys cache).
Proof.
  unfold listed_stores. split.
  - apply firstn_le_length.
  - intros x Hx. rewrite <- (firstn_skipn 5 (dict_keys cache)).
    apply in_or_app. left. exact Hx.
Qed.

(** The tool set is there after [_ensure_tools_loaded] when it was loaded
    before or loads now. *)
Lemma ensure_tools_loaded_quiet (w : world) :
  (_tools_loaded (self w) = true
   \/ exists v,
        _toolbox_client (self w) (events w) load_analytics_tools = Ret v) ->
  exists w1 evs,
    _ensure_tools_loaded w = (Ret tt, w1)
    /\ events w1 = (events w ++ evs)%list /\ quiet evs = true
    /\ _store_id (self w1) = _store_id (self w).
Proof.
  intro H. unfold _ensure_tools_loaded. run_monad.
  destruct (_tools_loaded (self w)) eqn:Hl; cbn [negb].
  - exists w, []. rewrite app_nil_r. repeat split.
  - destruct H as [H|[v Hv]]; [discriminate|].
    unfold call_tool. rewrite Hv.
    eexists _, [_]. repeat split.
Qed.

Lemma ask_for_store_context_text (r : request) (w : world) :
  match r with PointsSummary _ => False | _ => True end ->
  exists w' evs,
    _ask_for_store_context rt (report_type r) w
    = (Ret (success (store_request rt r (_store_cache (self w')))
                    (VDict [("requires_store", VBool true)])), w')
    /\ events w' = (events w ++ evs)%list /\ quiet evs = true.
Proof.
  intro Hr. unfold _ask_for_store_context.
  destruct (load_store_cache_quiet w) as [w1 [evs [H1 [Hev Hq]]]].
  unfold bind at 1. rewrite H1. run_monad.
  exists w1, evs. split; [|split; assumption].
  rewrite store_lines_listing. unfold store_request.
  destruct r; try contradiction; cbn [ask_opening ask_closing];
    rewrite !append_assoc; reflexivity.
Qed.

(** C4, as amended: a report handler that requires a store (daily, weekly,
    monthly report, period comparison, points summary), called without a
    store while the tool set is loaded or loads without an exception,
    returns a response with success true whose text asks for the name of a
    store and lists at most five store names, taken from the store cache;
    it sends no report query to the data store. *)
Theorem asks_for_store_context (r : request) (w : world) :
  requires_store r = true ->
  store_of r (self w) = "" ->
  (_tools_loaded (self w) = true
   \/ exists v,
        _toolbox_client (self w) (events w) load_analytics_tools = Ret v) ->
  exists w' evs,
    run rt r w
    = (Ret (success (store_request rt r (_store_cache (self w')))
                    (VDict [("requires_store", VBool true)])), w')
    /\ is_success (success (store_request rt r (_store_cache (self w')))
                           (VDict [("requires_store", VBool true)])) = true
    /\ (List.length (listed_stores (_store_cache (self w'))) <= 5)%nat
    /\ incl (listed_stores (_store_cache (self w')))
            (dict_keys (_store_cache (self w')))
    /\ events w' = (events w ++ evs)%list /\ quiet evs = true.
Proof.
  intros Hreq Hstore Htools.
  destruct (ensure_tools_loaded_quiet w Htools) as [w1 [evs1 [H1 [Hev1 [Hq1 Hid]]]]].
  assert (Hmain : exists w' evs,
            run rt r w
            = (Ret (success (store_request rt r (_store_cache (self w')))
                            (VDict [("requires_store", VBool true)])), w')
            /\ events w' = (events w ++ evs)%list /\ quiet evs = true).
  { destruct r; try discriminate;
      cbn [run store_of effective] in *;
      unfold get_daily_report, get_weekly_report, get_monthly_report,
        compare_periods, get_points_summary;
      unfold bind at 1; rewrite H1;
      unfold bind at 1, get_self at 1; cbn [self].
    1-4: (match goal with
          | |- context [effective ?s (self ?w0)] =>
              assert (E : effective s (self w0) = "")
                by (destruct s; cbn [effective] in *; congruence)
          end;
          rewrite E; cbn [String.eqb];
          match goal with
          | |- context [_ask_for_store_context rt ?name ?w0] =>
              match goal with
              | |- context [store_request rt ?r _] =>
                  destruct (ask_for_store_context_text r w0 I)
                    as [w' [evs [Ha [Hev Hq]]]];
                  change name with (report_type r)
              end
          end;
          exists w', (evs1 ++ evs)%list;
          split; [exact Ha|];
          split; [rewrite Hev, Hev1, app_assoc; reflexivity|];
          unfold quiet in *; rewrite forallb_app, Hq1, Hq; reflexivity).
    (* points summary *)
    assert (E : match store_id with
                | Some s => if negb (String.eqb s "") then s
                            else _store_id (self w1)
                | None => _store_id (self w1)
                end = "").
    { destruct store_id as [s|]; [destruct (String.eqb s "") eqn:Hs|];
        cbn [negb]; congruence. }
    rewrite E. cbn [String.eqb].
    destruct (load_store_cache_quiet w1) as [w2 [evs [H2 [Hev Hq]]]].
    unfold bind at 1. rewrite H2. run_monad.
    exists w2, (evs1 ++ evs)%list. split.
    - rewrite store_lines_listing. unfold store_request.
      cbn [ask_opening ask_closing].
      rewrite !append_assoc, !append_nil_r. reflexivity.
    - split; [rewrite Hev, Hev1, app_assoc; reflexivity|].
      unfold quiet in *. rewrite forallb_app, Hq1, Hq. reflexivity. }
  destruct Hmain as [w' [evs [Hrun [Hev Hq]]]].
  exists w', evs.
  destruct (listed_stores_few (_store_cache (self w'))) as [Hfew Hincl].
  repeat split; assumption.
Qed.

End StoreContext.

(** The weekly report without a store, on a new agent whose tool server
    knows one store. *)
Lemma asks_for_store_context_witness :
  exists w' evs,
    Requests.run Scenario.rt0 (Requests.WeeklyReport None)
      (Scenario.start Scenario.one_store "")
    = (Ret (Agent.success
              (Requests.store_request Scenario.rt0 (Requests.WeeklyReport None)
                 (Agent._store_cache (Agent.self w')))
              (VDict [("requires_store", VBool true)])), w')
    /\ Requests.is_success
         (Agent.success
            (Requests.store_request Scenario.rt0 (Requests.WeeklyReport None)
               (Agent._store_cache (Agent.self w')))
            (VDict [("requires_store", VBool true)])) = true
    /\ (List.length
          (Requests.listed_stores (Agent._store_cache (Agent.self w')))
        <= 5)%nat
    /\ incl (Requests.listed_stores (Agent._store_cache (Agent.self w')))
            (dict_keys (Agent._store_cache (Agent.self w')))
    /\ Agent.events w'
       = (Agent.events (Scenario.start Scenario.one_store "") ++ evs)%list
    /\ Requests.quiet evs = true.
Proof.
  apply (asks_for_store_context Scenario.rt0 (Requests.WeeklyReport None)
           (Scenario.start Scenario.one_store "")).
  - reflexivity.
  - reflexivity.
  - right. exists (VList []). reflexivity.
Defined.

(** C4, as stated: the weekly report without a store, on a new agent whose
    tool server cannot be reached, raises instead of returning the request
    for a store. *)
Lemma store_request_raises_while_loading_tools :
  Requests.requires_store (Requests.WeeklyReport None) = true
  /\ Requests.store_of (Requests.WeeklyReport None)
       (Scenario.new_agent Scenario.server_down "") = ""
  /\ Requests.run Scenario.rt0 (Requests.WeeklyReport None)
       (Scenario.start Scenario.server_down "")
     = (Raise Scenario.connection_error,
        Agent.World (Scenario.new_agent Scenario.server_down "")
                    [Agent.Called Agent.load_analytics_tools]).
Proof. repeat split. Qed.

(** ** Store cache *)

Section StoreCache.
Import Agent Scenario.

(** C10: on a tool server whose store comes with the undashed id
    "29edf3ae6ac342b3abf890494dcdc7c5", [_load_store_cache] caches the
    store with the dashed id, and [list_stores] caches it with the id as it
    came, which [_format_uuid] would change; after [list_stores] the cache
    is not empty, so [_load_store_cache] leaves that entry as it is. *)
Theorem list_stores_caches_raw_id :
  _store_cache (self (snd (_load_store_cache rt0 (start one_store ""))))
  = [("laundry sudirman",
      VDict [("id", VStr "29edf3ae-6ac3-42b3-abf8-90494dcdc7c5");
             ("name", VStr "Laundry Sudirman")])]
  /\ normalized_cache rt0
       (_store_cache (self (snd (_load_store_cache rt0 (start one_store "")))))
     = true
  /\ _store_cache (self (snd (list_stores rt0 (start one_store ""))))
     = [("laundry sudirman",
         VDict [("id", VStr "29edf3ae6ac342b3abf890494dcdc7c5");
                ("name", VStr "Laundry Sudirman")])]
  /\ Uuid._format_uuid rt0 (VStr "29edf3ae6ac342b3abf890494dcdc7c5")
     = Ret "29edf3ae-6ac3-42b3-abf8-90494dcdc7c5"
  /\ normalized_cache rt0
       (_store_cache (self (snd (list_stores rt0 (start one_store "")))))
     = false
  /\ normalized_cache rt0
       (_store_cache
          (self (snd (_load_store_cache rt0
                        (snd (list_stores rt0 (start one_store "")))))))
     = false.
Proof. repeat split. Qed.

(** What the raw id costs: with the cache filled by [list_stores], the
    name of the store with the dashed id is not found, and the first eight
    characters of the id are shown in its place. *)
Example store_name_after_list_stores :
  fst (_get_store_name_by_id rt0 "29edf3ae-6ac3-42b3-abf8-90494dcdc7c5"
         (snd (_load_store_cache rt0 (start one_store ""))))
  = Ret (VStr "Laundry Sudirman")
  /\ fst (_get_store_name_by_id rt0 "29edf3ae-6ac3-42b3-abf8-90494dcdc7c5"
            (snd (list_stores rt0 (start one_store ""))))
     = Ret (VStr "29edf3ae").
Proof. split; reflexivity. Qed.

(** ** The router on whole messages *)

(** An empty message is refused before anything is called. *)
Example process_query_empty :
  process_query rt0 "  " None (start one_store "")
  = (Ret (VDict [("success", VBool false);
                 ("response", VStr "Mohon berikan pertanyaan.");
                 ("data", VNone)]),
     start one_store "").
Proof. reflexivity. Qed.

(** "pendapatan minggu ini toko Sudirman" without a store id: the store is
    found by its name, and the weekly revenue of that store is queried. *)
Example process_query_weekly :
  events (snd (process_query rt0 "pendapatan minggu ini toko Sudirman" None
                 (start one_store "")))
  = [Called load_analytics_tools; Called list_stores_tool;
     Called (get_weekly_revenue "29edf3ae-6ac3-42b3-abf8-90494dcdc7c5")].
Proof. reflexivity. Qed.

End StoreCache.

(* ================================================================== *)
(** * Further properties *)
(* ================================================================== *)

(** ** Slots of the keyword stage *)

Section KeywordSlots.
Import PyStr Regex Keywords Notions.

Lemma rep_digit :
  forall b a p s p' s',
    derives (Rep Digit a b) p s p' s' ->
    exists ds,
      s = ds ++ s'
      /\ all_chars is_digit ds = true
      /\ (a <= String.length ds <= b)%nat.
Proof.
  induction b as [|b IH]; intros a p s p' s' D.
  - inversion D; subst. exists "". cbn. repeat split; lia.
  - inversion D; subst.
    + exists "". cbn. repeat split; lia.
    + match goal with H : derives Digit _ _ _ _ |- _ =>
        inversion H; subst; clear H end.
      match goal with H : derives (Rep _ _ _) _ _ _ _ |- _ =>
        apply IH in H; destruct H as [ds [-> [Hall Hlen]]] end.
      exists (String d ds). cbn.
      match goal with H : is_digit d = true |- _ => rewrite H end.
      repeat split; [exact Hall|lia|lia].
Qed.

Lemma phone_pattern_shape p s p' s' :
  derives phone_pattern p s p' s' ->
  exists m, s = m ++ s' /\ mobile_number m.
Proof.
  unfold phone_pattern. cbn [Str]. intro D.
  repeat match goal with
         | H : derives (Seq _ _) _ _ _ _ |- _ => inversion H; subst; clear H
         | H : derives (Lit _) _ _ _ _ |- _ => inversion H; subst; clear H
         | H : derives Eps _ _ _ _ |- _ => inversion H; subst; clear H
         end.
  match goal with H : derives (Rep _ _ _) _ _ _ _ |- _ =>
    apply rep_digit in H; destruct H as [ds [-> [Hall Hlen]]] end.
  exists ("08" ++ ds). split; [reflexivity|].
  exists ds. repeat split; try assumption; lia.
Qed.

Lemma phone_search_shape (q m : string) :
  search phone_pattern q = Some m ->
  (exists pre post, q = pre ++ m ++ post) /\ mobile_number m.
Proof.
  intro H. apply search_sound in H.
  destruct H as [pre [post [p' [Hq D]]]]. split.
  - exists pre, post. exact Hq.
  - apply phone_pattern_shape in D. destruct D as [m' [Hm Hs]].
    apply append_cancel_r in Hm. subst. exact Hs.
Qed.

(** X1: the keyword stage never fills the store name; its intent is one of
    the sixteen intents; the period is filled exactly when the intent is
    compare_periods, with "month" when the query has "bulan" or "month" in
    it and "week" otherwise; the phone number is filled exactly when the
    query has a match of 08 followed by 8 to 12 digits, with such a segment
    of the query, whatever the intent. *)
Theorem keyword_stage_slots (q : string) :
  let c := _classify_intent_with_keywords q in
  store_name c = VNone
  /\ (exists i, intent c = VStr i /\ In i keyword_intents)
  /\ (intent c = VStr "compare_periods" <-> period c <> VNone)
  /\ period c = (if _is_comparison_query q
                 then VStr (if py_in "bulan" q || py_in "month" q
                            then "month" else "week")
                 else VNone)
  /\ ((phone_number c = VNone
       /\ forall m, ~ matches_in phone_pattern q m)
      \/ exists m,
           phone_number c = VStr m
           /\ (exists pre post, q = pre ++ m ++ post)
           /\ mobile_number m).
Proof.
  cbv zeta.
  assert (Hphone :
    phone_number (_classify_intent_with_keywords q)
    = match search phone_pattern q with Some m => VStr m | None => VNone end).
  { unfold _classify_intent_with_keywords.
    destruct (search phone_pattern q);
      repeat match goal with
             | |- context [if ?b then _ else _] => destruct b
             end; reflexivity. }
  split; [|split; [|split; [|split]]].
  - unfold _classify_intent_with_keywords.
    destruct (search phone_pattern q);
      repeat match goal with
             | |- context [if ?b then _ else _] => destruct b
             end; reflexivity.
  - rewrite keyword_intent_first_true.
    eexists. split; [reflexivity|].
    unfold first_true, priority_order. cbn [find fst snd].
    repeat match goal with
           | |- context [if ?b then _ else _] => destruct b
           end; cbn; tauto.
  - unfold _classify_intent_with_keywords, _extract_period.
    destruct (search phone_pattern q);
      destruct (_is_comparison_query q);
      try (split; [intros _; discriminate|reflexivity]);
      repeat match goal with
             | |- context [if ?b then _ else _] => destruct b
             end;
      (split; [intro H; discriminate H|intro H; exfalso; apply H; reflexivity]).
  - unfold _classify_intent_with_keywords, _extract_period.
    destruct (search phone_pattern q);
      destruct (_is_comparison_query q); try reflexivity;
      repeat match goal with
             | |- context [if ?b then _ else _] => destruct b
             end; reflexivity.
  - rewrite Hphone.
    destruct (search phone_pattern q) as [m|] eqn:E.
    + right. exists m. split; [reflexivity|].
      exact (phone_search_shape q m E).
    + left. split; [reflexivity|].
      intros m Hm. apply search_complete in Hm. congruence.
Qed.

End KeywordSlots.

(** ** What the score of a store name says *)

Section ScoreMeaning.
Import PyStr StoreMatch Notions.

Lemma points_of_found (query : string) (ws : list string) :
  let found := filter (fun w => py_in w query) ws in
  let points := fold_right Z.add 0%Z (map (word_points query) ws) in
  (Z.of_nat (List.length found) <= points)%Z
  /\ (existsb (fun w => negb (str_mem w common_words)) found = true ->
      (3 <= points)%Z)
  /\ (existsb (fun w => negb (str_mem w common_words)) found = false ->
      points = Z.of_nat (List.length found)).
Proof.
  induction ws as [|w ws IH]; cbn [filter map fold_right].
  - cbn. repeat split; intros; try lia; try discriminate.
  - cbv zeta in IH. destruct IH as [IH1 [IH2 IH3]].
    unfold word_points at 1 3 5.
    destruct (py_in w query); cbn [existsb List.length];
      [destruct (str_mem w common_words); cbn [negb orb]|];
      (split; [lia|split; intro H;
         try discriminate H; try specialize (IH2 H);
         try specialize (IH3 H); lia]).
Qed.

(** X2: the score of a store name is never negative; it is 0 exactly when
    no word of the name (longer than one character) and not the whole name
    is found in the query; it reaches the threshold 2 exactly when the
    whole name is found in the query, or a found word is not a common word,
    or at least two words of the name are found. *)
Theorem store_match_score_threshold (store_name query : string) :
  let score := _calculate_store_match_score store_name query in
  let found := filter (fun w => py_in w query) (store_words store_name) in
  (0 <= score)%Z
  /\ (score = 0%Z <-> found = [] /\ py_in store_name query = false)
  /\ ((2 <= score)%Z <->
      py_in store_name query = true
      \/ existsb (fun w => negb (str_mem w common_words)) found = true
      \/ (2 <= List.length found)%nat).
Proof.
  cbv zeta. rewrite score_formula. unfold spec_score, store_words. cbv zeta.
  set (ws := filter (fun w => (1 <? String.length w)%nat) (split store_name)).
  destruct (points_of_found query ws) as [H1 [H2 H3]]. cbv zeta in *.
  set (found := filter (fun w => py_in w query) ws) in *.
  set (points := fold_right Z.add 0%Z (map (word_points query) ws)) in *.
  assert (Hlen : found = [] <-> List.length found = 0%nat)
    by (destruct found; cbn; split; intro; try discriminate; reflexivity).
  destruct (existsb (fun w => negb (str_mem w common_words)) found) eqn:Eu.
  - specialize (H2 eq_refl).
    split; [destruct (py_in store_name query); lia|]. split; split.
    + intro H. exfalso. destruct (py_in store_name query); lia.
    + intros [H _]. rewrite H in Eu. discriminate Eu.
    + intros _. right. left. reflexivity.
    + intros _. destruct (py_in store_name query); lia.
  - specialize (H3 eq_refl).
    destruct (py_in store_name query).
    + split; [lia|]. split; split.
      * intro H. exfalso. lia.
      * intros [_ H]. discriminate H.
      * intros _. left. reflexivity.
      * intros _. lia.
    + split; [lia|]. split; split.
      * intro H. split; [apply Hlen; lia|reflexivity].
      * intros [H _]. apply Hlen in H. lia.
      * intro H. right. right. lia.
      * intros [H|[H|H]]; [discriminate H|discriminate H|lia].
Qed.

End ScoreMeaning.

(** ** The store chosen for a query *)

Section StoreChoice.
Import PyStr Agent Notions.

Lemma best_store_steps (cache : dict) (query_lower : string) :
  Agent.best_store cache query_lower
  = fold_left (best_step query_lower) cache (None, 0%Z).
Proof. reflexivity. Qed.

Lemma best_store_first_maximum (cache : dict) (query_lower : string) :
  first_maximum query_lower cache (best_store cache query_lower).
Proof.
  rewrite best_store_steps.
  induction cache as [|x seen IH] using rev_ind.
  - cbn. repeat split; intros; try contradiction; try discriminate.
  - unfold first_maximum in IH. rewrite fold_left_app. cbn [fold_left].
    set (best := fold_left (best_step query_lower) seen (None, 0%Z)) in *.
    destruct IH as [Hmax [Hnone Hsome]].
    assert (Hpos : (0 <= snd best)%Z).
    { destruct (fst best) as [v|] eqn:E.
      - destruct (Hsome v eq_refl). lia.
      - rewrite (Hnone eq_refl). lia. }
    unfold first_maximum, best_step.
    destruct (Z.ltb_spec (snd best) (score_of query_lower x)) as [Hlt|Hge];
      cbn [fst snd]; repeat split.
    + intros e He. apply in_app_or in He. destruct He as [He|[<-|[]]].
      * specialize (Hmax e He). lia.
      * lia.
    + discriminate.
    + lia.
    + injection H as <-. exists seen, x, []. repeat split.
      intros e' He'. specialize (Hmax e' He'). lia.
    + intros e He. apply in_app_or in He. destruct He as [He|[<-|[]]].
      * exact (Hmax e He).
      * exact Hge.
    + exact Hnone.
    + destruct (Hsome v H) as [Hp _]. exact Hp.
    + destruct (Hsome v H) as [_ [pre [e [post [-> [Hv [Hs Hpre]]]]]]].
      exists pre, e, (post ++ [x])%list. rewrite <- app_assoc.
      repeat split; assumption.
Qed.

(** X3: the loop of _resolve_store_id keeps the first store of the cache
    whose score is the highest: the score it ends with is at least the
    score of every cached store and is never negative; it keeps no store
    exactly when no cached store scores above 0; the store it keeps is an
    entry of the cache with the final score, which is above 0, and every
    entry before it scores strictly less. *)
Theorem best_store_is_first_maximum (cache : dict) (query_lower : string) :
  let best := best_store cache query_lower in
  (forall e, In e cache -> (score_of query_lower e <= snd best)%Z)
  /\ (0 <= snd best)%Z
  /\ (fst best = None <->
      forall e, In e cache -> (score_of query_lower e <= 0)%Z)
  /\ (forall v, fst best = Some v ->
        (0 < snd best)%Z
        /\ exists pre e post,
             cache = (pre ++ e :: post)%list
             /\ snd e = v
             /\ score_of query_lower e = snd best
             /\ forall e', In e' pre ->
                  (score_of query_lower e' < snd best)%Z).
Proof.
  cbv zeta.
  destruct (best_store_first_maximum cache query_lower)
    as [Hmax [Hnone Hsome]].
  split; [exact Hmax|]. split; [|split; [split|exact Hsome]].
  - destruct (fst (best_store cache query_lower)) as [v|] eqn:E.
    + destruct (Hsome v eq_refl). lia.
    + rewrite (Hnone eq_refl). lia.
  - intros E e He. specialize (Hmax e He). rewrite (Hnone E) in Hmax.
    exact Hmax.
  - intro Hall.
    destruct (fst (best_store cache query_lower)) as [v|] eqn:E;
      [|reflexivity].
    destruct (Hsome v eq_refl) as [Hp [pre [e [post [Hc [_ [Hs _]]]]]]].
    assert (He : In e cache)
      by (rewrite Hc; apply in_or_app; right; left; reflexivity).
    specialize (Hall e He). lia.
Qed.

End StoreChoice.

Section StoreResolution.
Import PyStr Agent Notions Scenario.
Variable rt : runtime.

Local Ltac run_monad :=
  unfold bind, ret, lift, try_except, emit, get_self, update_self in *;
  cbn [fst snd self events] in *.

Lemma best_step_keeps (query_lower : string) (post : dict) :
  forall best,
    (forall e, In e post -> (score_of query_lower e <= snd best)%Z) ->
    fold_left (best_step query_lower) post best = best.
Proof.
  induction post as [|x post IH]; intros best Hle; [reflexivity|].
  cbn [fold_left]. unfold best_step at 2.
  destruct (Z.ltb_spec (snd best) (score_of query_lower x)) as [Hlt|_].
  - specialize (Hle x (or_introl eq_refl)). lia.
  - apply IH. intros e He. apply Hle. right. exact He.
Qed.

Lemma best_store_of_first_maximum
  (query_lower : string) (pre post : dict) (e : string * value) :
  (0 < score_of query_lower e)%Z ->
  (forall e', In e' pre ->
     (score_of query_lower e' < score_of query_lower e)%Z) ->
  (forall e', In e' post ->
     (score_of query_lower e' <= score_of query_lower e)%Z) ->
  best_store (pre ++ e :: post)%list query_lower
  = (Some (snd e), score_of query_lower e).
Proof.
  intros Hpos Hpre Hpost.
  rewrite best_store_steps, fold_left_app. cbn [fold_left].
  rewrite <- best_store_steps.
  destruct (best_store_first_maximum pre query_lower) as [_ [Hnone Hsome]].
  assert (Hlt : (snd (best_store pre query_lower)
                 < score_of query_lower e)%Z).
  { destruct (fst (best_store pre query_lower)) as [v|] eqn:E.
    - destruct (Hsome v eq_refl) as [_ [p [x [q [Hc [_ [Hs _]]]]]]].
      rewrite <- Hs. apply Hpre. rewrite Hc. apply in_or_app.
      right. left. reflexivity.
    - rewrite (Hnone eq_refl). exact Hpos. }
  unfold best_step at 2. apply Z.ltb_lt in Hlt. rewrite Hlt.
  apply best_step_keeps. exact Hpost.
Qed.

(** X4: with no explicit store id, when every store of the cache (as it is
    after _load_store_cache) scores below 2 for the lowercased query,
    _resolve_store_id gives the agent's default store id in dashed form,
    or the empty string when the agent has none; it does nothing beyond
    loading the store cache. *)
Theorem resolve_store_id_below_threshold (query : string) (w w1 : world) :
  _load_store_cache rt w = (Ret tt, w1) ->
  (forall e, In e (_store_cache (self w1)) ->
             (score_of (lower query) e < 2)%Z) ->
  _resolve_store_id rt query "" w = (default_store_id rt (self w1), w1).
Proof.
  intros Hload Hlow.
  unfold _resolve_store_id. cbn [String.eqb negb].
  unfold bind at 1. rewrite Hload. run_monad.
  destruct (best_store_first_maximum (_store_cache (self w1)) (lower query))
    as [_ [_ Hsome]].
  unfold default_store_id, _format_uuid.
  destruct (fst (best_store (_store_cache (self w1)) (lower query)))
    as [v|] eqn:E.
  - destruct (Hsome v eq_refl) as [_ [p [x [q [Hc [_ [Hs _]]]]]]].
    assert (Hin : In x (_store_cache (self w1)))
      by (rewrite Hc; apply in_or_app; right; left; reflexivity).
    specialize (Hlow x Hin). rewrite Hs in Hlow.
    apply Z.leb_gt in Hlow. rewrite Hlow, andb_false_r.
    destruct (negb (_store_id (self w1) =? "")); reflexivity.
  - destruct (negb (_store_id (self w1) =? "")); reflexivity.
Qed.

(** X5: with no explicit store id, when a store of the cache (as it is
    after _load_store_cache) scores at least 2 for the lowercased query,
    strictly more than every store cached before it and at least as much
    as every store cached after it, _resolve_store_id decides by that
    store, whatever else is cached: when its cached record is truthy (a
    dict that is not empty), the result is the id of that store in dashed
    form (the empty string when the record has no id or a falsy one),
    whatever the agent's default store is; when its cached record is
    falsy, the result is the agent's default store id in dashed form, or
    the empty string when the agent has none. *)
Theorem resolve_store_id_first_best
  (query : string) (w w1 : world) (pre post : dict) (e : string * value) :
  _load_store_cache rt w = (Ret tt, w1) ->
  _store_cache (self w1) = (pre ++ e :: post)%list ->
  (2 <= score_of (lower query) e)%Z ->
  (forall e', In e' pre ->
     (score_of (lower query) e' < score_of (lower query) e)%Z) ->
  (forall e', In e' post ->
     (score_of (lower query) e' <= score_of (lower query) e)%Z) ->
  _resolve_store_id rt query "" w
  = (if truthy (snd e) then matched_store_id rt (snd e)
     else default_store_id rt (self w1), w1).
Proof.
  intros Hload Hcache Hscore Hpre Hpost.
  unfold _resolve_store_id. cbn [String.eqb negb].
  unfold bind at 1. rewrite Hload. run_monad.
  rewrite Hcache.
  rewrite (best_store_of_first_maximum (lower query) pre post e)
    by (try assumption; lia).
  cbn [fst snd].
  apply Z.leb_le in Hscore. rewrite Hscore, andb_true_r.
  unfold matched_store_id, default_store_id, _format_uuid.
  destruct (truthy (snd e)).
  - destruct (py_get (snd e) "id" (VStr "")) as [store_id|x]; [|reflexivity].
    destruct (truthy store_id); reflexivity.
  - destruct (negb (_store_id (self w1) =? "")); reflexivity.
Qed.

End StoreResolution.

Lemma resolve_store_id_below_threshold_witness :
  let w := Scenario.start Scenario.one_store "" in
  let w1 := snd (Agent._load_store_cache Scenario.rt0 w) in
  Agent._resolve_store_id Scenario.rt0 "omzet toko laundry" "" w
  = (Notions.default_store_id Scenario.rt0 (Agent.self w1), w1)
  /\ Notions.default_store_id Scenario.rt0 (Agent.self w1) = Ret "".
Proof.
  cbv zeta. split; [|vm_compute; reflexivity].
  apply (resolve_store_id_below_threshold Scenario.rt0 "omzet toko laundry"
           (Scenario.start Scenario.one_store "")).
  - vm_compute. reflexivity.
  - intros e He.
    match type of He with
    | In _ ?c =>
        let c' := eval vm_compute in c in
        replace c with c' in He by (vm_compute; reflexivity)
    end.
    destruct He as [<-|[]]. vm_compute. reflexivity.
Defined.

(** Three stores, the query names Sudirman: the store cached first among
    the two that score 3 is taken, the one before it scores 0. *)
Lemma resolve_store_id_first_best_witness :
  let w := Scenario.start Scenario.three_stores "" in
  let w1 := snd (Agent._load_store_cache Scenario.rt0 w) in
  let store :=
    VDict [("id", VStr "29edf3ae-6ac3-42b3-abf8-90494dcdc7c5");
           ("name", VStr "Laundry Sudirman")] in
  Agent._resolve_store_id Scenario.rt0 "omzet Sudirman minggu ini" "" w
  = (if truthy (snd ("laundry sudirman", store))
     then Notions.matched_store_id Scenario.rt0
            (snd ("laundry sudirman", store))
     else Notions.default_store_id Scenario.rt0 (Agent.self w1), w1)
  /\ Notions.matched_store_id Scenario.rt0 store
     = Ret "29edf3ae-6ac3-42b3-abf8-90494dcdc7c5"
  /\ Notions.score_of "omzet sudirman minggu ini"
       ("laundry kemang", Scenario.kemang) = 0%Z
  /\ Notions.score_of "omzet sudirman minggu ini"
       ("laundry sudirman", store) = 3%Z
  /\ Notions.score_of "omzet sudirman minggu ini"
       ("sudirman express", Scenario.sudirman_express) = 3%Z.
Proof.
  cbv zeta. split; [|repeat split; vm_compute; reflexivity].
  apply (resolve_store_id_first_best Scenario.rt0 "omzet Sudirman minggu ini"
           (Scenario.start Scenario.three_stores "") _
           [("laundry kemang", Scenario.kemang)]
           [("sudirman express", Scenario.sudirman_express)]).
  - vm_compute. reflexivity.
  - vm_compute. reflexivity.
  - vm_compute. discriminate.
  - intros e' [<-|[]]. vm_compute. reflexivity.
  - intros e' [<-|[]]. vm_compute. discriminate.
Defined.

(** ** UUID text *)

Section UuidText.
Import PyStr Uuid.
Variable rt : runtime.

Lemma dashed_32 (s : string) :
  String.length s = 32%nat ->
  String.length (dashed s) = 36%nat
  /\ count_char "-" (dashed s) = (4 + count_char "-" s)%nat.
Proof.
  intro Hlen.
  do 32 (destruct s as [|? s]; [discriminate Hlen|]).
  destruct s; [|discriminate Hlen].
  clear Hlen. split; [vm_compute; reflexivity|].
  unfold dashed, slice, take. cbn -[Ascii.eqb].
  change (Ascii.eqb "-" "-") with true. cbv iota.
  repeat match goal with
         | |- context [if Ascii.eqb "-" ?c then 1%nat else 0%nat] =>
             generalize (if Ascii.eqb "-" c then 1%nat else 0%nat); intro
         end.
  lia.
Qed.

(** X6: on a str, _format_uuid never raises and its result is a fixed
    point: formatting the result again gives the same text, for every
    string and not only for UUIDs.  A string of 32 characters gets four
    dashes (36 characters); every other string is returned as it is. *)
Theorem format_uuid_text_fixed_point (s : string) :
  exists s',
    _format_uuid rt (VStr s) = Ret s'
    /\ _format_uuid rt (VStr s') = Ret s'
    /\ (String.length s = 32%nat ->
        s' = dashed s
        /\ String.length s' = 36%nat
        /\ count_char "-" s' = (4 + count_char "-" s)%nat)
    /\ (String.length s <> 32%nat -> s' = s).
Proof.
  destruct (Nat.eq_dec (String.length s) 32) as [H32|H32].
  - exists (dashed s). destruct (dashed_32 s H32) as [Hlen Hcount].
    split; [apply format_uuid_hex32; exact H32|]. split.
    + unfold _format_uuid.
      assert (Hne : String.eqb (dashed s) "" = false)
        by (destruct (dashed s); [discriminate Hlen|reflexivity]).
      cbn [truthy]. rewrite Hne, Hlen. cbn [negb Nat.eqb andb].
      destruct (count_char "-" (dashed s) =? 4)%nat; reflexivity.
    + split; [intros _; repeat split; assumption|].
      intro H. contradiction.
  - exists s.
    assert (Hs : _format_uuid rt (VStr s) = Ret s).
    { unfold _format_uuid. cbn [truthy].
      destruct (String.eqb_spec s "") as [->|Hne]; [reflexivity|].
      cbn [negb].
      apply Nat.eqb_neq in H32. rewrite H32.
      destruct ((String.length s =? 36)%nat && (count_char "-" s =? 4)%nat);
        reflexivity. }
    split; [exact Hs|]. split; [exact Hs|]. split.
    + intro H. contradiction.
    + reflexivity.
Qed.

End UuidText.

(** ** The store cache as _load_store_cache fills it *)

Section StoreCacheLoading.
Import PyStr Agent Notions.
Variable rt : runtime.

Local Ltac run_monad :=
  unfold bind, ret, lift, try_except, emit, get_self, update_self in *;
  cbn [fst snd self events] in *.

Lemma dict_set_in (d : dict) (k : string) (v : value) (e : string * value) :
  In e (dict_set d k v) -> In e d \/ e = (k, v).
Proof.
  induction d as [|[k' v'] d IH]; cbn [dict_set].
  - intros [<-|[]]. right. reflexivity.
  - destruct (String.eqb_spec k' k) as [->|Hne].
    + intros [<-|Hin]; [right; reflexivity|left; right; exact Hin].
    + intros [<-|Hin]; [left; left; reflexivity|].
      destruct (IH Hin) as [H|H]; [left; right; exact H|right; exact H].
Qed.

Lemma dict_get_set_same (d : dict) (k : string) (v : value) :
  dict_get (dict_set d k v) k = Some v.
Proof.
  induction d as [|[k' v'] d IH]; cbn [dict_set dict_get].
  - rewrite String.eqb_refl. reflexivity.
  - destruct (String.eqb k' k) eqn:E; cbn [dict_get]; rewrite E;
      [reflexivity|exact IH].
Qed.

Lemma dict_get_set_other (d : dict) (k k' : string) (v : value) :
  k <> k' -> dict_get (dict_set d k v) k' = dict_get d k'.
Proof.
  intro Hne. induction d as [|[k0 v0] d IH]; cbn [dict_set dict_get].
  - apply String.eqb_neq in Hne. rewrite Hne. reflexivity.
  - destruct (String.eqb_spec k0 k) as [->|Hk]; cbn [dict_get].
    + apply String.eqb_neq in Hne. rewrite Hne. reflexivity.
    + rewrite IH. reflexivity.
Qed.

Lemma cache_store_normalized_keeps (store : value) (w : world) :
  (forall e, In e (_store_cache (self w)) -> filed_normalized rt e) ->
  forall e,
    In e (_store_cache (self (snd (cache_store_normalized rt store w)))) ->
    filed_normalized rt e.
Proof.
  intros Hinv. unfold cache_store_normalized. run_monad.
  destruct (py_get store "name" (VStr "")) as [name|x] eqn:Ename;
    [|exact Hinv].
  destruct (py_lower name) as [name_lower|x] eqn:Elower; [|exact Hinv].
  destruct (py_get store "id" (VStr "")) as [raw_id|x] eqn:Eid; [|exact Hinv].
  destruct (_format_uuid rt raw_id) as [formatted|x] eqn:Ef; [|exact Hinv].
  destruct store as [| | | | | | | | | |d|]; try exact Hinv.
  cbn [snd self _store_cache set_store_cache].
  intros e He. apply dict_set_in in He. destruct He as [He | ->].
  - exact (Hinv e He).
  - destruct name as [| | | |name| | | | | | |]; try discriminate Elower.
    injection Elower as <-.
    exists (dict_set d "id" (VStr formatted)), name, formatted.
    cbn [fst snd]. split; [reflexivity|]. split.
    + cbn [py_get] in *.
      rewrite dict_get_set_other by discriminate. exact Ename.
    + split; [reflexivity|]. split; [apply dict_get_set_same|].
      exists raw_id. exact Ef.
Qed.

Lemma for_each_cache_store_keeps (items : list value) :
  forall w,
    (forall e, In e (_store_cache (self w)) -> filed_normalized rt e) ->
    forall e,
      In e (_store_cache
              (self (snd (for_each items (cache_store_normalized rt) w)))) ->
      filed_normalized rt e.
Proof.
  induction items as [|store items IH]; intros w Hinv; cbn [for_each].
  - exact Hinv.
  - pose proof (cache_store_normalized_keeps store w Hinv) as Hstep.
    unfold bind.
    destruct (cache_store_normalized rt store w) as [[[]|x] w1];
      cbn [snd] in Hstep.
    + apply IH. exact Hstep.
    + exact Hstep.
Qed.

Lemma set_store_cache_same (a : agent) :
  set_store_cache (_store_cache a) a = a.
Proof. destruct a; reflexivity. Qed.

Lemma only_cache_trans (a b c : agent) :
  b = set_store_cache (_store_cache b) a ->
  c = set_store_cache (_store_cache c) b ->
  c = set_store_cache (_store_cache c) a.
Proof.
  destruct a, b, c. unfold set_store_cache. cbn.
  intros H1 H2. injection H1 as -> -> -> -> ->. injection H2 as -> -> -> -> ->.
  reflexivity.
Qed.

Lemma cache_store_normalized_only_cache (store : value) (w : world) :
  let w' := snd (cache_store_normalized rt store w) in
  self w' = set_store_cache (_store_cache (self w')) (self w).
Proof.
  cbv zeta. unfold cache_store_normalized. run_monad.
  destruct (py_get store "name" (VStr "")) as [name|x];
    [|symmetry; apply set_store_cache_same].
  destruct (py_lower name) as [name_lower|x];
    [|symmetry; apply set_store_cache_same].
  destruct (py_get store "id" (VStr "")) as [raw_id|x];
    [|symmetry; apply set_store_cache_same].
  destruct (_format_uuid rt raw_id) as [formatted|x];
    [|symmetry; apply set_store_cache_same].
  destruct store; cbn [snd self];
    try (symmetry; apply set_store_cache_same).
  destruct (self w); reflexivity.
Qed.

Lemma for_each_cache_store_only_cache (items : list value) :
  forall w,
    let w' := snd (for_each items (cache_store_normalized rt) w) in
    self w' = set_store_cache (_store_cache (self w')) (self w).
Proof.
  induction items as [|store items IH]; intro w; cbv zeta; cbn [for_each].
  - symmetry. apply set_store_cache_same.
  - pose proof (cache_store_normalized_only_cache store w) as Hstep.
    cbv zeta in Hstep. unfold bind.
    destruct (cache_store_normalized rt store w) as [[[]|x] w1];
      cbn [snd] in *; [|exact Hstep].
    exact (only_cache_trans _ _ _ Hstep (IH w1)).
Qed.

(** X7: when the store cache is not empty _load_store_cache does nothing
    (no call, agent unchanged).  From an empty cache it returns without
    raising, changes nothing of the agent but the cache, and every store
    it has cached is a dict filed under the lowercase of its own name
    whose id is a str that _format_uuid returned. *)
Theorem load_store_cache_normalizes (w : world) :
  (_store_cache (self w) <> [] /\ _load_store_cache rt w = (Ret tt, w))
  \/ (_store_cache (self w) = []
      /\ exists w',
           _load_store_cache rt w = (Ret tt, w')
           /\ self w' = set_store_cache (_store_cache (self w')) (self w)
           /\ forall e, In e (_store_cache (self w')) ->
                        filed_normalized rt e).
Proof.
  destruct (_store_cache (self w)) as [|e0 cache] eqn:Ecache.
  - right. split; [reflexivity|].
    destruct (load_store_cache_returns rt w) as [w' Hload].
    exists w'. split; [exact Hload|].
    assert (Hkeeps :
      forall e, In e (_store_cache (self w)) -> filed_normalized rt e)
      by (rewrite Ecache; intros e []).
    assert (Hsame :
      self w = set_store_cache (_store_cache (self w)) (self w))
      by (symmetry; apply set_store_cache_same).
    revert Hload. unfold _load_store_cache. run_monad.
    rewrite Ecache. cbn [truthy negb].
    unfold call_tool.
    destruct (_toolbox_client (self w) (events w) list_stores_tool)
      as [stores|x];
      [|intro H; injection H as <-; cbn [self]; split; assumption].
    destruct (truthy stores);
      [|intro H; injection H as <-; cbn [self]; split; assumption].
    destruct (py_iter stores) as [items|x];
      [|intro H; injection H as <-; cbn [self]; split; assumption].
    set (w0 := World (self w) (events w ++ [Called list_stores_tool])%list).
    pose proof (for_each_cache_store_keeps items w0 Hkeeps) as Hall.
    pose proof (for_each_cache_store_only_cache items w0) as Hself.
    cbv zeta in Hself.
    destruct (for_each items (cache_store_normalized rt) w0) as [[[]|x] w2];
      cbn [snd] in *; intro H; injection H as <-; cbn [self];
      (split; [exact Hself|exact Hall]).
  - left. split; [discriminate|].
    unfold _load_store_cache. run_monad. rewrite Ecache. reflexivity.
Qed.

End StoreCacheLoading.

(** ** Looking a store up by name *)

Section StoreByName.
Import PyStr Agent Notions.
Variable rt : runtime.

Local Ltac run_monad :=
  unfold bind, ret, lift, try_except, emit, get_self, update_self in *;
  cbn [fst snd self events] in *.

Lemma py_in_refl (s : string) : py_in s s = true.
Proof.
  pose proof (py_in_segment s "" "") as H. cbn [append] in H.
  rewrite append_nil_r in H. exact H.
Qed.

Lemma dict_get_first (d : dict) (k : string) :
  match dict_get d k with
  | Some v =>
      exists pre post,
        d = (pre ++ (k, v) :: post)%list
        /\ forall e, In e pre -> fst e <> k
  | None => forall e, In e d -> fst e <> k
  end.
Proof.
  induction d as [|[k' v'] d IH]; cbn [dict_get].
  - intros e [].
  - destruct (String.eqb_spec k' k) as [->|Hne].
    + exists [], d. split; [reflexivity|]. intros e [].
    + destruct (dict_get d k) as [v|].
      * destruct IH as [pre [post [-> Hpre]]].
        exists ((k', v') :: pre)%list, post. split; [reflexivity|].
        intros e [<-|He]; [exact Hne|exact (Hpre e He)].
      * intros e [<-|He]; [exact Hne|exact (IH e He)].
Qed.

Lemma find_first {A} (f : A -> bool) (l : list A) :
  match find f l with
  | Some x =>
      exists pre post,
        l = (pre ++ x :: post)%list
        /\ f x = true
        /\ forall y, In y pre -> f y = false
  | None => forall y, In y l -> f y = false
  end.
Proof.
  induction l as [|a l IH]; cbn [find].
  - intros y [].
  - destruct (f a) eqn:Ea.
    + exists [], l. repeat split; [exact Ea|]. intros y [].
    + destruct (find f l) as [x|].
      * destruct IH as [pre [post [-> [Hx Hpre]]]].
        exists (a :: pre)%list, post. repeat split; [exact Hx|].
        intros y [<-|Hy]; [exact Ea|exact (Hpre y Hy)].
      * intros y [<-|Hy]; [exact Ea|exact (IH y Hy)].
Qed.

(** X8: get_store_by_name answers from the store cache as it is after
    _load_store_cache.  When no cached name contains the lowercased name it
    returns the answer 'tidak ditemukan' with success false and does
    nothing more.  Otherwise it answers with the card of one cached store:
    the store cached under exactly the lowercased name when there is one,
    even if an earlier cached name contains it; if there is none, the
    first store of the cache whose name contains the lowercased name. *)
Theorem get_store_by_name_lookup (name : string) (w : world) :
  let w1 := snd (_load_store_cache rt w) in
  let cache := _store_cache (self w1) in
  ((forall e, In e cache -> py_in (lower name) (fst e) = false)
   /\ get_store_by_name rt name w = (Ret (store_not_found name), w1))
  \/ exists pre e post,
       cache = (pre ++ e :: post)%list
       /\ py_in (lower name) (fst e) = true
       /\ get_store_by_name rt name w = store_card rt (snd e) w1
       /\ ((fst e = lower name
            /\ forall e', In e' pre -> fst e' <> lower name)
           \/ ((forall e', In e' cache -> fst e' <> lower name)
               /\ forall e', In e' pre ->
                    py_in (lower name) (fst e') = false)).
Proof.
  cbv zeta. destruct (load_store_cache_returns rt w) as [w1 Hload].
  rewrite Hload. cbn [snd].
  unfold get_store_by_name, bind. rewrite Hload. run_monad.
  pose proof (dict_get_first (_store_cache (self w1)) (lower name)) as Hget.
  destruct (dict_get (_store_cache (self w1)) (lower name)) as [store|].
  - right. destruct Hget as [pre [post [Hc Hpre]]].
    exists pre, (lower name, store), post. cbn [fst snd].
    split; [exact Hc|]. split; [apply py_in_refl|].
    split; [reflexivity|]. left. split; [reflexivity|exact Hpre].
  - pose proof (find_first (fun entry => py_in (lower name) (fst entry))
                  (_store_cache (self w1))) as Hfind.
    cbv beta in Hfind.
    destruct (find (fun entry => py_in (lower name) (fst entry))
                (_store_cache (self w1))) as [e|].
    + right. destruct Hfind as [pre [post [Hc [He Hpre]]]].
      exists pre, e, post. split; [exact Hc|]. split; [exact He|].
      split; [reflexivity|]. right. split; [exact Hget|exact Hpre].
    + left. split; [exact Hfind|reflexivity].
Qed.

End StoreByName.

(** ** Replies inside a code fence *)

Section Fence.
Import PyStr Agent.

Lemma list_of_append (a b : string) :
  list_ascii_of_string (a ++ b)
  = (list_ascii_of_string a ++ list_ascii_of_string b)%list.
Proof.
  induction a as [|c a IH]; cbn; [reflexivity|rewrite IH; reflexivity].
Qed.

Lemma string_of_app (l1 l2 : list ascii) :
  string_of_list_ascii (l1 ++ l2)%list
  = string_of_list_ascii l1 ++ string_of_list_ascii l2.
Proof.
  induction l1 as [|c l1 IH]; cbn; [reflexivity|rewrite IH; reflexivity].
Qed.

Lemma rev_string_append (a b : string) :
  rev_string (a ++ b) = rev_string b ++ rev_string a.
Proof.
  unfold rev_string. rewrite list_of_append, rev_app_distr, string_of_app.
  reflexivity.
Qed.

Lemma rev_string_involutive (s : string) : rev_string (rev_string s) = s.
Proof.
  unfold rev_string.
  rewrite list_ascii_of_string_of_list_ascii, rev_involutive.
  apply string_of_list_ascii_of_string.
Qed.

Lemma length_rev_string (s : string) :
  String.length (rev_string s) = String.length s.
Proof.
  induction s as [|c s IH]; [reflexivity|].
  change (String c s) with (String c "" ++ s).
  rewrite rev_string_append, !length_append, IH. cbn. lia.
Qed.

Lemma lstrip_shorter (s : string) :
  (String.length (lstrip s) <= String.length s)%nat.
Proof.
  induction s as [|c s IH]; cbn [lstrip]; [lia|].
  destruct (isspace c); cbn [String.length]; lia.
Qed.

Lemma lstrip_same_length (s : string) :
  String.length (lstrip s) = String.length s -> lstrip s = s.
Proof.
  destruct s as [|c s]; [reflexivity|]. cbn [lstrip].
  destruct (isspace c); [|reflexivity].
  pose proof (lstrip_shorter s). cbn [String.length]. lia.
Qed.

Lemma strip_fixed (b : string) :
  strip b = b -> lstrip b = b /\ lstrip (rev_string b) = rev_string b.
Proof.
  intro H. apply (f_equal String.length) in H. unfold strip in H.
  rewrite length_rev_string in H.
  pose proof (lstrip_shorter (rev_string (lstrip b))) as H1.
  pose proof (lstrip_shorter b) as H2.
  rewrite length_rev_string in H1.
  assert (Hb : lstrip b = b) by (apply lstrip_same_length; lia).
  split; [exact Hb|].
  rewrite Hb in H. apply lstrip_same_length.
  rewrite length_rev_string. exact H.
Qed.

Lemma strip_unchanged (s : string) :
  lstrip s = s -> lstrip (rev_string s) = rev_string s -> strip s = s.
Proof.
  intros H1 H2. unfold strip. rewrite H1, H2. apply rev_string_involutive.
Qed.

Lemma lstrip_append (b rest : string) :
  b <> "" -> lstrip b = b -> lstrip (b ++ rest) = b ++ rest.
Proof.
  destruct b as [|c b]; [intro H; contradiction|]. intros _.
  cbn [lstrip append]. destruct (isspace c); [|reflexivity].
  intro H. pose proof (lstrip_shorter b) as Hle.
  apply (f_equal String.length) in H. cbn [String.length] in H. lia.
Qed.

Lemma strip_append_nl (b : string) : strip b = b -> strip (b ++ nl) = b.
Proof.
  intro H. destruct (strip_fixed b H) as [Hl Hr].
  destruct b as [|c b]; [reflexivity|].
  unfold strip. rewrite lstrip_append by (try discriminate; exact Hl).
  rewrite rev_string_append.
  change (rev_string nl) with nl. unfold nl at 1. cbn [append lstrip].
  change (isspace (ascii_of_nat 10)) with true. cbv iota.
  rewrite Hr. apply rev_string_involutive.
Qed.

Lemma after_first_line_tag (tag rest : string) :
  py_in nl tag = false -> after_first_line (tag ++ nl ++ rest) = rest.
Proof.
  induction tag as [|c tag IH]; intro H.
  - cbn. reflexivity.
  - cbn [append after_first_line].
    unfold nl in H. cbn [py_in String.prefix] in H.
    destruct (Ascii.eqb_spec c (ascii_of_nat 10)) as [->|Hne].
    + cbn in H. destruct tag; discriminate H.
    + apply IH. unfold nl.
      destruct (ascii_dec (ascii_of_nat 10) c) as [He|_]; 
        [symmetry in He; contradiction|exact H].
Qed.

(** X9: the reply parser recovers the text inside a code fence.  For a
    fence opened by three backquotes and any tag without a line feed (json
    or none), a body that has no white space at its ends and does not
    itself start with json, and a closing fence on its own line, what is
    handed to the JSON decoder is exactly the body. *)
Theorem unfence_recovers_body (tag body : string) :
  py_in nl tag = false ->
  strip body = body ->
  startswith "json" body = false ->
  unfence ("```" ++ tag ++ nl ++ body ++ nl ++ "```") = body.
Proof.
  - intros Htag Hbody Hjson.
    set (text := "```" ++ tag ++ nl ++ body ++ nl ++ "```").
    assert (Hstrip : strip text = text).
    { apply strip_unchanged; [reflexivity|].
      replace text with (("```" ++ tag ++ nl ++ body ++ nl) ++ "```")
        by (unfold text; rewrite !append_assoc; reflexivity).
      rewrite rev_string_append. reflexivity. }
    unfold unfence. rewrite Hstrip.
    assert (Hstart : startswith "```" text = true)
      by (apply prefix_append).
    rewrite Hstart.
    assert (Hnl : py_in nl text = true).
    { unfold text. rewrite <- (append_assoc "```" tag).
      apply py_in_segment. }
    rewrite Hnl.
    assert (Hafter : after_first_line text = (body ++ nl) ++ "```").
    { unfold text. cbn [append after_first_line].
      change (Ascii.eqb "`" (ascii_of_nat 10)) with false. cbv iota.
      rewrite after_first_line_tag by exact Htag.
      rewrite append_assoc. reflexivity. }
    rewrite Hafter.
    assert (Hend : endswith "```" ((body ++ nl) ++ "```") = true).
    { unfold endswith. rewrite rev_string_append. apply prefix_append. }
    rewrite Hend.
    replace (String.length ((body ++ nl) ++ "```") - 3)%nat
      with (String.length (body ++ nl))
      by (rewrite (length_append (body ++ nl)); cbn; lia).
    rewrite take_append, strip_append_nl by exact Hbody.
    rewrite Hjson. reflexivity.
Qed.

End Fence.

Lemma unfence_recovers_body_witness :
  Agent.unfence ("```" ++ "json" ++ Agent.nl ++ Scenario.weekly_reply
                 ++ Agent.nl ++ "```")
  = Scenario.weekly_reply.
Proof.
  apply (unfence_recovers_body "json" Scenario.weekly_reply);
    vm_compute; reflexivity.
Defined.

(** ** The windows of the periods *)

Section PeriodWindows.
Import AnalyticsTools Notions.

Lemma period_name_cases (now : Z) (name : string) :
  (In name period_names
   \/ get_period_dates now name = ((now - 7 * day)%Z, now)).
Proof.
  unfold get_period_dates, period_names.
  repeat match goal with
         | |- context [String.eqb name ?s] =>
             destruct (String.eqb_spec name s) as [->|?];
             [left; cbn; tauto|]
         end.
  right. reflexivity.
Qed.

(** X11: the windows of get_period_dates.  Every window starts no later
    than it ends.  A name that is none of today, yesterday, this_week,
    last_week, this_month, last_month and this_year gets the window of
    this_week, the last 7 days up to now.  last_week ends at the very
    instant this_week starts and last_month at the instant this_month
    starts, and both ends of a window are included, so an order created
    at that instant falls in both.  today runs from midnight (plus the
    microseconds of now) to now; yesterday runs from one day before that
    to 23:59:59, so it ends one second before today starts. *)
Theorem period_windows (now : Z) :
  (forall name,
     (fst (get_period_dates now name) <= snd (get_period_dates now name))%Z)
  /\ (forall name, ~ In name period_names ->
        get_period_dates now name = ((now - 7 * day)%Z, now))
  /\ get_period_dates now "this_week" = ((now - 7 * day)%Z, now)
  /\ get_period_dates now "last_week"
     = ((now - 14 * day)%Z, (now - 7 * day)%Z)
  /\ get_period_dates now "this_month" = ((now - 30 * day)%Z, now)
  /\ get_period_dates now "last_month"
     = ((now - 60 * day)%Z, (now - 30 * day)%Z)
  /\ (let today := get_period_dates now "today" in
      let yesterday := get_period_dates now "yesterday" in
      snd today = now
      /\ (0 <= now - fst today < day)%Z
      /\ (0 <= fst today mod day < second)%Z
      /\ fst yesterday = (fst today - day)%Z
      /\ (snd yesterday + second = fst today)%Z).
Proof.
  assert (Hday : (now mod 1000000
                  = (now mod (86400 * 1000000)) mod 1000000)%Z).
  { rewrite (Z.mul_comm 86400 1000000).
    rewrite Z.rem_mul_r by lia.
    rewrite Z.add_mod, Z.mul_comm, Z.mod_mul, Z.add_0_r by lia.
    rewrite !Z.mod_mod by lia. reflexivity. }
  pose proof (Z.mod_pos_bound now (86400 * 1000000)) as Hb1.
  pose proof (Z.mod_pos_bound now 1000000) as Hb2.
  pose proof (Z.mod_le (now mod (86400 * 1000000)) 1000000) as Hle.
  rewrite <- Hday in Hle.
  assert (Hmod : ((now - 1 * (86400 * 1000000)) mod (86400 * 1000000)
                  = now mod (86400 * 1000000))%Z).
  { replace (now - 1 * (86400 * 1000000))%Z
      with (now + (-1) * (86400 * 1000000))%Z by lia.
    apply Z.mod_add. lia. }
  assert (Hsec : ((now - 1 * (86400 * 1000000)) mod 1000000
                  = now mod 1000000)%Z).
  { replace (now - 1 * (86400 * 1000000))%Z
      with (now + (-86400) * 1000000)%Z by lia.
    apply Z.mod_add. lia. }
  split.
  { intro name. unfold get_period_dates, replace_hms, day, second.
    rewrite Hmod, Hsec.
    repeat match goal with
           | |- context [String.eqb name ?s] => destruct (String.eqb name s)
           end; cbn [fst snd]; lia. }
  split.
  { intros name Hname.
    destruct (period_name_cases now name) as [H|H]; [contradiction|exact H]. }
  split; [reflexivity|]. split; [reflexivity|].
  split; [reflexivity|]. split; [reflexivity|].
  cbv zeta. unfold get_period_dates.
  cbn [String.eqb Ascii.eqb Bool.eqb fst snd].
  unfold replace_hms, day, second. rewrite Hmod, Hsec.
  split; [reflexivity|].
  split; [lia|]. split.
  - replace (now - now mod (86400 * 1000000)
             + (0 * 3600 + 0 * 60 + 0) * 1000000 + now mod 1000000)%Z
      with (now mod 1000000
            + (now / (86400 * 1000000)) * (86400 * 1000000))%Z
      by (pose proof (Z.div_mod now (86400 * 1000000)); lia).
    rewrite Z.mod_add by lia. rewrite Z.mod_small by lia. lia.
  - split; lia.
Qed.

End PeriodWindows.

(** ** The orders that count as revenue *)

Section CountedOrders.
Import AnalyticsTools Notions.



End CountedOrders.

(** ** The router *)

Section Router.
Import PyStr Keywords Agent.
Variable rt : runtime.

Local Ltac run_monad :=
  unfold bind, ret, lift, try_except, emit, get_self, update_self in *;
  cbn [fst snd self events] in *.

Lemma lstrip_spaces (s : string) :
  all_chars isspace s = true -> lstrip s = "".
Proof.
  induction s as [|c s IH]; cbn [all_chars lstrip]; [reflexivity|].
  destruct (isspace c); [exact IH|discriminate].
Qed.

Lemma strip_spaces (s : string) : all_chars isspace s = true -> strip s = "".
Proof. intro H. unfold strip. rewrite (lstrip_spaces s H). reflexivity. Qed.

(** X14: a query that is empty or made of white space only is refused
    with 'Mohon berikan pertanyaan.' and success false; the agent is left
    as it was and nothing is called, not even the loading of the tools. *)
Theorem process_query_blank (query : string) (store_id : option string)
  (w : world) :
  all_chars isspace query = true ->
  process_query rt query store_id w
  = (Ret (VDict [("success", VBool false);
                 ("response", VStr "Mohon berikan pertanyaan.");
                 ("data", VNone)]),
     w).
Proof.
  intro H. unfold process_query. rewrite (strip_spaces query H).
  cbn [String.eqb]. rewrite orb_true_r. reflexivity.
Qed.

Lemma classify_by_keywords (query : string) (w : world) :
  eq_str (intent (_classify_intent_with_keywords (lower query))) "general"
  = false ->
  classify rt query w
  = (Ret (_classify_intent_with_keywords (lower query)), w).
Proof.
  intro H. unfold classify. run_monad. rewrite H. reflexivity.
Qed.

(** X15: a query whose keywords give the intent points_redeem, points_earn
    or points_info is answered with the built-in text about loyalty points
    (contexts redeem, earn and general): process_query loads the tools,
    resolves the store (which may fetch the store list) and returns the
    text; the completion service is not asked and no report or customer
    query is made. *)
Theorem points_knowledge_without_queries
  (query : string) (store_id : option string) (i context : string)
  (w : world) :
  strip query <> "" ->
  In (i, context)
     [("points_redeem", "redeem"); ("points_earn", "earn");
      ("points_info", "general")] ->
  intent (_classify_intent_with_keywords (lower query)) = VStr i ->
  process_query rt query store_id w
  = (_ensure_tools_loaded ;;;
     _resolve_store_id rt query
       (match store_id with Some s => s | None => "" end) ;;;
     ret (_get_points_knowledge context)) w.
Proof.
  intros Hstrip Hin Hintent. unfold process_query.
  assert (Hq : String.eqb query "" = false).
  { destruct query; [|reflexivity]. exfalso. apply Hstrip. reflexivity. }
  apply String.eqb_neq in Hstrip. rewrite Hq, Hstrip. cbn [orb].
  unfold bind at 1 4.
  destruct (_ensure_tools_loaded w) as [[[]|e] w1]; [|reflexivity].
  unfold bind at 1.
  assert (Hgeneral :
    eq_str (intent (_classify_intent_with_keywords (lower query)))
           "general" = false).
  { rewrite Hintent.
    destruct Hin as [H|[H|[H|[]]]]; injection H as <- _; reflexivity. }
  rewrite (classify_by_keywords query w1 Hgeneral).
  unfold bind.
  destruct (_resolve_store_id rt query
              match store_id with Some s => s | None => "" end w1)
    as [[effective_store_id|e] w2]; [|reflexivity].
  rewrite Hintent.
  destruct Hin as [H|[H|[H|[]]]]; injection H as <- <-; reflexivity.
Qed.

End Router.

Lemma process_query_blank_witness :
  Agent.process_query Scenario.rt0 "   " None
    (Scenario.start Scenario.server_down "")
  = (Ret (VDict [("success", VBool false);
                 ("response", VStr "Mohon berikan pertanyaan.");
                 ("data", VNone)]),
     Scenario.start Scenario.server_down "").
Proof.
  apply (process_query_blank Scenario.rt0 "   " None). reflexivity.
Defined.

Lemma points_knowledge_without_queries_witness :
  Agent.process_query Scenario.rt0 "Cara tukar poin?"
    (Some "29edf3ae-6ac3-42b3-abf8-90494dcdc7c5")
    (Scenario.start Scenario.one_store "")
  = (Agent.bind Agent._ensure_tools_loaded
       (fun _ =>
          Agent.bind
            (Agent._resolve_store_id Scenario.rt0 "Cara tukar poin?"
               (match Some "29edf3ae-6ac3-42b3-abf8-90494dcdc7c5" with
                | Some s => s
                | None => ""
                end))
            (fun _ => Agent.ret (Agent._get_points_knowledge "redeem"))))
      (Scenario.start Scenario.one_store "").
Proof.
  apply (points_knowledge_without_queries Scenario.rt0 "Cara tukar poin?"
           (Some "29edf3ae-6ac3-42b3-abf8-90494dcdc7c5")
           "points_redeem" "redeem").
  - vm_compute. discriminate.
  - left. reflexivity.
  - vm_compute. reflexivity.
Defined.

(** ** The Toolbox client *)

Section ToolboxIndex.
Import PyStr Client Notions.
Variable ToolboxClient : string -> core.
Variable rt : runtime.

Local Ltac run_client :=
  unfold Client.bind, Client.ret, Client.lift, Client.emit, Client.get_self,
         Client.update_self in *;
  cbn [fst snd Client.self Client.events] in *.

Lemma index_get_set (d : index) (k k' : string) (t : tool) :
  index_get (index_set d k t) k'
  = if String.eqb k k' then Some t else index_get d k'.
Proof.
  induction d as [|[k0 t0] d IH]; cbn [index_set index_get].
  - reflexivity.
  - destruct (String.eqb_spec k0 k) as [->|Hne]; cbn [index_get].
    + destruct (String.eqb k k'); reflexivity.
    + rewrite IH. destruct (String.eqb_spec k0 k') as [->|Hne'];
        [|reflexivity].
      apply String.eqb_neq in Hne. rewrite String.eqb_sym, Hne.
      reflexivity.
Qed.

Lemma find_append {A} (f : A -> bool) (l1 l2 : list A) :
  find f (l1 ++ l2)%list
  = match find f l1 with Some x => Some x | None => find f l2 end.
Proof.
  induction l1 as [|a l1 IH]; cbn [app find]; [reflexivity|].
  destruct (f a); [reflexivity|exact IH].
Qed.

Lemma indexing_tools (tools : list tool) :
  forall w,
  exists w',
    for_each tools index_tool w = (Ret tt, w')
    /\ events w' = events w
    /\ _url (self w') = _url (self w)
    /\ _client (self w') = _client (self w)
    /\ forall k,
         index_get (_tools (self w')) k
         = match last_named k tools with
           | Some t => Some t
           | None => index_get (_tools (self w)) k
           end.
Proof.
  induction tools as [|t tools IH]; intro w; cbn [for_each].
  - exists w. repeat split. 
  - unfold Client.bind, index_tool at 1, update_self.
    destruct (IH (World
                    (set_tools
                       (index_set (_tools (self w)) (__name__ t) t) (self w))
                    (events w)))
      as [w' [Hrun [Hev [Hurl [Hcl Hget]]]]].
    exists w'. split; [exact Hrun|].
    cbn [self events set_tools _url _client _tools] in *.
    split; [exact Hev|]. split; [exact Hurl|]. split; [exact Hcl|].
    intro k. rewrite Hget. unfold last_named. cbn [rev].
    rewrite find_append.
    destruct (find (fun t0 => String.eqb (__name__ t0) k) (rev tools));
      [reflexivity|].
    cbn [find]. rewrite index_get_set.
    destruct (String.eqb (__name__ t) k); reflexivity.
Qed.

(** What [load_toolset] leaves behind when it returns. *)
Lemma load_toolset_indexes (toolset_name : string)
  (tools : list tool) (w w1 : world) :
  load_toolset ToolboxClient toolset_name w = (Ret tools, w1) ->
  let c :=
    match _client (self w) with
    | Some c => c
    | None => ToolboxClient (_url (self w))
    end in
  load_toolset_of c toolset_name = Ret tools
  /\ _client (self w1) = Some c
  /\ events w1
     = (events w
        ++ match _client (self w) with
           | Some _ => []
           | None => [Connected (_url (self w))]
           end
        ++ [Loaded toolset_name])%list
  /\ forall k,
       get_tool k w1
       = (Ret match last_named k tools with
              | Some t => Some t
              | None => index_get (_tools (self w)) k
              end,
          w1).
Proof.
  unfold load_toolset, connect. run_client. cbv zeta.
  destruct (_client (self w)) as [c|] eqn:Ec; cbn [self events set_client
                                                  _client]; rewrite ?Ec.
  - destruct (load_toolset_of c toolset_name) as [ts|e]; [|discriminate].
    destruct (indexing_tools ts
                (World (self w) (events w ++ [Loaded toolset_name])%list))
      as [w' [Hrun [Hev [Hurl [Hcl Hget]]]]].
    rewrite Hrun. intro H. injection H as <- <-.
    cbn [self events] in *.
    split; [reflexivity|]. split; [rewrite Hcl; exact Ec|].
    split; [rewrite Hev; reflexivity|].
    intro k. unfold get_tool. run_client. rewrite Hget. reflexivity.
  - destruct (load_toolset_of (ToolboxClient (_url (self w))) toolset_name)
      as [ts|e]; [|discriminate].
    destruct (indexing_tools ts
                (World (set_client (Some (ToolboxClient (_url (self w))))
                                   (self w))
                       ((events w ++ [Connected (_url (self w))])
                        ++ [Loaded toolset_name])%list))
      as [w' [Hrun [Hev [Hurl [Hcl Hget]]]]].
    rewrite Hrun. intro H. injection H as <- <-.
    cbn [self events set_client _client _tools] in *.
    split; [reflexivity|]. split; [exact Hcl|].
    split; [rewrite Hev, <- app_assoc; reflexivity|].
    intro k. unfold get_tool. run_client. rewrite Hget. reflexivity.
Qed.

(** X16: loading a toolset and then asking for a tool by name.  When
    load_toolset returns, it returns the tools the server gave, and
    get_tool then gives, for every name, the last of these tools with that
    name, or else what was indexed under the name before; the connection
    is made first when there was none, and nothing else happens. *)
Theorem load_toolset_then_get_tool (toolset_name : string)
  (tools : list tool) (w w1 : world) :
  load_toolset ToolboxClient toolset_name w = (Ret tools, w1) ->
  let c :=
    match _client (self w) with
    | Some c => c
    | None => ToolboxClient (_url (self w))
    end in
  load_toolset_of c toolset_name = Ret tools
  /\ _client (self w1) = Some c
  /\ events w1
     = (events w
        ++ match _client (self w) with
           | Some _ => []
           | None => [Connected (_url (self w))]
           end
        ++ [Loaded toolset_name])%list
  /\ forall k,
       get_tool k w1
       = (Ret match last_named k tools with
              | Some t => Some t
              | None => index_get (_tools (self w)) k
              end,
          w1).
Proof. exact (load_toolset_indexes toolset_name tools w w1). Qed.

Lemma bind_run {A B} (m : M A) (f : A -> M B) (w : world) :
  Client.bind m f w
  = match m w with
    | (Ret a, w') => f a w'
    | (Raise e, w') => (Raise e, w')
    end.
Proof. reflexivity. Qed.

Lemma run_indexed_tool (t : tool) (tool_name : string)
  (kwargs : list (string * value)) (w : world) :
  (emit (Invoked tool_name kwargs) ;;;
   result <- lift (call_with t kwargs) ;;
   match result with
   | VStr text =>
       match json_loads rt text with
       | Ret parsed => ret parsed
       | Raise e =>
           if String.eqb (exn_class e) "JSONDecodeError"
           then ret result
           else lift (Raise e)
       end
   | _ => ret result
   end) w
  = (decoded rt (call_with t kwargs),
     World (self w) (events w ++ [Invoked tool_name kwargs])%list).
Proof.
  run_client. unfold decoded.
  destruct (call_with t kwargs) as [result|e]; [|reflexivity].
  destruct result; try reflexivity.
  destruct (json_loads rt s) as [parsed|e]; [reflexivity|].
  destruct (String.eqb (exn_class e) "JSONDecodeError"); reflexivity.
Qed.

(** X17: a tool that is indexed is executed at once: nothing is loaded,
    the client is unchanged, the tool is called once with the keyword
    arguments.  What the tool raises is raised.  A str result is decoded
    as JSON; when it is not JSON (JSONDecodeError) the str itself is
    returned; any other result is returned as it is. *)
Theorem execute_tool_indexed (tool_name : string)
  (kwargs : list (string * value)) (t : tool) (w : world) :
  index_get (_tools (self w)) tool_name = Some t ->
  execute_tool ToolboxClient rt tool_name kwargs w
  = (decoded rt (call_with t kwargs),
     World (self w) (events w ++ [Invoked tool_name kwargs])%list).
Proof.
  intro H. unfold execute_tool, get_tool.
  unfold Client.bind at 1 2 3. unfold get_self at 1, Client.ret at 1 2.
  cbn [self]. rewrite H. apply run_indexed_tool.
Qed.

(** X18: a tool that is not indexed makes execute_tool load the toolset
    all-tools once.  If that raises, so does execute_tool.  Otherwise the
    last tool of that toolset with the name is called, once; when the
    toolset has no tool of that name, execute_tool raises ValueError
    Tool '<name>' not found and calls no tool; the loaded tools stay
    indexed in both cases. *)
Theorem execute_tool_loads_all_tools (tool_name : string)
  (kwargs : list (string * value)) (w : world) :
  index_get (_tools (self w)) tool_name = None ->
  match load_all_tools ToolboxClient w with
  | (Raise e, w1) =>
      execute_tool ToolboxClient rt tool_name kwargs w = (Raise e, w1)
  | (Ret tools, w1) =>
      match last_named tool_name tools with
      | Some t =>
          execute_tool ToolboxClient rt tool_name kwargs w
          = (decoded rt (call_with t kwargs),
             World (self w1)
                   (events w1 ++ [Invoked tool_name kwargs])%list)
      | None =>
          execute_tool ToolboxClient rt tool_name kwargs w
          = (Raise (not_found tool_name), w1)
      end
  end.
Proof.
  intro H. unfold execute_tool.
  assert (Hfirst : get_tool tool_name w = (Ret None, w))
    by (unfold get_tool; run_client; rewrite H; reflexivity).
  rewrite bind_run, Hfirst. rewrite bind_run. rewrite bind_run.
  destruct (load_all_tools ToolboxClient w) as [[tools|e] w1] eqn:Eload;
    [|reflexivity].
  destruct (load_toolset_indexes "all-tools" tools w w1 Eload)
    as [_ [_ [_ Hget]]].
  rewrite (Hget tool_name). rewrite H.
  destruct (last_named tool_name tools) as [t|].
  - apply run_indexed_tool.
  - reflexivity.
Qed.

End ToolboxIndex.

Lemma load_toolset_then_get_tool_witness :
  Client.get_tool "greet"
    (snd (Client.load_toolset Notions.small_server "all-tools"
            Notions.fresh_client))
  = (Ret (Some Notions.greeting_tool),
     snd (Client.load_toolset Notions.small_server "all-tools"
            Notions.fresh_client)).
Proof.
  exact (proj2 (proj2 (proj2
           (load_toolset_then_get_tool Notions.small_server "all-tools"
              [Notions.stores_tool; Notions.greeting_tool]
              Notions.fresh_client _ eq_refl))) "greet").
Defined.

Lemma execute_tool_indexed_witness :
  let w :=
    snd (Client.load_toolset Notions.small_server "all-tools"
           Notions.fresh_client) in
  Client.execute_tool Notions.small_server Scenario.rt0 "greet" [] w
  = (Notions.decoded Scenario.rt0 (Client.call_with Notions.greeting_tool []),
     Client.World (Client.self w)
                  (Client.events w ++ [Client.Invoked "greet" []])%list)
  /\ Notions.decoded Scenario.rt0 (Client.call_with Notions.greeting_tool [])
     = Ret (VStr "halo")
  /\ Notions.decoded Scenario.rt0 (Client.call_with Notions.stores_tool [])
     = Ret (VDict [("intent", VStr "weekly_revenue")]).
Proof.
  cbv zeta. split; [|split; vm_compute; reflexivity].
  apply (execute_tool_indexed Notions.small_server Scenario.rt0 "greet" []
           Notions.greeting_tool).
  vm_compute. reflexivity.
Defined.

Lemma execute_tool_loads_all_tools_witness :
  Client.execute_tool Notions.small_server Scenario.rt0 "get-order-by-id"
    [("order_id", VStr "1")] Notions.fresh_client
  = (Raise (Client.not_found "get-order-by-id"),
     snd (Client.load_all_tools Notions.small_server Notions.fresh_client)).
Proof.
  exact (execute_tool_loads_all_tools Notions.small_server Scenario.rt0
           "get-order-by-id" [("order_id", VStr "1")] Notions.fresh_client
           eq_refl).
Defined.

(** ** The customer service agent *)

Section Inquiries.
Import PyStr CustomerAgent Notions.
Variable rt : runtime.

Local Ltac run_desk :=
  unfold CustomerAgent.bind, CustomerAgent.ret, CustomerAgent.lift,
         CustomerAgent.try_except, CustomerAgent.emit,
         CustomerAgent.get_self, CustomerAgent.update_self in *;
  cbn [fst snd CustomerAgent.self CustomerAgent.events] in *.

Lemma not_blank (message : string) :
  strip message <> "" ->
  String.eqb message "" || String.eqb (strip message) "" = false.
Proof.
  intro H. apply orb_false_iff. split.
  - destruct message; [|reflexivity]. exfalso. apply H. reflexivity.
  - apply String.eqb_neq. exact H.
Qed.

(** X19: handle_inquiry refuses a message that is empty or white space
    only, without loading the tools.  For any other message it loads the
    tools when they are not loaded and hands the message to the first of
    the handlers for status, price, points, pickup and greeting whose
    keywords occur in the lowercased message, in that order, and to the
    general handler when none does; so a message with a status keyword is
    a status inquiry whatever else it says. *)
Theorem handle_inquiry_routes (message : string)
  (customer_phone : option string) (context : value) (w : world) :
  (all_chars isspace message = true ->
   handle_inquiry rt message customer_phone context w
   = (Ret blank_message, w))
  /\ (strip message <> "" ->
      handle_inquiry rt message customer_phone context w
      = (_ensure_tools_loaded ;;;
         match find (fun route => fst route (lower message))
                    (inquiry_routes rt message customer_phone) with
         | Some route => snd route
         | None =>
             _handle_general_inquiry rt message customer_phone context
         end) w).
Proof.
  split.
  - intro H. unfold handle_inquiry. rewrite (strip_spaces message H).
    cbn [String.eqb]. rewrite orb_true_r. reflexivity.
  - intro H. unfold handle_inquiry. rewrite (not_blank message H).
    unfold inquiry_routes. cbn [find fst snd].
    destruct (_is_status_inquiry (lower message)); [reflexivity|].
    destruct (_is_price_inquiry (lower message)); [reflexivity|].
    destruct (_is_points_inquiry (lower message)); [reflexivity|].
    destruct (_is_pickup_inquiry (lower message)); [reflexivity|].
    destruct (_is_greeting (lower message)); reflexivity.
Qed.

Lemma no_marker_no_phone (message : string) :
  py_in "08" message = false -> py_in "628" message = false ->
  CustomerService._extract_phone message = None.
Proof.
  intros H08 H628.
  destruct (CustomerService._extract_phone message) as [m|] eqn:E;
    [|reflexivity].
  exfalso. rewrite extract_phone_cases in E.
  assert (Hm : Regex.matches_in CustomerService.pattern1 message m
               \/ Regex.matches_in CustomerService.pattern2 message m).
  { destruct (Regex.search CustomerService.pattern1 message) as [m1|] eqn:E1.
    - injection E as ->. left. exact (search_sound E1).
    - right. exact (search_sound E). }
  assert (Hseg : exists pre post, message = pre ++ m ++ post).
  { destruct Hm as [[pre [post [_ [Ht _]]]]|[pre [post [_ [Ht _]]]]];
      exists pre, post; exact Ht. }
  assert (Hshape : CustomerService.phone_shape m).
  { destruct Hm as [Hm|Hm];
      [exact (match_shape pattern1_shape Hm)
      |exact (match_shape pattern2_shape Hm)]. }
  destruct (phone_has_marker Hseg Hshape); congruence.
Qed.

(** X20: a status inquiry without a phone number: when the message has a
    status keyword, no customer phone comes with it and the message has
    neither 08 nor 628 in it, handle_inquiry asks for the phone number;
    apart from loading the tools it calls nothing. *)
Theorem status_inquiry_asks_for_phone (message : string)
  (customer_phone : option string) (context : value) (w : world) :
  strip message <> "" ->
  _is_status_inquiry (lower message) = true ->
  given customer_phone = None ->
  py_in "08" message = false ->
  py_in "628" message = false ->
  handle_inquiry rt message customer_phone context w
  = (_ensure_tools_loaded ;;; ret ask_phone_for_status) w.
Proof.
  intros Hblank Hstatus Hphone H08 H628.
  unfold handle_inquiry. rewrite (not_blank message Hblank), Hstatus.
  unfold _handle_status_inquiry.
  rewrite Hphone, (no_marker_no_phone message H08 H628). reflexivity.
Qed.

(** X21: estimate_pickup looks the order up by its id first: with the
    tools loaded and an order id given, when the tool server answers the
    lookup with an order, the answer is made from that order and
    check_order_status is not called, whether a phone number is given or
    not; the lookup is the only call. *)
Theorem estimate_pickup_by_order_id (order_id : string)
  (phone : option string) (order : value) (w : world) :
  _tools_loaded (self w) = true ->
  order_id <> "" ->
  _toolbox_client (self w) (events w) (get_order_by_id order_id)
  = Ret order ->
  truthy order = true ->
  estimate_pickup rt (Some order_id) phone w
  = (Ret match _format_pickup_response rt order with
         | Ret answer => answer
         | Raise e => failure "Terjadi kesalahan saat mengecek estimasi." e
         end,
     World (self w) (events w ++ [Called (get_order_by_id order_id)])%list).
Proof.
  intros Hloaded Hid Hcall Htruthy.
  unfold estimate_pickup. cbn [given].
  apply String.eqb_neq in Hid. rewrite Hid.
  assert (Hensure : _ensure_tools_loaded w = (Ret tt, w))
    by (unfold _ensure_tools_loaded; run_desk; rewrite Hloaded; reflexivity).
  assert (Hbody :
    (_ensure_tools_loaded ;;;
     try_except
       (order <- call_tool (get_order_by_id order_id) ;;
        if truthy order then lift (_format_pickup_response rt order)
        else pickup_by_phone rt phone)
       (fun e =>
          ret (failure "Terjadi kesalahan saat mengecek estimasi." e))) w
    = (Ret match _format_pickup_response rt order with
           | Ret answer => answer
           | Raise e => failure "Terjadi kesalahan saat mengecek estimasi." e
           end,
       World (self w)
             (events w ++ [Called (get_order_by_id order_id)])%list)).
  { unfold CustomerAgent.bind at 1. rewrite Hensure.
    unfold CustomerAgent.try_except, CustomerAgent.bind, call_tool.
    rewrite Hcall, Htruthy. unfold CustomerAgent.lift, CustomerAgent.ret.
    destruct (_format_pickup_response rt order); reflexivity. }
  destruct (given phone); exact Hbody.
Qed.

Lemma ensure_when_loaded (w : world) :
  _tools_loaded (self w) = true -> _ensure_tools_loaded w = (Ret tt, w).
Proof.
  intro H. unfold _ensure_tools_loaded. run_desk. rewrite H. reflexivity.
Qed.

Lemma check_order_status_answers (phone : string) (w : world) :
  _tools_loaded (self w) = true -> answers (check_order_status rt phone) w.
Proof.
  intro H. unfold answers, check_order_status.
  unfold CustomerAgent.bind at 1. rewrite (ensure_when_loaded w H).
  unfold call_tool. run_desk.
  destruct (_toolbox_client (self w) (events w) _) as [orders|e];
    [|eexists _, _; split; reflexivity].
  destruct (truthy orders); cbn [negb];
    [|eexists _, _; split; reflexivity].
  destruct (format_text rt "order_status" [orders]);
    eexists _, _; split; reflexivity.
Qed.

Lemma get_service_prices_answers (store_id : option string) (w : world) :
  _tools_loaded (self w) = true ->
  answers (get_service_prices rt store_id) w.
Proof.
  intro H. unfold answers, get_service_prices.
  unfold CustomerAgent.bind at 1. rewrite (ensure_when_loaded w H).
  unfold call_tool. run_desk.
  destruct (_toolbox_client (self w) (events w) _) as [services|e];
    [|eexists _, _; split; reflexivity].
  destruct (truthy services); cbn [negb];
    [|eexists _, _; split; reflexivity].
  destruct (format_text rt "service_prices" [services]);
    eexists _, _; split; reflexivity.
Qed.

Lemma check_points_answers (phone : string) (w : world) :
  _tools_loaded (self w) = true -> answers (check_points rt phone) w.
Proof.
  intro H. unfold answers, check_points.
  destruct (String.eqb phone ""); [eexists _, _; split; reflexivity|].
  unfold CustomerAgent.bind at 1. rewrite (ensure_when_loaded w H).
  unfold call_tool. run_desk.
  destruct (_toolbox_client (self w) (events w) _) as [customer|e];
    [|eexists _, _; split; reflexivity].
  destruct (truthy customer); cbn [negb];
    [|eexists _, _; split; reflexivity].
  destruct (py_get customer "points" (VInt 0)) as [points|e];
    [|eexists _, _; split; reflexivity].
  destruct (py_get customer "name" (VStr "Pelanggan")) as [name|e];
    [|eexists _, _; split; reflexivity].
  destruct (format_text rt "points" [name; points]);
    eexists _, _; split; reflexivity.
Qed.

Lemma format_pickup_response_answers (order answer : value) :
  _format_pickup_response rt order = Ret answer -> is_answer answer = true.
Proof.
  unfold _format_pickup_response.
  destruct (py_get order "status" (VStr "")) as [status|e]; [|discriminate].
  destruct (py_get order "estimated_completion" VNone) as [estimated|e];
    [|discriminate].
  destruct (status_message status) as [message|e]; [|discriminate].
  intro H. injection H as <-. reflexivity.
Qed.

Lemma pickup_by_phone_guarded (phone : option string) (w : world) :
  answers
    (try_except (pickup_by_phone rt phone)
       (fun e =>
          ret (failure "Terjadi kesalahan saat mengecek estimasi." e))) w.
Proof.
  unfold answers, pickup_by_phone.
  destruct (given phone) as [p|]; [|eexists _, _; split; reflexivity].
  unfold call_tool. run_desk.
  destruct (_toolbox_client (self w) (events w) _) as [orders|e];
    [|eexists _, _; split; reflexivity].
  destruct (truthy orders); [|eexists _, _; split; reflexivity].
  destruct (item_0 orders) as [order|e];
    [|eexists _, _; split; reflexivity].
  destruct (_format_pickup_response rt order) as [answer|e] eqn:E;
    [|eexists _, _; split; reflexivity].
  eexists _, _. split; [reflexivity|].
  exact (format_pickup_response_answers order answer E).
Qed.

Lemma estimate_pickup_answers (order_id phone : option string) (w : world) :
  _tools_loaded (self w) = true ->
  answers (estimate_pickup rt order_id phone) w.
Proof.
  intro H. unfold estimate_pickup.
  assert (Hguard :
    answers
      (_ensure_tools_loaded ;;;
       try_except
         (match given order_id with
          | Some id =>
              order <- call_tool (get_order_by_id id) ;;
              if truthy order then lift (_format_pickup_response rt order)
              else pickup_by_phone rt phone
          | None => pickup_by_phone rt phone
          end)
         (fun e =>
            ret (failure "Terjadi kesalahan saat mengecek estimasi." e)))
      w).
  { unfold answers. unfold CustomerAgent.bind at 1.
    rewrite (ensure_when_loaded w H).
    destruct (given order_id) as [id|];
      [|exact (pickup_by_phone_guarded phone w)].
    unfold CustomerAgent.try_except at 1, CustomerAgent.bind at 1, call_tool.
    destruct (_toolbox_client (self w) (events w) (get_order_by_id id))
      as [order|e]; [|eexists _, _; split; reflexivity].
    destruct (truthy order).
    - unfold CustomerAgent.lift.
      destruct (_format_pickup_response rt order) as [answer|e] eqn:E;
        [|eexists _, _; split; reflexivity].
      eexists _, _. split; [reflexivity|].
      exact (format_pickup_response_answers order answer E).
    - exact (pickup_by_phone_guarded phone
               (World (self w)
                      (events w ++ [Called (get_order_by_id id)])%list)). }
  destruct (given order_id), (given phone); try exact Hguard.
  eexists _, _. split; reflexivity.
Qed.

Lemma general_inquiry_answers (message : string) (phone : option string)
  (context : value) (w : world) :
  answers (_handle_general_inquiry rt message phone context) w.
Proof.
  unfold answers, _handle_general_inquiry, gemini_client. run_desk.
  destruct (_gemini_client (self w)) as [g|].
  - destruct (generate_content g _) as [[reading|]|e];
      [|eexists _, _; split; reflexivity..].
    destruct reading; eexists _, _; split; reflexivity.
  - destruct (new_gemini_client rt) as [g|];
      [|eexists _, _; split; reflexivity].
    destruct (generate_content g _) as [[reading|]|e];
      [|eexists _, _; split; reflexivity..].
    destruct reading; eexists _, _; split; reflexivity.
Qed.

(** X22: once the tools are loaded the customer service agent never
    raises: handle_inquiry, check_order_status, get_service_prices,
    check_points and estimate_pickup return, for every message, phone and
    behaviour of the tool server and of the completion service, a dict
    with a bool under success and a str under response; what a tool call
    or the formatting of its result raises is turned into an answer with
    success false. *)
Theorem customer_service_always_answers (w : world) :
  _tools_loaded (self w) = true ->
  (forall message customer_phone context,
     answers (handle_inquiry rt message customer_phone context) w)
  /\ (forall phone, answers (check_order_status rt phone) w)
  /\ (forall store_id, answers (get_service_prices rt store_id) w)
  /\ (forall phone, answers (check_points rt phone) w)
  /\ (forall order_id phone, answers (estimate_pickup rt order_id phone) w).
Proof.
  intro H.
  split; [|split; [|split; [|split]]].
  - intros message customer_phone context. unfold handle_inquiry.
    destruct (String.eqb message "" || String.eqb (strip message) "");
      [eexists _, _; split; reflexivity|].
    unfold answers. unfold CustomerAgent.bind at 1.
    rewrite (ensure_when_loaded w H).
    destruct (_is_status_inquiry (lower message)).
    { unfold _handle_status_inquiry.
      destruct (given match given customer_phone with
                      | Some p => Some p
                      | None => CustomerService._extract_phone message
                      end) as [p|].
      - exact (check_order_status_answers p w H).
      - eexists _, _; split; reflexivity. }
    destruct (_is_price_inquiry (lower message)).
    { exact (get_service_prices_answers None w H). }
    destruct (_is_points_inquiry (lower message)).
    { unfold _handle_points_inquiry.
      destruct (given customer_phone) as [p|].
      - exact (check_points_answers p w H).
      - eexists _, _; split; reflexivity. }
    destruct (_is_pickup_inquiry (lower message)).
    { exact (estimate_pickup_answers _ customer_phone w H). }
    destruct (_is_greeting (lower message)).
    { eexists _, _; split; reflexivity. }
    exact (general_inquiry_answers message customer_phone context w).
  - intro phone. exact (check_order_status_answers phone w H).
  - intro store_id. exact (get_service_prices_answers store_id w H).
  - intro phone. exact (check_points_answers phone w H).
  - intros order_id phone. exact (estimate_pickup_answers order_id phone w H).
Qed.

End Inquiries.

Lemma customer_service_always_answers_witness :
  Notions.answers
    (CustomerAgent.estimate_pickup Scenario.rt0 (Some "29edf3ae") None)
    (Notions.desk Notions.one_order true).
Proof.
  apply (customer_service_always_answers Scenario.rt0
           (Notions.desk Notions.one_order true) eq_refl).
Defined.

Lemma handle_inquiry_routes_witness :
  CustomerAgent.handle_inquiry Scenario.rt0 "  " None VNone
    (Notions.desk Notions.one_order false)
  = (Ret CustomerAgent.blank_message, Notions.desk Notions.one_order false).
Proof.
  apply (proj1 (handle_inquiry_routes Scenario.rt0 "  " None VNone
                  (Notions.desk Notions.one_order false))).
  reflexivity.
Defined.

Lemma status_inquiry_asks_for_phone_witness :
  CustomerAgent.handle_inquiry Scenario.rt0 "Cek pesanan saya" None VNone
    (Notions.desk Notions.one_order false)
  = (CustomerAgent.bind CustomerAgent._ensure_tools_loaded
       (fun _ => CustomerAgent.ret CustomerAgent.ask_phone_for_status))
      (Notions.desk Notions.one_order false).
Proof.
  apply (status_inquiry_asks_for_phone Scenario.rt0 "Cek pesanan saya"
           None VNone).
  - vm_compute. discriminate.
  - vm_compute. reflexivity.
  - reflexivity.
  - vm_compute. reflexivity.
  - vm_compute. reflexivity.
Defined.

Lemma estimate_pickup_by_order_id_witness :
  let w := Notions.desk Notions.one_order true in
  CustomerAgent.estimate_pickup Scenario.rt0 (Some "29edf3ae")
    (Some "081234567890") w
  = (Ret match CustomerAgent._format_pickup_response Scenario.rt0
                 Notions.washing_order with
         | Ret answer => answer
         | Raise e =>
             CustomerAgent.failure
               "Terjadi kesalahan saat mengecek estimasi." e
         end,
     CustomerAgent.World (CustomerAgent.self w)
       (CustomerAgent.events w
        ++ [CustomerAgent.Called (CustomerAgent.get_order_by_id "29edf3ae")])
       %list).
Proof.
  cbv zeta.
  apply (estimate_pickup_by_order_id Scenario.rt0 "29edf3ae"
           (Some "081234567890") Notions.washing_order).
  - reflexivity.
  - discriminate.
  - reflexivity.
  - reflexivity.
Defined.

(** ** Order ids in a message *)

Section OrderIds.
Import PyStr Regex CustomerAgent Notions.

Local Ltac inv H := inversion H; subst; clear H.

Lemma hex_char p s p' s' :
  derives hex p s p' s' ->
  exists d, s = String d s' /\ Uuid.is_hex d = true.
Proof.
  unfold hex, Uuid.is_hex, Uuid.is_lower_hex. intro D.
  inv D; [|match goal with H : derives (Alt _ _) _ _ _ _ |- _ => inv H end];
    match goal with H : derives (Range _ _) _ _ _ _ |- _ => inv H end;
    eexists; (split; [reflexivity|]);
    match goal with H : in_range _ _ _ = true |- _ => rewrite H end;
    rewrite ?orb_true_r; reflexivity.
Qed.

Lemma hex_char_matches (d : ascii) p s :
  Uuid.is_hex d = true -> derives hex p (String d s) (Some d) s.
Proof.
  unfold hex, Uuid.is_hex, Uuid.is_lower_hex. intro H.
  destruct (in_range "0" "9" d) eqn:E1.
  { apply D_alt_l. constructor. exact E1. }
  destruct (in_range "a" "f" d) eqn:E2.
  { apply D_alt_r, D_alt_l. constructor. exact E2. }
  cbn [orb] in H. apply D_alt_r, D_alt_r. constructor. exact H.
Qed.

Lemma rep_hex :
  forall hi lo p s p' s',
    derives (Rep hex lo hi) p s p' s' ->
    exists ds,
      s = ds ++ s'
      /\ all_chars Uuid.is_hex ds = true
      /\ (lo <= String.length ds <= hi)%nat.
Proof.
  induction hi as [|hi IH]; intros lo p s p' s' D.
  - inv D. exists "". cbn. repeat split; lia.
  - inv D.
    + exists "". cbn. repeat split; lia.
    + match goal with H : derives hex _ _ _ _ |- _ =>
        apply hex_char in H; destruct H as [d [-> Hd]] end.
      match goal with H : derives (Rep _ _ _) _ _ _ _ |- _ =>
        apply IH in H; destruct H as [ds [-> [Hall Hlen]]] end.
      exists (String d ds). cbn. rewrite Hd.
      repeat split; [exact Hall|lia|lia].
Qed.

Lemma rep_hex_matches (ds : string) :
  forall p s,
    all_chars Uuid.is_hex ds = true ->
    exists p',
      derives (Rep hex (String.length ds) (String.length ds)) p (ds ++ s)
              p' s.
Proof.
  induction ds as [|d ds IH]; intros p s Hall.
  - exists p. cbn. constructor.
  - cbn [all_chars] in Hall. apply andb_true_iff in Hall.
    destruct Hall as [Hd Hall].
    destruct (IH (Some d) s Hall) as [p' D].
    exists p'. cbn [String.length append].
    eapply D_rep_more; [exact (hex_char_matches d p _ Hd)|exact D].
Qed.

Lemma hex_is_not_hash (d : ascii) :
  Uuid.is_hex d = true -> Ascii.eqb d "#" = false.
Proof.
  destruct d as [[] [] [] [] [] [] [] []]; vm_compute;
    intro H; try discriminate H; reflexivity.
Qed.

Lemma short_id_group_1 (id : string) : short_id id -> group_1 id = id.
Proof.
  intros [Hlen Hall]. destruct id as [|d id]; [reflexivity|].
  cbn [all_chars] in Hall. apply andb_true_iff in Hall.
  cbn [group_1]. rewrite (hex_is_not_hash d (proj1 Hall)). reflexivity.
Qed.

Lemma short_pattern_shape p s p' s' :
  derives short_pattern p s p' s' ->
  exists m id,
    s = m ++ s' /\ short_id id /\ (m = id \/ m = "#" ++ id)
    /\ group_1 m = id.
Proof.
  unfold short_pattern. intro D. inv D.
  match goal with H : derives (Rep hex _ _) _ _ _ _ |- _ =>
    apply rep_hex in H; destruct H as [id [-> [Hall Hlen]]] end.
  assert (Hid : short_id id) by (split; [lia|exact Hall]).
  match goal with H : derives (Rep (Lit _) _ _) _ _ _ _ |- _ => inv H end.
  - exists id, id. repeat split; try assumption; try (left; reflexivity).
    + destruct Hid; assumption.
    + exact (short_id_group_1 id Hid).
  - match goal with H : derives (Lit _) _ _ _ _ |- _ => inv H end.
    match goal with H : derives (Rep (Lit _) _ _) _ _ _ _ |- _ => inv H end.
    exists ("#" ++ id), id.
    repeat split; try assumption; try (right; reflexivity).
    destruct Hid; assumption.
Qed.

Lemma short_id_matches (id post : string) p :
  short_id id -> exists p', derives short_pattern p (id ++ post) p' post.
Proof.
  intros [Hlen Hall].
  destruct (rep_hex_matches id p post Hall) as [p' D].
  rewrite Hlen in D. exists p'. unfold short_pattern.
  eapply D_seq; [apply D_rep_stop|exact D].
Qed.

Lemma layout_run (hexp : ascii -> bool) (n : nat) :
  forall ds layout rest,
    all_chars hexp ds = true ->
    String.length ds = n ->
    Uuid.follows_layout hexp (repeat false n ++ layout)%list (ds ++ rest)
    = Uuid.follows_layout hexp layout rest.
Proof.
  induction n as [|n IH]; intros ds layout rest Hall Hlen.
  - destruct ds; [reflexivity|discriminate].
  - destruct ds as [|d ds]; [discriminate|].
    cbn [all_chars] in Hall. apply andb_true_iff in Hall.
    cbn [repeat app append Uuid.follows_layout].
    rewrite (proj1 Hall). cbn [andb]. apply IH; [apply Hall|].
    cbn in Hlen. lia.
Qed.

Lemma uuid_pattern_shape p s p' s' :
  derives uuid_pattern p s p' s' ->
  exists m, s = m ++ s' /\ Uuid.dashed_uuid m = true
            /\ exists id rest, m = id ++ rest /\ short_id id.
Proof.
  unfold uuid_pattern. intro D.
  repeat match goal with
         | H : derives (Seq _ _) _ _ _ _ |- _ => inv H
         | H : derives (Lit _) _ _ _ _ |- _ => inv H
         end.
  repeat match goal with
         | H : derives (Rep hex _ _) _ _ _ _ |- _ =>
             let ds := fresh "ds" in
             let Hall := fresh "Hall" in
             let Hlen := fresh "Hlen" in
             apply rep_hex in H; destruct H as [ds [? [Hall Hlen]]]
         end.
  subst.
  match goal with
  | |- exists m, ?a ++ String "-" (?b ++ String "-" (?c ++ String "-"
                   (?d ++ String "-" (?e ++ ?t)))) = m ++ ?t /\ _ =>
      exists (a ++ "-" ++ b ++ "-" ++ c ++ "-" ++ d ++ "-" ++ e);
      split; [rewrite !append_assoc; reflexivity|]; split;
      [|exists a, ("-" ++ b ++ "-" ++ c ++ "-" ++ d ++ "-" ++ e);
        split; [reflexivity|split; [lia|assumption]]];
      unfold Uuid.dashed_uuid, Uuid.uuid_layout;
      rewrite (layout_run Uuid.is_hex 8 a) by (try assumption; lia);
      cbn [app append Uuid.follows_layout]; rewrite Ascii.eqb_refl;
      cbn [andb];
      rewrite (layout_run Uuid.is_hex 4 b) by (try assumption; lia);
      cbn [app append Uuid.follows_layout]; rewrite Ascii.eqb_refl;
      cbn [andb];
      rewrite (layout_run Uuid.is_hex 4 c) by (try assumption; lia);
      cbn [app append Uuid.follows_layout]; rewrite Ascii.eqb_refl;
      cbn [andb];
      rewrite (layout_run Uuid.is_hex 4 d) by (try assumption; lia);
      cbn [app append Uuid.follows_layout]; rewrite Ascii.eqb_refl;
      cbn [andb];
      rewrite <- (append_nil_r e), <- (app_nil_r (repeat false 12));
      rewrite (layout_run Uuid.is_hex 12 e) by (try assumption; lia);
      reflexivity
  end.
Qed.

Lemma same_length_prefix (a b c d : string) :
  a ++ b = c ++ d -> String.length a = String.length c -> a = c /\ b = d.
Proof.
  revert c. induction a as [|x a IH]; intros c H Hlen.
  - destruct c; [split; [reflexivity|exact H]|discriminate].
  - destruct c as [|y c]; [discriminate|].
    cbn in H. injection H as -> H. cbn in Hlen.
    destruct (IH c H) as [-> ->]; [lia|]. split; reflexivity.
Qed.

(** X23: _extract_order_id.  It returns None exactly when the message has
    no run of 8 hexadecimal digits (of either case) in it.  When the
    message has a dashed UUID in it, it returns the leftmost one, 36
    characters long.  Otherwise it returns the leftmost run of 8
    hexadecimal digits of the message, without the # that may stand
    before it; the digits need not be marked as an order id. *)
Theorem extract_order_id_result (message : string) :
  (_extract_order_id message = None <->
   forall pre id post, message = pre ++ id ++ post -> ~ short_id id)
  /\ forall id,
       _extract_order_id message = Some id ->
       (Uuid.dashed_uuid id = true
        /\ leftmost_match uuid_pattern message id)
       \/ ((forall m, ~ matches_in uuid_pattern message m)
           /\ short_id id
           /\ exists pre post,
                message = pre ++ id ++ post
                /\ forall pre' id' post',
                     message = pre' ++ id' ++ post' ->
                     short_id id' ->
                     (String.length pre <= String.length pre')%nat).
Proof.
  assert (Hwindow : forall pre id post,
            message = pre ++ id ++ post -> short_id id ->
            search short_pattern message <> None).
  { intros pre id post Hm Hid.
    destruct (short_id_matches id post (last_char None pre) Hid) as [p' D].
    apply (@search_complete short_pattern message id).
    exists pre, post, p'. split; [exact Hm|exact D]. }
  unfold _extract_order_id. split.
  - split.
    + intros H pre id post Hm Hid.
      destruct (search uuid_pattern message); [discriminate|].
      destruct (search short_pattern message) eqn:E; [discriminate|].
      exact (Hwindow pre id post Hm Hid eq_refl).
    + intro Hnone.
      destruct (search uuid_pattern message) as [m|] eqn:E1.
      { exfalso. apply search_sound in E1.
        destruct E1 as [pre [post [p' [Hm D]]]].
        apply uuid_pattern_shape in D.
        destruct D as [m' [Heq [_ [id [rest [Hm' Hid]]]]]].
        apply append_cancel_r in Heq. subst m'.
        apply (Hnone pre id (rest ++ post)); [|exact Hid].
        rewrite Hm, Hm', append_assoc. reflexivity. }
      destruct (search short_pattern message) as [m|] eqn:E2; [|reflexivity].
      exfalso. apply search_sound in E2.
      destruct E2 as [pre [post [p' [Hm D]]]].
      apply short_pattern_shape in D.
      destruct D as [m' [id [Heq [Hid [[->| ->] _]]]]];
        apply append_cancel_r in Heq; subst m.
      * exact (Hnone pre id post Hm Hid).
      * apply (Hnone (pre ++ "#") id post); [|exact Hid].
        rewrite Hm, !append_assoc. reflexivity.
  - intros id H.
    destruct (search uuid_pattern message) as [m|] eqn:E1.
    + injection H as ->. left. split; [|exact (search_leftmost E1)].
      apply search_sound in E1. destruct E1 as [pre [post [p' [Hm D]]]].
      apply uuid_pattern_shape in D. destruct D as [m' [Heq [Hd _]]].
      apply append_cancel_r in Heq. subst m'. exact Hd.
    + right.
      split; [intros m Hm; apply search_complete in Hm; congruence|].
      destruct (search short_pattern message) as [m|] eqn:E2;
        [|discriminate].
      injection H as <-.
      destruct (search_leftmost E2) as [pre [post [p' [Hm [D Hfirst]]]]].
      apply short_pattern_shape in D.
      destruct D as [m' [id [Heq [Hid [Hcase Hgroup]]]]].
      apply append_cancel_r in Heq. subst m'. rewrite Hgroup.
      split; [exact Hid|].
      assert (Hnot_before : forall pre' id' post',
                message = pre' ++ id' ++ post' -> short_id id' ->
                (String.length pre <= String.length pre')%nat).
      { intros pre' id' post' Hm' Hid'.
        destruct (Nat.le_gt_cases (String.length pre) (String.length pre'))
          as [Hle|Hlt]; [exact Hle|].
        exfalso.
        destruct (short_id_matches id' post' (last_char None pre') Hid')
          as [p1 D1].
        exact (Hfirst pre' (id' ++ post') Hm' Hlt p1 post' D1). }
      destruct Hcase as [->| ->].
      * exists pre, post. split; [exact Hm|exact Hnot_before].
      * exists (pre ++ "#"), post.
        split; [rewrite Hm, !append_assoc; reflexivity|].
        intros pre' id' post' Hm' Hid'.
        pose proof (Hnot_before pre' id' post' Hm' Hid') as Hle.
        rewrite length_append. cbn [String.length].
        destruct (Nat.eq_dec (String.length pre) (String.length pre'))
          as [Heq|Hne]; [|lia].
        exfalso. rewrite Hm in Hm'.
        destruct (same_length_prefix _ _ _ _ Hm' Heq) as [_ Hrest].
        destruct Hid' as [Hlen' Hall'].
        destruct id' as [|d id']; [discriminate|].
        cbn in Hrest. injection Hrest as <- _.
        cbn [all_chars] in Hall'. apply andb_true_iff in Hall'.
        destruct Hall' as [Hd _]. vm_compute in Hd. discriminate.
Qed.

(** A phone number is taken for an order id: its first eight digits. *)
Example order_id_from_phone_number :
  _extract_order_id "kapan selesai? hp 081234567890" = Some "08123456"
  /\ _extract_order_id "pesanan #A1B2C3D4 kapan jadi" = Some "A1B2C3D4"
  /\ _extract_order_id "kapan selesai" = None.
Proof. vm_compute. repeat split. Qed.

End OrderIds.

(** ** Order summary *)

Section OrderSummary.
Import PyStr AnalyticsTools AnalyticsReports Notions.

Lemma count_known_fold {A} (f : A -> string) (rows : list A) :
  forall counts,
    fold_left (fun c o => count_known c (f o)) rows counts
    = map (fun kv =>
             (fst kv,
              (snd kv
               + Z.of_nat
                   (List.length
                      (filter (fun o => String.eqb (f o) (fst kv)) rows)))%Z))
          counts.
Proof.
  induction rows as [|o rows IH]; intro counts; cbn [fold_left filter].
  - cbn [List.length]. rewrite <- (map_id counts) at 1.
    apply map_ext. intros [k n]. cbn. f_equal. lia.
  - rewrite IH. unfold count_known. rewrite map_map.
    apply map_ext. intros [k n]. cbn [fst snd].
    rewrite (String.eqb_sym k (f o)).
    destruct (String.eqb (f o) k); cbn [fst snd List.length]; f_equal; lia.
Qed.

Lemma pair_fold {A B C} (f : B -> A -> B) (g : C -> A -> C)
  (rows : list A) :
  forall b c,
    fold_left (fun acc o => (f (fst acc) o, g (snd acc) o)) rows (b, c)
    = (fold_left f rows b, fold_left g rows c).
Proof.
  induction rows as [|o rows IH]; intros b c; cbn [fold_left fst snd];
    [reflexivity|apply IH].
Qed.

Lemma statuses_partition (rows : list order) :
  (with_status rows "pending" + with_status rows "in_progress"
   + with_status rows "ready_for_pickup" + with_status rows "completed"
   + with_status rows "cancelled" + with_other_status rows
   = Z.of_nat (List.length rows))%Z.
Proof.
  unfold with_status, with_other_status, counted_statuses, str_mem.
  induction rows as [|o rows IH]; [reflexivity|].
  cbn [filter].
  repeat match goal with
         | |- context [filter ?f rows] => set (filter f rows) in *
         end.
  cbn [existsb].
  destruct (String.eqb_spec (status o) "pending") as [E|H1];
    [try rewrite E;
     cbn [String.eqb Ascii.eqb Bool.eqb orb negb List.length]; lia|].
  destruct (String.eqb_spec (status o) "in_progress") as [E|H2];
    [try rewrite E;
     cbn [String.eqb Ascii.eqb Bool.eqb orb negb List.length]; lia|].
  destruct (String.eqb_spec (status o) "ready_for_pickup") as [E|H3];
    [try rewrite E;
     cbn [String.eqb Ascii.eqb Bool.eqb orb negb List.length]; lia|].
  destruct (String.eqb_spec (status o) "completed") as [E|H4];
    [try rewrite E;
     cbn [String.eqb Ascii.eqb Bool.eqb orb negb List.length]; lia|].
  destruct (String.eqb_spec (status o) "cancelled") as [E|H5];
    [try rewrite E;
     cbn [String.eqb Ascii.eqb Bool.eqb orb negb List.length]; lia|].
  cbn [orb negb List.length]. lia.
Qed.

(** X24: get_order_summary over the rows of the store asked for (every
    row when no store id or an empty one is given).  total_orders is the
    number of rows; by_status holds, for pending, in_progress,
    ready_for_pickup, completed and cancelled in that order, the number of
    rows with that status, and by_payment the same for pending, paid and
    refunded; active_orders is the number of rows that are pending,
    in_progress or ready_for_pickup.  A row with any other status is
    counted in total_orders only, so the counts by status add up to
    total_orders exactly when there is no such row. *)
Theorem order_summary_counts (orders : list order) (store : option string) :
  let s := get_order_summary orders store in
  let rows := filter (of_store store) orders in
  total_orders s = List.length rows
  /\ by_status s = map (fun k => (k, with_status rows k)) counted_statuses
  /\ by_payment s = map (fun k => (k, with_payment rows k)) counted_payments
  /\ active_orders s
     = (with_status rows "pending" + with_status rows "in_progress"
        + with_status rows "ready_for_pickup")%Z
  /\ (active_orders s + with_status rows "completed"
      + with_status rows "cancelled" + with_other_status rows
      = Z.of_nat (total_orders s))%Z.
Proof.
  cbv zeta. unfold get_order_summary.
  set (rows := filter (of_store store) orders).
  rewrite (pair_fold (fun c o => count_known c (status o))
                     (fun c o => count_known c (payment_status o))).
  cbn [fst snd total_orders by_status by_payment active_orders].
  rewrite !(count_known_fold status), (count_known_fold payment_status).
  cbn [map fst snd count_of find String.eqb Ascii.eqb Bool.eqb].
  fold (with_status rows "pending") (with_status rows "in_progress")
       (with_status rows "ready_for_pickup") (with_status rows "completed")
       (with_status rows "cancelled").
  fold (with_payment rows "pending") (with_payment rows "paid")
       (with_payment rows "refunded").
  split; [reflexivity|]. split; [reflexivity|]. split; [reflexivity|].
  split; [lia|].
  pose proof (statuses_partition rows). lia.
Qed.

End OrderSummary.

(** ** Rankings *)

Section Rankings.
Import PyStr AnalyticsReports Notions.

Lemma insert_desc_permutation {A} (key : A -> Z) (x : A) (l : list A) :
  Permutation (insert_desc key x l) (x :: l).
Proof.
  induction l as [|y l IH]; cbn [insert_desc]; [apply Permutation_refl|].
  destruct (key x <? key y)%Z; [|apply Permutation_refl].
  apply perm_trans with (y :: x :: l); [|apply perm_swap].
  apply perm_skip. exact IH.
Qed.

Lemma sorted_desc_permutation {A} (key : A -> Z) (l : list A) :
  Permutation (sorted_desc key l) l.
Proof.
  induction l as [|x l IH]; cbn; [apply perm_nil|].
  apply perm_trans with (x :: sorted_desc key l).
  - apply insert_desc_permutation.
  - apply perm_skip. exact IH.
Qed.

Lemma insert_desc_descending {A} (key : A -> Z) (x : A) (l : list A) :
  descending key l -> descending key (insert_desc key x l).
Proof.
  unfold descending. intro H.
  induction l as [|y l IH]; cbn [insert_desc].
  - constructor; constructor.
  - apply StronglySorted_inv in H. destruct H as [Hl Hy].
    destruct (Z.ltb_spec (key x) (key y)) as [Hlt|Hge].
    + constructor; [exact (IH Hl)|].
      apply Forall_forall. intros z Hz.
      apply (Permutation_in _ (insert_desc_permutation key x l)) in Hz.
      destruct Hz as [<-|Hz]; [lia|].
      rewrite Forall_forall in Hy. exact (Hy z Hz).
    + constructor; [constructor; assumption|].
      constructor; [exact Hge|].
      rewrite Forall_forall in Hy |- *. intros z Hz.
      specialize (Hy z Hz). cbv beta in Hy. lia.
Qed.

Lemma sorted_desc_descending {A} (key : A -> Z) (l : list A) :
  descending key (sorted_desc key l).
Proof.
  induction l as [|x l IH]; cbn; [constructor|].
  apply insert_desc_descending. exact IH.
Qed.

Lemma insert_desc_stable {A} (key : A -> Z) (k : Z) (x : A) (l : list A) :
  filter (fun y => (key y =? k)%Z) (insert_desc key x l)
  = filter (fun y => (key y =? k)%Z) (x :: l).
Proof.
  induction l as [|y l IH]; cbn [insert_desc]; [reflexivity|].
  destruct (Z.ltb_spec (key x) (key y)) as [Hlt|Hge]; [|reflexivity].
  cbn [filter] in *. rewrite IH.
  destruct (Z.eqb_spec (key x) k) as [Hx|Hx];
    destruct (Z.eqb_spec (key y) k) as [Hy|Hy]; try reflexivity.
  lia.
Qed.

Lemma sorted_desc_stable {A} (key : A -> Z) (k : Z) (l : list A) :
  filter (fun y => (key y =? k)%Z) (sorted_desc key l)
  = filter (fun y => (key y =? k)%Z) l.
Proof.
  induction l as [|x l IH]; [reflexivity|].
  cbn [sorted_desc fold_right]. fold (sorted_desc key l).
  rewrite insert_desc_stable. cbn [filter]. rewrite IH. reflexivity.
Qed.

Lemma up_to_firstn {A} (limit : Z) (xs : list A) :
  exists n, up_to limit xs = firstn n xs.
Proof.
  unfold up_to. destruct (0 <=? limit)%Z; eexists; reflexivity.
Qed.

Lemma descending_split {A} (key : A -> Z) (l1 l2 : list A) :
  descending key (l1 ++ l2)%list ->
  descending key l1
  /\ forall a b, In a l1 -> In b l2 -> (key b <= key a)%Z.
Proof.
  unfold descending. induction l1 as [|x l1 IH]; cbn [app]; intro H.
  - split; [constructor|]. intros a b [].
  - apply StronglySorted_inv in H. destruct H as [Hl Hx].
    destruct (IH Hl) as [Hs Hcross]. split.
    + constructor; [exact Hs|].
      rewrite Forall_forall in Hx |- *. intros z Hz. apply Hx.
      apply in_or_app. left. exact Hz.
    + intros a b [<-|Ha] Hb.
      * rewrite Forall_forall in Hx. apply Hx. apply in_or_app.
        right. exact Hb.
      * exact (Hcross a b Ha Hb).
Qed.

End Rankings.

(** ** Popular services *)

Section PopularServices.
Import PyStr AnalyticsReports Notions.

Lemma service_names_snoc (done : list order_item) (item : order_item) :
  service_names (done ++ [item])%list
  = if str_mem (service_name item) (service_names done)
    then service_names done
    else (service_names done ++ [service_name item])%list.
Proof. unfold service_names. rewrite fold_left_app. reflexivity. Qed.

Lemma stat_of_snoc (done : list order_item) (item : order_item)
  (name : string) :
  stat_of (done ++ [item])%list name
  = if String.eqb name (service_name item)
    then ServiceStat name (ordered done name + 1)
                     (quantity_of done name + quantity item)
                     (revenue_of done name + line_total item)
    else stat_of done name.
Proof.
  unfold stat_of, ordered, quantity_of, revenue_of.
  rewrite !fold_left_app. cbn [fold_left].
  destruct (String.eqb name (service_name item)); reflexivity.
Qed.

Lemma str_mem_app (w : string) (l1 l2 : list string) :
  str_mem w (l1 ++ l2)%list = str_mem w l1 || str_mem w l2.
Proof. unfold str_mem. apply existsb_app. Qed.

Lemma names_of_items (items : list order_item) (i : order_item) :
  In i items -> str_mem (service_name i) (service_names items) = true.
Proof.
  induction items as [|x items IH] using rev_ind; [intros []|].
  intro Hin. rewrite service_names_snoc.
  apply in_app_or in Hin.
  destruct (str_mem (service_name x) (service_names items)) eqn:Ex.
  - destruct Hin as [Hin|[<-|[]]]; [exact (IH Hin)|exact Ex].
  - rewrite str_mem_app. destruct Hin as [Hin|[<-|[]]].
    + rewrite (IH Hin). reflexivity.
    + unfold str_mem at 2. cbn [existsb]. rewrite String.eqb_refl.
      apply orb_true_r.
Qed.

Lemma items_of_names (items : list order_item) (name : string) :
  str_mem name (service_names items) = true ->
  exists i, In i items /\ service_name i = name.
Proof.
  induction items as [|x items IH] using rev_ind.
  - cbn. discriminate.
  - rewrite service_names_snoc. intro H.
    assert (Hcases : str_mem name (service_names items) = true
                     \/ name = service_name x).
    { destruct (str_mem (service_name x) (service_names items));
        [left; exact H|].
      rewrite str_mem_app in H. apply orb_true_iff in H.
      destruct H as [H|H]; [left; exact H|right].
      unfold str_mem in H. cbn [existsb] in H. rewrite orb_false_r in H.
      apply String.eqb_eq in H. exact H. }
    destruct Hcases as [Hc | ->].
    + destruct (IH Hc) as [i [Hi Hn]]. exists i.
      split; [apply in_or_app; left; exact Hi|exact Hn].
    + exists x. split; [apply in_or_app; right; left|]; reflexivity.
Qed.

Lemma unknown_service_is_zero (items : list order_item) (name : string) :
  str_mem name (service_names items) = false ->
  stat_of items name = ServiceStat name 0 0 0.
Proof.
  intro H.
  assert (Hno : forall i, In i items ->
                          String.eqb name (service_name i) = false).
  { intros i Hi. destruct (String.eqb_spec name (service_name i)) as [->|];
      [|reflexivity].
    rewrite (names_of_items items i Hi) in H. discriminate. }
  clear H. unfold stat_of, ordered, quantity_of, revenue_of.
  assert (Hfold : forall (A : Type) (step : A -> order_item -> A) (z : A),
            fold_left
              (fun total i =>
                 if String.eqb name (service_name i) then step total i
                 else total) items z = z).
  { intros A step. induction items as [|x items IH]; intro z;
      [reflexivity|].
    cbn [fold_left]. rewrite (Hno x (or_introl eq_refl)).
    apply IH. intros i Hi. apply Hno. right. exact Hi. }
  rewrite (Hfold Z (fun total _ => (total + 1)%Z)).
  rewrite (Hfold Z (fun total i => (total + quantity i)%Z)).
  rewrite (Hfold float (fun total i => (total + line_total i)%float)).
  reflexivity.
Qed.

Lemma has_service_names (items : list order_item) (names : list string)
  (name : string) :
  has_service (map (stat_of items) names) name = str_mem name names.
Proof.
  unfold has_service, str_mem.
  induction names as [|n names IH]; [reflexivity|].
  cbn [map existsb stat_of stat_name]. rewrite IH, (String.eqb_sym n name).
  reflexivity.
Qed.

Lemma count_item_step (done : list order_item) (item : order_item) :
  count_item (map (stat_of done) (service_names done)) item
  = map (stat_of (done ++ [item])%list)
        (service_names (done ++ [item])%list).
Proof.
  unfold count_item. rewrite has_service_names, service_names_snoc.
  assert (Hupd : forall names,
    add_to_service item (map (stat_of done) names)
    = map (stat_of (done ++ [item])%list) names).
  { intro names. unfold add_to_service. rewrite map_map.
    apply map_ext. intro n. rewrite stat_of_snoc.
    cbn [stat_of stat_name order_count total_quantity total_revenue].
    destruct (String.eqb n (service_name item)); reflexivity. }
  destruct (str_mem (service_name item) (service_names done)) eqn:E;
    cbn [negb].
  - apply Hupd.
  - rewrite <- Hupd, map_app. cbn [map].
    rewrite (unknown_service_is_zero done (service_name item) E).
    reflexivity.
Qed.

Lemma service_stats_are (items : list order_item) :
  fold_left count_item items []
  = map (stat_of items) (service_names items).
Proof.
  assert (H : forall rest done,
            fold_left count_item rest
                      (map (stat_of done) (service_names done))
            = map (stat_of (done ++ rest)%list)
                  (service_names (done ++ rest)%list)).
  { induction rest as [|item rest IH]; intro done.
    - rewrite app_nil_r. reflexivity.
    - cbn [fold_left]. rewrite count_item_step, IH, <- app_assoc.
      reflexivity. }
  exact (H items []).
Qed.

Lemma service_names_distinct (items : list order_item) :
  NoDup (service_names items).
Proof.
  induction items as [|x items IH] using rev_ind; [constructor|].
  rewrite service_names_snoc.
  destruct (str_mem (service_name x) (service_names items)) eqn:E;
    [exact IH|].
  apply NoDup_app; [exact IH|constructor; [intros []|constructor]|].
  intros n Hn [<-|[]].
  apply str_mem_true in Hn. congruence.
Qed.

Lemma ordered_is_count (items : list order_item) (name : string) :
  ordered items name
  = Z.of_nat
      (List.length
         (filter (fun i => String.eqb name (service_name i)) items)).
Proof.
  unfold ordered.
  assert (H : forall z,
            fold_left
              (fun total i =>
                 if String.eqb name (service_name i) then (total + 1)%Z
                 else total) items z
            = (z + Z.of_nat
                     (List.length
                        (filter (fun i => String.eqb name (service_name i))
                                items)))%Z).
  { induction items as [|x items IH]; intro z; cbn [fold_left filter].
    - cbn. lia.
    - rewrite IH. destruct (String.eqb name (service_name x));
        cbn [List.length]; lia. }
  rewrite H. lia.
Qed.

(** X25: get_popular_services ranks the services of the order items.
    Each service appears at most once, with the number of its items as
    order_count and their quantities and line totals added up; a listed
    service has at least one item.  The list is in descending order of
    order_count, services with equal counts in the order of their first
    item; a service that is left out by the limit has no more items than
    any listed one.  With a limit that is not negative the list has limit
    entries, or all the services when there are fewer.  The period, the
    store id and the clock have no effect on the result. *)
Theorem popular_services_ranking (items : list order_item) (now : Z)
  (period : string) (limit : Z) (store : option string) :
  let r := get_popular_services items now period limit store in
  (exists n,
     r = firstn n (sorted_desc order_count
                     (map (stat_of items) (service_names items))))
  /\ NoDup (map stat_name r)
  /\ descending order_count r
  /\ (forall s, In s r ->
        s = stat_of items (stat_name s)
        /\ (1 <= order_count s)%Z
        /\ order_count s
           = Z.of_nat
               (List.length
                  (filter (fun i => String.eqb (stat_name s)
                                               (service_name i)) items)))
  /\ (forall k,
        filter (fun s => (order_count s =? k)%Z)
               (sorted_desc order_count
                  (map (stat_of items) (service_names items)))
        = filter (fun s => (order_count s =? k)%Z)
                 (map (stat_of items) (service_names items)))
  /\ (forall i s,
        In i items -> In s r -> ~ In (service_name i) (map stat_name r) ->
        (ordered items (service_name i) <= order_count s)%Z)
  /\ ((0 <= limit)%Z ->
      List.length r
      = Nat.min (Z.to_nat limit) (List.length (service_names items)))
  /\ forall now' period' store',
       get_popular_services items now' period' limit store' = r.
Proof.
  cbv zeta. unfold get_popular_services. cbv zeta.
  rewrite service_stats_are.
  set (stats := map (stat_of items) (service_names items)).
  set (ranking := sorted_desc order_count stats).
  destruct (up_to_firstn limit ranking) as [n Hn]. rewrite Hn.
  assert (Hperm : Permutation ranking stats)
    by apply sorted_desc_permutation.
  assert (Hnames : map stat_name stats = service_names items).
  { unfold stats. rewrite map_map. cbn [stat_of stat_name]. apply map_id. }
  assert (Hsplit : ranking = (firstn n ranking ++ skipn n ranking)%list)
    by (symmetry; apply firstn_skipn).
  assert (Hdesc : descending order_count ranking)
    by apply sorted_desc_descending.
  rewrite Hsplit in Hdesc. apply descending_split in Hdesc.
  destruct Hdesc as [Hfirst Hcross].
  assert (Hin_stats : forall s, In s (firstn n ranking) -> In s stats).
  { intros s Hs. apply (Permutation_in _ Hperm).
    rewrite Hsplit. apply in_or_app. left. exact Hs. }
  assert (Hstat : forall s, In s stats ->
            s = stat_of items (stat_name s)
            /\ In (stat_name s) (service_names items)).
  { intros s Hs. unfold stats in Hs. apply in_map_iff in Hs.
    destruct Hs as [name [<- Hname]]. split; [reflexivity|exact Hname]. }
  split; [exists n; reflexivity|].
  split.
  { assert (Hnd : NoDup (map stat_name ranking)).
    { apply (Permutation_NoDup
               (Permutation_sym (Permutation_map stat_name Hperm))).
      rewrite Hnames. apply service_names_distinct. }
    rewrite Hsplit, map_app in Hnd.
    exact (NoDup_app_remove_r _ _ Hnd). }
  split; [exact Hfirst|].
  split.
  { intros s Hs. destruct (Hstat s (Hin_stats s Hs)) as [Heq Hname].
    split; [exact Heq|].
    assert (Hcount : order_count s
                     = Z.of_nat
                         (List.length
                            (filter (fun i => String.eqb (stat_name s)
                                                         (service_name i))
                                    items))).
    { rewrite Heq at 1. cbn [stat_of order_count]. apply ordered_is_count. }
    split; [|exact Hcount].
    apply str_mem_true in Hname. apply items_of_names in Hname.
    destruct Hname as [i [Hi Hn']].
    rewrite Hcount.
    assert (Hfi : In i (filter (fun i => String.eqb (stat_name s)
                                                    (service_name i))
                               items)).
    { apply filter_In. split; [exact Hi|]. rewrite Hn'.
      apply String.eqb_refl. }
    destruct (filter _ items); [destruct Hfi|cbn [List.length]; lia]. }
  split; [intro k; apply sorted_desc_stable|].
  split.
  { intros i s Hi Hs Hout.
    assert (Hmem : In (stat_of items (service_name i)) stats).
    { unfold stats. apply in_map. apply str_mem_true.
      exact (names_of_items items i Hi). }
    apply (Permutation_in _ (Permutation_sym Hperm)) in Hmem.
    rewrite Hsplit in Hmem. apply in_app_or in Hmem.
    destruct Hmem as [Hmem|Hmem].
    - exfalso. apply Hout.
      apply (in_map stat_name) in Hmem. exact Hmem.
    - exact (Hcross s _ Hs Hmem). }
  split.
  { intro Hlimit. rewrite <- Hn. unfold up_to.
    apply Z.leb_le in Hlimit. rewrite Hlimit.
    rewrite length_firstn.
    rewrite (Permutation_length Hperm). unfold stats.
    rewrite length_map. reflexivity. }
  intros now' period' store'. rewrite <- Hn. reflexivity.
Qed.

End PopularServices.

(** ** Peak hours *)

Section PeakHoursFacts.
Import PyStr AnalyticsReports Notions.
Variable fromisoformat_hour : string -> option Z.

Lemma count_hour_fold (created : list (option string)) :
  forall counts,
    fold_left
      (fun counts created_at =>
         match _parse_datetime fromisoformat_hour created_at with
         | Some h => count_hour counts h
         | None => counts
         end)
      created counts
    = map (fun kv =>
             (fst kv,
              (snd kv + at_hour fromisoformat_hour created (fst kv))%Z))
          counts.
Proof.
  unfold at_hour.
  induction created as [|c created IH]; intro counts; cbn [fold_left filter].
  - cbn [List.length]. rewrite <- (map_id counts) at 1.
    apply map_ext. intros [k n]. cbn. f_equal. lia.
  - rewrite IH.
    destruct (_parse_datetime fromisoformat_hour c) as [h|].
    + unfold count_hour. rewrite map_map. apply map_ext.
      intros [k n]. cbn [fst snd].
      destruct (Z.eqb_spec k h) as [->|Hne]; cbn [fst snd].
      * f_equal. cbn [List.length]. lia.
      * f_equal.
    + apply map_ext. intros [k n]. reflexivity.
Qed.

Lemma one_hour (h : Z) (n start : nat) :
  (Z.of_nat start <= h < Z.of_nat (start + n))%Z ->
  fold_right Z.add 0%Z
    (map (fun k => if (Z.of_nat k =? h)%Z then 1%Z else 0%Z) (seq start n))
  = 1%Z.
Proof.
  revert start. induction n as [|n IH]; intros start H; [lia|].
  cbn [seq map fold_right].
  destruct (Z.eqb_spec (Z.of_nat start) h) as [He|Hne].
  - assert (Hzero : forall m s, (h < Z.of_nat s)%Z ->
              fold_right Z.add 0%Z
                (map (fun k => if (Z.of_nat k =? h)%Z then 1%Z else 0%Z)
                     (seq s m)) = 0%Z).
    { induction m as [|m IHm]; intros s Hs; [reflexivity|].
      cbn [seq map fold_right].
      destruct (Z.eqb_spec (Z.of_nat s) h); [lia|].
      rewrite IHm by lia. reflexivity. }
    rewrite Hzero by lia. reflexivity.
  - rewrite IH by lia. reflexivity.
Qed.

Lemma sum_map_add {A} (f g : A -> Z) (l : list A) :
  fold_right Z.add 0%Z (map (fun k => (f k + g k)%Z) l)
  = (fold_right Z.add 0%Z (map f l) + fold_right Z.add 0%Z (map g l))%Z.
Proof.
  induction l as [|k l IH]; cbn [map fold_right]; [reflexivity|].
  rewrite IH. lia.
Qed.

Lemma hours_add_up (created : list (option string)) :
  (forall s h, fromisoformat_hour s = Some h -> (0 <= h < 24)%Z) ->
  fold_right Z.add 0%Z
    (map (at_hour fromisoformat_hour created) hours_of_day)
  = parsed fromisoformat_hour created.
Proof.
  intro Hrange.
  assert (Hparse : forall c h,
            _parse_datetime fromisoformat_hour c = Some h ->
            (0 <= h < 24)%Z).
  { intros [s|] h; cbn [_parse_datetime]; [|discriminate].
    destruct (String.eqb s ""); [discriminate|]. apply Hrange. }
  unfold hours_of_day. rewrite map_map.
  induction created as [|c created IH].
  - unfold at_hour, parsed. cbn [filter List.length].
    induction (seq 0 24) as [|k l IHl]; [reflexivity|].
    cbn [map fold_right]. rewrite IHl. reflexivity.
  - destruct (_parse_datetime fromisoformat_hour c) as [h|] eqn:E.
    + rewrite (map_ext
                 (fun k => at_hour fromisoformat_hour (c :: created)
                                   (Z.of_nat k))
                 (fun k => ((if (Z.of_nat k =? h)%Z then 1 else 0)
                            + at_hour fromisoformat_hour created
                                      (Z.of_nat k))%Z)).
      2:{ intro k. unfold at_hour. cbn [filter]. rewrite E.
          destruct (Z.of_nat k =? h)%Z; cbn [List.length]; lia. }
      rewrite sum_map_add, IH.
      rewrite (one_hour h 24 0) by (pose proof (Hparse c h E); cbn; lia).
      unfold parsed. cbn [filter]. rewrite E. cbn [List.length]. lia.
    + rewrite (map_ext
                 (fun k => at_hour fromisoformat_hour (c :: created)
                                   (Z.of_nat k))
                 (fun k => at_hour fromisoformat_hour created (Z.of_nat k))).
      2:{ intro k. unfold at_hour. cbn [filter]. rewrite E. reflexivity. }
      rewrite IH. unfold parsed. cbn [filter]. rewrite E. reflexivity.
Qed.

(** X26: get_peak_hours always returns 24 entries, one for each hour of
    the day from 0 to 23, each with the label HH:00 - HH:59 and with the
    number of rows whose created_at parses to that hour; a row whose
    created_at is missing, empty or cannot be parsed is counted nowhere.
    The entries are in descending order of order_count, hours with equal
    counts in ascending order.  As the hour a parsed time stamp gives is
    between 0 and 23, the counts add up to the number of rows that
    parse. *)
Theorem peak_hours_ranking (created : list (option string)) :
  (forall s h, fromisoformat_hour s = Some h -> (0 <= h < 24)%Z) ->
  let r := get_peak_hours fromisoformat_hour created in
  List.length r = 24%nat
  /\ Permutation (map hour r) hours_of_day
  /\ descending hour_order_count r
  /\ (forall p, In p r ->
        hour_order_count p = at_hour fromisoformat_hour created (hour p)
        /\ time_label p
           = two_digits (hour p) ++ ":00 - " ++ two_digits (hour p) ++ ":59")
  /\ (forall k,
        StronglySorted Z.lt
          (map hour (filter (fun p => (hour_order_count p =? k)%Z) r)))
  /\ fold_right Z.add 0%Z (map hour_order_count r)
     = parsed fromisoformat_hour created.
Proof.
  intros Hrange. cbv zeta. unfold get_peak_hours. cbv zeta.
  rewrite count_hour_fold, !map_map. cbn [fst snd].
  set (entry := fun h : nat =>
         PeakHour (Z.of_nat h)
                  (two_digits (Z.of_nat h) ++ ":00 - "
                   ++ two_digits (Z.of_nat h) ++ ":59")
                  (0 + at_hour fromisoformat_hour created (Z.of_nat h))).
  set (peak_hours := map entry (seq 0 24)).
  assert (Hperm : Permutation (sorted_desc hour_order_count peak_hours)
                              peak_hours)
    by apply sorted_desc_permutation.
  assert (Hhours : map hour peak_hours = hours_of_day).
  { unfold peak_hours, hours_of_day. rewrite map_map. reflexivity. }
  split.
  { rewrite (Permutation_length Hperm). unfold peak_hours.
    rewrite length_map, length_seq. reflexivity. }
  split.
  { rewrite <- Hhours. apply Permutation_map. exact Hperm. }
  split; [apply sorted_desc_descending|].
  split.
  { intros p Hp. apply (Permutation_in _ Hperm) in Hp.
    unfold peak_hours in Hp. apply in_map_iff in Hp.
    destruct Hp as [h [<- _]]. unfold entry.
    cbn [hour hour_order_count time_label]. split; [lia|reflexivity]. }
  split.
  { intro k. rewrite sorted_desc_stable. unfold peak_hours.
    assert (Hsorted : forall start n,
      StronglySorted Z.lt
        (map hour
           (filter (fun p => (hour_order_count p =? k)%Z)
                   (map entry (seq start n))))
      /\ Forall (fun h => (Z.of_nat start <= h)%Z)
            (map hour
               (filter (fun p => (hour_order_count p =? k)%Z)
                       (map entry (seq start n))))).
    { intros start n. revert start.
      induction n as [|n IH]; intro start; cbn [seq map filter].
      - split; constructor.
      - destruct (IH (S start)) as [Hs Hf].
        assert (Hf' : Forall (fun h => (Z.of_nat start < h)%Z)
                  (map hour
                     (filter (fun p => (hour_order_count p =? k)%Z)
                             (map entry (seq (S start) n))))).
        { eapply Forall_impl; [|exact Hf]. cbv beta. intros h Hh. lia. }
        destruct (hour_order_count (entry start) =? k)%Z; cbn [map].
        + split.
          * constructor; [exact Hs|]. unfold entry at 1. cbn [hour].
            exact Hf'.
          * constructor; [unfold entry; cbn [hour]; lia|].
            eapply Forall_impl; [|exact Hf']. cbv beta. intros h Hh. lia.
        + split; [exact Hs|].
          eapply Forall_impl; [|exact Hf']. cbv beta. intros h Hh. lia. }
    exact (proj1 (Hsorted 0%nat 24%nat)). }
  rewrite <- (hours_add_up created Hrange).
  assert (Hsum : forall l1 l2 : list peak_hour,
            Permutation l1 l2 ->
            fold_right Z.add 0%Z (map hour_order_count l1)
            = fold_right Z.add 0%Z (map hour_order_count l2)).
  { induction 1; cbn [map fold_right]; lia. }
  rewrite (Hsum _ _ Hperm). unfold peak_hours, hours_of_day.
  rewrite !map_map. reflexivity.
Qed.

End PeakHoursFacts.

Lemma peak_hours_ranking_witness :
  let r :=
    AnalyticsReports.get_peak_hours Notions.two_stamps
      [Some "2025-01-02T09:15:00Z"; None; Some "2025-01-02T17:40:00";
       Some "yesterday"; Some "2025-01-02T09:15:00+00:00"] in
  List.length r = 24%nat
  /\ Permutation (map AnalyticsReports.hour r) Notions.hours_of_day
  /\ Notions.descending AnalyticsReports.hour_order_count r
  /\ (forall p, In p r ->
        AnalyticsReports.hour_order_count p
        = Notions.at_hour Notions.two_stamps
            [Some "2025-01-02T09:15:00Z"; None; Some "2025-01-02T17:40:00";
             Some "yesterday"; Some "2025-01-02T09:15:00+00:00"]
            (AnalyticsReports.hour p)
        /\ AnalyticsReports.time_label p
           = AnalyticsReports.two_digits (AnalyticsReports.hour p)
             ++ ":00 - "
             ++ AnalyticsReports.two_digits (AnalyticsReports.hour p)
             ++ ":59")
  /\ (forall k,
        StronglySorted Z.lt
          (map AnalyticsReports.hour
             (filter
                (fun p => (AnalyticsReports.hour_order_count p =? k)%Z) r)))
  /\ fold_right Z.add 0%Z (map AnalyticsReports.hour_order_count r)
     = Notions.parsed Notions.two_stamps
         [Some "2025-01-02T09:15:00Z"; None; Some "2025-01-02T17:40:00";
          Some "yesterday"; Some "2025-01-02T09:15:00+00:00"].
Proof.
  apply (peak_hours_ranking Notions.two_stamps).
  intros s h. unfold Notions.two_stamps.
  destruct (String.eqb s "2025-01-02T09:15:00+00:00");
    [intro H; injection H as <-; lia|].
  destruct (String.eqb s "2025-01-02T17:40:00");
    [intro H; injection H as <-; lia|discriminate].
Defined.

(** ** Daily revenue *)

Section DailyRevenueFacts.
Import PyStr AnalyticsTools AnalyticsReports Notions.
Variable today : string.
Variable strptime_accepts : string -> bool.
Variable created_on : string -> order -> bool.

Lemma count_any_lookup (counts : list (string * Z)) (key k : string) :
  count_of (count_any counts key) k
  = (count_of counts k + if String.eqb key k then 1 else 0)%Z.
Proof.
  unfold count_of.
  induction counts as [|[k0 n0] counts IH]; cbn [count_any find fst snd].
  - destruct (String.eqb key k); reflexivity.
  - destruct (String.eqb_spec k0 key) as [->|Hne]; cbn [find fst snd].
    + destruct (String.eqb key k); cbn [snd]; [reflexivity|lia].
    + destruct (String.eqb_spec k0 k) as [->|Hk]; cbn [snd].
      * apply String.eqb_neq in Hne. rewrite String.eqb_sym, Hne. lia.
      * exact IH.
Qed.

Lemma count_any_keys (counts : list (string * Z)) (key : string) :
  map fst (count_any counts key)
  = if str_mem key (map fst counts) then map fst counts
    else (map fst counts ++ [key])%list.
Proof.
  unfold str_mem.
  induction counts as [|[k0 n0] counts IH]; cbn [count_any map fst existsb];
    [reflexivity|].
  rewrite (String.eqb_sym key k0).
  destruct (String.eqb k0 key); cbn [map fst orb]; [reflexivity|].
  rewrite IH. destruct (existsb (String.eqb key) (map fst counts));
    reflexivity.
Qed.

Lemma count_any_total (counts : list (string * Z)) (key : string) :
  fold_right Z.add 0%Z (map snd (count_any counts key))
  = (fold_right Z.add 0%Z (map snd counts) + 1)%Z.
Proof.
  induction counts as [|[k0 n0] counts IH]; cbn [count_any map snd fold_right];
    [reflexivity|].
  destruct (String.eqb k0 key); cbn [map snd fold_right]; [lia|].
  rewrite IH. lia.
Qed.

Lemma with_status_snoc (done : list order) (o : order) (k : string) :
  with_status (done ++ [o])%list k
  = (with_status done k + if String.eqb (status o) k then 1 else 0)%Z.
Proof.
  unfold with_status. rewrite filter_app, length_app. cbn [filter].
  destruct (String.eqb (status o) k); cbn [List.length]; lia.
Qed.

Lemma status_counts_are (rows : list order) :
  let counts :=
    fold_left (fun counts o => count_any counts (status o)) rows [] in
  (forall k, count_of counts k = with_status rows k)
  /\ NoDup (map fst counts)
  /\ (forall k, In k (map fst counts) <->
                exists o, In o rows /\ status o = k)
  /\ fold_right Z.add 0%Z (map snd counts) = Z.of_nat (List.length rows).
Proof.
  cbv zeta. induction rows as [|o rows IH] using rev_ind.
  - cbn [fold_left map]. split; [|split; [|split]].
    + intro k. reflexivity.
    + constructor.
    + intro k. split; [intros []|intros [o [[] _]]].
    + reflexivity.
  - rewrite fold_left_app. cbn [fold_left].
    set (counts := fold_left (fun counts o => count_any counts (status o))
                             rows []) in *.
    destruct IH as [Hcount [Hnd [Hkeys Hsum]]].
    split; [|split; [|split]].
    + intro k. rewrite count_any_lookup, with_status_snoc, Hcount.
      reflexivity.
    + rewrite count_any_keys.
      destruct (str_mem (status o) (map fst counts)) eqn:E; [exact Hnd|].
      apply NoDup_app; [exact Hnd|constructor; [intros []|constructor]|].
      intros k Hk [<-|[]]. apply str_mem_true in Hk. congruence.
    + intro k. rewrite count_any_keys. split.
      * intro Hin.
        assert (Hcases : In k (map fst counts) \/ k = status o).
        { destruct (str_mem (status o) (map fst counts));
            [left; exact Hin|].
          apply in_app_or in Hin. destruct Hin as [H|[<-|[]]];
            [left; exact H|right; reflexivity]. }
        destruct Hcases as [Hc | ->].
        -- apply Hkeys in Hc. destruct Hc as [x [Hx Hs]].
           exists x. split; [apply in_or_app; left; exact Hx|exact Hs].
        -- exists o. split; [apply in_or_app; right; left|]; reflexivity.
      * intros [x [Hx Hs]]. apply in_app_or in Hx.
        assert (Hcases : In k (map fst counts) \/ k = status o).
        { destruct Hx as [Hx|[<-|[]]]; [left|right; symmetry; exact Hs].
          apply Hkeys. exists x. split; assumption. }
        destruct (str_mem (status o) (map fst counts)) eqn:E.
        -- destruct Hcases as [Hc | ->]; [exact Hc|].
           apply str_mem_true. exact E.
        -- apply in_or_app. destruct Hcases as [Hc | ->];
             [left; exact Hc|right; left; reflexivity].
    + rewrite count_any_total, Hsum, length_app. cbn [List.length]. lia.
Qed.

Lemma rows_all_paid (rows : list order) :
  (forall o, In o rows -> payment_status o = "paid") ->
  rows_with_payment rows "paid" = rows
  /\ rows_with_payment rows "pending" = [].
Proof.
  unfold rows_with_payment.
  induction rows as [|o rows IH]; intro H; [split; reflexivity|].
  cbn [filter]. rewrite (H o (or_introl eq_refl)). cbn.
  destruct IH as [-> ->]; [|split; reflexivity].
  intros x Hx. apply H. right. exact Hx.
Qed.

(** X27: get_daily_revenue.  A date that strptime does not accept (the
    date given, or today's date when none or an empty one is given) gives
    the error 'Invalid date format. Use YYYY-MM-DD' and nothing is
    computed.  Otherwise, over the selected rows (created on the date,
    not cancelled, of the store asked for): total_orders is their number;
    orders_by_status has one entry for each status that occurs, with the
    number of rows of that status, so its counts add up to total_orders
    and it never has an entry for cancelled; total_revenue,
    paid_revenue and pending_revenue are three separate float sums, over
    all the rows, the paid ones and the pending ones; when every row is
    paid, paid_revenue is total_revenue and pending_revenue is 0. *)
Theorem daily_revenue_totals (orders : list order) (date : option string)
  (store : option string) :
  match get_daily_revenue today strptime_accepts created_on orders date
                          store with
  | InvalidDate error d =>
      strptime_accepts d = false
      /\ error = "Invalid date format. Use YYYY-MM-DD"
  | DailyRevenue d n total paid pending counts =>
      let rows := rows_of_day created_on orders d store in
      strptime_accepts d = true
      /\ n = List.length rows
      /\ (forall k, count_of counts k = with_status rows k)
      /\ NoDup (map fst counts)
      /\ (forall k, In k (map fst counts) <->
                    exists o, In o rows /\ status o = k)
      /\ ~ In "cancelled" (map fst counts)
      /\ fold_right Z.add 0%Z (map snd counts) = Z.of_nat n
      /\ total = sum_amounts rows
      /\ paid = sum_amounts (rows_with_payment rows "paid")
      /\ pending = sum_amounts (rows_with_payment rows "pending")
      /\ ((forall o, In o rows -> payment_status o = "paid") ->
          paid = total /\ pending = 0%float)
  end.
Proof.
  unfold get_daily_revenue.
  set (d := match date with
            | Some d => if String.eqb d "" then today else d
            | None => today
            end).
  destruct (strptime_accepts d) eqn:E; cbn [negb];
    [|split; [exact E|reflexivity]].
  cbv zeta. fold (rows_of_day created_on orders d store).
  set (rows := rows_of_day created_on orders d store).
  destruct (status_counts_are rows) as [Hcount [Hnd [Hkeys Hsum]]].
  cbv zeta in Hcount, Hnd, Hkeys, Hsum.
  split; [exact E|]. split; [reflexivity|]. split; [exact Hcount|].
  split; [exact Hnd|]. split; [exact Hkeys|]. split.
  - intro Hin. apply Hkeys in Hin. destruct Hin as [o [Ho Hs]].
    unfold rows, rows_of_day in Ho. apply filter_In in Ho.
    destruct Ho as [_ Ho]. rewrite Hs in Ho. cbn in Ho.
    rewrite andb_false_r in Ho. discriminate.
  - split; [exact Hsum|]. split; [reflexivity|].
    split; [reflexivity|]. split; [reflexivity|].
    intro Hpaid. fold (rows_with_payment rows "paid").
    fold (rows_with_payment rows "pending").
    destruct (rows_all_paid rows Hpaid) as [-> ->].
    split; reflexivity.
Qed.

End DailyRevenueFacts.

(** ** Loading the analytics tools *)

Section ToolsLoading.
Import PyStr Keywords Agent Requests Notions.
Variable rt : runtime.

Lemma nr_ret {A} (a : A) : no_reload (ret a).
Proof.
  intros w r w' Hw H. injection H as _ <-. split; [exact Hw|].
  exists []. rewrite app_nil_r. split; reflexivity.
Qed.

Lemma nr_lift {A} (r : res A) : no_reload (lift r).
Proof.
  intros w r' w' Hw H. injection H as _ <-. split; [exact Hw|].
  exists []. rewrite app_nil_r. split; reflexivity.
Qed.

Lemma nr_get_self : no_reload get_self.
Proof.
  intros w r w' Hw H. injection H as _ <-. split; [exact Hw|].
  exists []. rewrite app_nil_r. split; reflexivity.
Qed.

Lemma nr_emit (ev : event) : is_load ev = false -> no_reload (emit ev).
Proof.
  intros Hev w r w' Hw H. injection H as _ <-. split; [exact Hw|].
  exists [ev]. cbn [events existsb]. rewrite Hev. split; reflexivity.
Qed.

Lemma nr_call (c : call) :
  is_load (Called c) = false -> no_reload (call_tool c).
Proof.
  intros Hev w r w' Hw H. injection H as _ <-. split; [exact Hw|].
  exists [Called c]. cbn [events existsb]. rewrite Hev. split; reflexivity.
Qed.

Lemma nr_update (f : agent -> agent) :
  (forall a, _tools_loaded (f a) = _tools_loaded a) ->
  no_reload (update_self f).
Proof.
  intros Hf w r w' Hw H. injection H as _ <-. cbn [self events].
  split; [rewrite Hf; exact Hw|].
  exists []. rewrite app_nil_r. split; reflexivity.
Qed.

Lemma nr_bind {A B} (m : M A) (f : A -> M B) :
  no_reload m -> (forall a, no_reload (f a)) -> no_reload (bind m f).
Proof.
  intros Hm Hf w r w' Hw H. unfold bind in H.
  destruct (m w) as [[a|e] w1] eqn:E.
  - destruct (Hm w _ w1 Hw E) as [Hw1 [evs1 [He1 Hl1]]].
    destruct (Hf a w1 r w' Hw1 H) as [Hw' [evs2 [He2 Hl2]]].
    split; [exact Hw'|]. exists (evs1 ++ evs2)%list.
    rewrite He2, He1, app_assoc, existsb_app, Hl1, Hl2.
    split; reflexivity.
  - injection H as _ <-. exact (Hm w _ w1 Hw E).
Qed.

Lemma nr_try {A} (body : M A) (handler : exn -> M A) :
  no_reload body -> (forall e, no_reload (handler e)) ->
  no_reload (try_except body handler).
Proof.
  intros Hm Hf w r w' Hw H. unfold try_except in H.
  destruct (body w) as [[a|e] w1] eqn:E.
  - injection H as _ <-. exact (Hm w _ w1 Hw E).
  - destruct (Hm w _ w1 Hw E) as [Hw1 [evs1 [He1 Hl1]]].
    destruct (Hf e w1 r w' Hw1 H) as [Hw' [evs2 [He2 Hl2]]].
    split; [exact Hw'|]. exists (evs1 ++ evs2)%list.
    rewrite He2, He1, app_assoc, existsb_app, Hl1, Hl2.
    split; reflexivity.
Qed.

Lemma nr_for_each {A} (body : A -> M unit) (xs : list A) :
  (forall x, no_reload (body x)) -> no_reload (for_each xs body).
Proof.
  intro Hbody. induction xs as [|x xs IH]; cbn [for_each].
  - apply nr_ret.
  - apply nr_bind; [apply Hbody|intros _; exact IH].
Qed.

Lemma nr_ensure : no_reload _ensure_tools_loaded.
Proof.
  intros w r w' Hw. unfold _ensure_tools_loaded, bind, get_self.
  rewrite Hw. cbn [negb]. apply nr_ret. exact Hw.
Qed.

Ltac steady :=
  repeat first
    [ apply nr_ret
    | apply nr_lift
    | apply nr_get_self
    | apply nr_ensure
    | apply nr_emit; reflexivity
    | apply nr_call; reflexivity
    | apply nr_update; intros []; reflexivity
    | apply nr_for_each; intro
    | apply nr_bind; [|intro]
    | apply nr_try; [|intro]
    | match goal with
      | |- no_reload (if ?b then _ else _) => destruct b
      | |- no_reload (match ?x with _ => _ end) => destruct x
      | |- no_reload (let _ := _ in _) => cbv zeta
      end
    | assumption ].

Lemma nr_load_store_cache : no_reload (_load_store_cache rt).
Proof. unfold _load_store_cache, cache_store_normalized. steady. Qed.

Lemma nr_gemini_client : no_reload (gemini_client rt).
Proof. unfold gemini_client. steady. Qed.

Lemma nr_get_store_name (store_id : string) :
  no_reload (_get_store_name_by_id rt store_id).
Proof.
  unfold _get_store_name_by_id. pose proof nr_load_store_cache. steady.
Qed.

Lemma nr_ask (report : string) : no_reload (_ask_for_store_context rt report).
Proof.
  unfold _ask_for_store_context. pose proof nr_load_store_cache. steady.
Qed.

Lemma nr_list_stores : no_reload (list_stores rt).
Proof. unfold list_stores, cache_store. steady. Qed.

Lemma nr_get_store_by_name (name : string) :
  no_reload (get_store_by_name rt name).
Proof.
  unfold get_store_by_name, store_card. pose proof nr_load_store_cache.
  steady.
Qed.

Lemma nr_handlers (r : request) : no_reload (run rt r).
Proof.
  pose proof nr_load_store_cache as Hcache.
  pose proof nr_get_store_name as Hname.
  pose proof nr_ask as Hask.
  destruct r; cbn [run];
    [ unfold get_daily_report | unfold get_weekly_report
    | unfold get_monthly_report | unfold compare_periods
    | unfold get_top_services | unfold Agent.get_peak_hours
    | unfold get_churned_customers | unfold get_inactive_customers
    | unfold get_customer_points | unfold get_points_summary
    | exact nr_list_stores ];
    steady; try apply Hname; try apply Hask.
Qed.

Lemma nr_classify (query : string) : no_reload (classify rt query).
Proof.
  unfold classify, _classify_intent_with_llm.
  pose proof nr_gemini_client. steady.
Qed.

Lemma nr_resolve (query provided : string) :
  no_reload (_resolve_store_id rt query provided).
Proof.
  unfold _resolve_store_id. pose proof nr_load_store_cache. steady.
Qed.

Lemma nr_complex (query : string) : no_reload (_handle_complex_query rt query).
Proof.
  unfold _handle_complex_query. pose proof nr_gemini_client. steady.
Qed.

Lemma nr_process_query (query : string) (store_id : option string) :
  no_reload (process_query rt query store_id).
Proof.
  unfold process_query.
  pose proof (nr_classify query) as Hclassify.
  pose proof (nr_resolve query) as Hresolve.
  pose proof nr_list_stores as Hlist.
  pose proof nr_get_store_by_name as Hstore.
  pose proof nr_complex as Hcomplex.
  pose proof (fun p s => nr_handlers (ComparePeriods p s)) as H1.
  pose proof (fun d s => nr_handlers (DailyReport d s)) as H2.
  pose proof (fun s => nr_handlers (WeeklyReport s)) as H3.
  pose proof (fun s => nr_handlers (MonthlyReport s)) as H4.
  pose proof (fun d l s => nr_handlers (TopServices d l s)) as H5.
  pose proof (fun d s => nr_handlers (PeakHours d s)) as H6.
  pose proof (fun d => nr_handlers (ChurnedCustomers d)) as H7.
  pose proof (fun d => nr_handlers (InactiveCustomers d)) as H8.
  pose proof (fun p => nr_handlers (CustomerPoints p)) as H9.
  pose proof (fun s => nr_handlers (PointsSummary s)) as H10.
  cbn [run] in *.
  destruct (String.eqb query "" || String.eqb (strip query) "");
    [apply nr_ret|].
  apply nr_bind; [apply nr_ensure|intros _].
  apply nr_bind; [exact Hclassify|intro c].
  apply nr_bind; [apply Hresolve|intro effective_store_id].
  repeat match goal with
         | |- no_reload (if ?b then _ else _) => destruct b
         end;
    first [ exact Hlist | apply Hstore | apply H1 | apply H2 | apply H3
          | apply H4 | apply H5 | apply H6 | apply H7 | apply H8 | apply H9
          | apply H10 | apply Hcomplex | apply nr_ret | idtac ].
  all: repeat match goal with
              | |- no_reload (match ?x with _ => _ end) => destruct x
              end;
    first [ apply H9 | apply nr_ret | apply nr_lift ].
Qed.

(** X28: the analytics tools are loaded at most once.  With the tools not
    loaded, _ensure_tools_loaded calls load_analytics_tools once; if that
    raises, the tools still count as not loaded and the next call tries
    again.  Once the tools count as loaded they stay so, and neither
    _ensure_tools_loaded nor any of the eleven handlers nor
    process_query calls load_analytics_tools again, whatever the query,
    the tool server and the completion service do. *)
Theorem tools_loaded_once :
  (forall w,
     _tools_loaded (self w) = false ->
     let w1 := snd (_ensure_tools_loaded w) in
     events w1 = (events w ++ [Called load_analytics_tools])%list
     /\ match _toolbox_client (self w) (events w) load_analytics_tools with
        | Ret _ =>
            _ensure_tools_loaded w = (Ret tt, w1)
            /\ _tools_loaded (self w1) = true
        | Raise e =>
            _ensure_tools_loaded w = (Raise e, w1)
            /\ _tools_loaded (self w1) = false
        end)
  /\ no_reload _ensure_tools_loaded
  /\ (forall r, no_reload (run rt r))
  /\ (forall query store_id, no_reload (process_query rt query store_id)).
Proof.
  split; [|split; [exact nr_ensure|split;
                   [exact nr_handlers|exact nr_process_query]]].
  intros w Hw. cbv zeta.
  unfold _ensure_tools_loaded, bind, get_self, call_tool, update_self, ret.
  cbn [self events]. rewrite Hw. cbn [negb].
  destruct (_toolbox_client (self w) (events w) load_analytics_tools);
    cbn [snd self events fst _tools_loaded set_tools_loaded];
    repeat split; exact Hw.
Qed.

End ToolsLoading.
